(** * web2api recipes: a shallow embedding of the four scrapers

    The four recipes (Brave Search, DeepL, Wikipedia, X) are Python
    coroutines that drive a Playwright page, or a subprocess, and build a
    [ScrapeResult].  They are embedded here as functions in a small
    log-and-exception monad: every call on the browser appends an event to
    the log and receives its answer from an oracle (a record of answers
    standing for the live page), and a Python exception is a [Raise]
    result.

    A Python [str] is held as its UTF-8 bytes.  White space, decimal
    digits and the length of a text are those of Unicode 14, as
    [str.strip], [int], [len] and [re] have them; letter case is that of
    the ASCII range.  Python numbers are modelled as integers. *)

From Stdlib Require Import ZArith String Ascii List Lia Bool.
From stdpp Require Import gmap strings list pretty.
Import ListNotations.
Open Scope string_scope.
Open Scope list_scope.
Open Scope Z_scope.
Set Warnings "-register-all".

(* ===================================================================== *)
(** * Part I: definitions                                                 *)
(* ===================================================================== *)

(** ** Python built-ins used by the recipes *)

Module Py.

(** The double quote character, for selectors and JSON text. *)
Definition dquote : string := String (ascii_of_nat 34) EmptyString.

(** *** Characters

    A character outside the ASCII range takes two to four bytes of the
    text.  No encoding of a character is the start of the encoding of
    another one, and none occurs inside the encoding of another, so a
    character is recognised in a text by its bytes. *)

Definition byte (c : ascii) : Z := Z.of_nat (nat_of_ascii c).

(** The UTF-8 bytes of a code point. *)
Definition utf8 (cp : Z) : string :=
  let b (n : Z) := String (ascii_of_nat (Z.to_nat n)) in
  if cp <? 128 then b cp EmptyString
  else if cp <? 2048 then b (192 + cp / 64) (b (128 + cp mod 64) EmptyString)
  else if cp <? 65536
  then b (224 + cp / 4096) (b (128 + (cp / 64) mod 64) (b (128 + cp mod 64) EmptyString))
  else b (240 + cp / 262144)
         (b (128 + (cp / 4096) mod 64)
            (b (128 + (cp / 64) mod 64) (b (128 + cp mod 64) EmptyString))).

(** [s] without its prefix [w]. *)
Fixpoint after_prefix (w s : string) : option string :=
  match w, s with
  | EmptyString, _ => Some s
  | String a w', String b s' => if Ascii.eqb a b then after_prefix w' s' else None
  | String _ _, EmptyString => None
  end.

(** What follows the first of the strings [ws] that [s] starts with. *)
Fixpoint after_any (ws : list string) (s : string) : option string :=
  match ws with
  | [] => None
  | w :: ws' =>
      match after_prefix w s with
      | Some r => Some r
      | None => after_any ws' s
      end
  end.

(** [s] without the characters of [ws] it starts with; the length of
    [s] is fuel enough. *)
Fixpoint skip (ws : list string) (fuel : nat) (s : string) : string :=
  match fuel with
  | O => s
  | S fuel' =>
      match after_any ws s with
      | Some r => skip ws fuel' r
      | None => s
      end
  end.

(** The characters for which [str.isspace] holds, which are those that
    [str.strip] removes and that [\s] matches in [re]: TAB, LF, VT, FF,
    CR, FS, GS, RS, US, the space, NEL, the no-break space, the Ogham
    space mark, EN QUAD to HAIR SPACE, the line and the paragraph
    separator, the narrow no-break space, the medium mathematical space
    and the ideographic space. *)
Definition space_code_points : list Z :=
  [9; 10; 11; 12; 13; 28; 29; 30; 31; 32; 133; 160; 5760;
   8192; 8193; 8194; 8195; 8196; 8197; 8198; 8199; 8200; 8201; 8202;
   8232; 8233; 8239; 8287; 12288].

Definition spaces : list string := map utf8 space_code_points.

(** What follows the white-space character at the head of [s]. *)
Definition after_space (s : string) : option string := after_any spaces s.

(** [s.lstrip()] *)
Definition lstrip (s : string) : string := skip spaces (String.length s) s.

(** [s.rstrip()]: from the end, a character is dropped when, with what
    is kept behind it, it is one white-space character. *)
Fixpoint rstrip (s : string) : string :=
  match s with
  | EmptyString => EmptyString
  | String c s' =>
      let r := String c (rstrip s') in
      if existsb (String.eqb r) spaces then EmptyString else r
  end.

(** [s.strip()] *)
Definition strip (s : string) : string := lstrip (rstrip s).

(** [len(s)]: the number of characters.  Every character has one byte
    that is no continuation byte (one of 128 to 191). *)
Fixpoint len (s : string) : nat :=
  match s with
  | EmptyString => O
  | String c s' =>
      if (128 <=? byte c) && (byte c <? 192) then len s' else S (len s')
  end.

(** [s.lstrip(chars)] for a one-character [chars]. *)
Fixpoint lstrip_char (ch : ascii) (s : string) : string :=
  match s with
  | EmptyString => EmptyString
  | String c s' => if Ascii.eqb c ch then lstrip_char ch s' else s
  end.

(** Truth value of a string: [not s] is [is_empty s]. *)
Definition is_empty (s : string) : bool :=
  match s with EmptyString => true | _ => false end.

(** [x or ""] for a value that is a string or [None]. *)
Definition or_empty (o : option string) : string :=
  match o with Some s => s | None => EmptyString end.

Definition lower_char (c : ascii) : ascii :=
  let n := nat_of_ascii c in
  if ((65 <=? n) && (n <=? 90))%nat then ascii_of_nat (n + 32) else c.

(** [s.lower()] *)
Fixpoint lower (s : string) : string :=
  match s with
  | EmptyString => EmptyString
  | String c s' => String (lower_char c) (lower s')
  end.

(** [s.startswith(p)] *)
Definition startswith (s p : string) : bool := String.prefix p s.

(** [needle in hay] *)
Fixpoint contains (needle hay : string) : bool :=
  if String.prefix needle hay then true
  else match hay with
       | EmptyString => false
       | String _ hay' => contains needle hay'
       end.

(** [s.find(ch)] for a one-character argument: the index, or [-1]. *)
Fixpoint find_char (ch : ascii) (s : string) : Z :=
  match s with
  | EmptyString => -1
  | String c s' =>
      if Ascii.eqb c ch then 0
      else match find_char ch s' with
           | -1 => -1
           | i => i + 1
           end
  end.

(** [s[i:]] for [0 <= i]. *)
Fixpoint drop (i : nat) (s : string) : string :=
  match i, s with
  | O, _ => s
  | S i', String _ s' => drop i' s'
  | S _, EmptyString => EmptyString
  end.

(** [s.split(sep)] for a one-character separator: never empty. *)
Fixpoint split (sep : ascii) (s : string) : list string :=
  match s with
  | EmptyString => [EmptyString]
  | String c s' =>
      if Ascii.eqb c sep then EmptyString :: split sep s'
      else match split sep s' with
           | h :: t => String c h :: t
           | [] => [String c EmptyString]
           end
  end.

(** [s.split(sep, 1)[1]]: what follows the first separator; an
    [IndexError] ([None]) when there is none. *)
Fixpoint after_first (sep : ascii) (s : string) : option string :=
  match s with
  | EmptyString => None
  | String c s' => if Ascii.eqb c sep then Some s' else after_first sep s'
  end.

(** [s.replace(a, b)] for one-character [a] and [b]. *)
Fixpoint replace_char (a b : ascii) (s : string) : string :=
  match s with
  | EmptyString => EmptyString
  | String c s' => String (if Ascii.eqb c a then b else c) (replace_char a b s')
  end.

(** [sep.join(parts)] *)
Fixpoint join (sep : string) (parts : list string) : string :=
  match parts with
  | [] => EmptyString
  | [p] => p
  | p :: rest => p +:+ sep +:+ join sep rest
  end.

(** [str(n)] for an integer. *)
Definition str_of_int (n : Z) : string := pretty n.

(** The zeros of the decimal digits of Unicode: each is followed by its
    digits one to nine.  The first is the ASCII zero, the second the
    Arabic-Indic one. *)
Definition zeros : list Z :=
  [48; 1632; 1776; 1984; 2406; 2534; 2662; 2790; 2918; 3046; 3174; 3302; 3430;
   3558; 3664; 3792; 3872; 4160; 4240; 6112; 6160; 6470; 6608; 6784; 6800;
   6992; 7088; 7232; 7248; 42528; 43216; 43264; 43472; 43504; 43600; 44016;
   65296; 66720; 68912; 69734; 69872; 69942; 70096; 70384; 70736; 70864;
   71248; 71360; 71472; 71904; 72016; 72784; 73040; 73120; 92768; 92864;
   93008; 120782; 120792; 120802; 120812; 120822; 123200; 123632; 125264;
   130032].

(** The decimal digits with their values. *)
Definition decimal_digits : list (Z * string) :=
  flat_map (fun z => map (fun d => (d, utf8 (z + d))) [0; 1; 2; 3; 4; 5; 6; 7; 8; 9])
           zeros.

Fixpoint after_first_digit (ds : list (Z * string)) (s : string) : option (Z * string) :=
  match ds with
  | [] => None
  | (d, w) :: ds' =>
      match after_prefix w s with
      | Some r => Some (d, r)
      | None => after_first_digit ds' s
      end
  end.

(** The value of the decimal digit at the head of [s], and what follows
    it. *)
Definition after_digit (s : string) : option (Z * string) :=
  after_first_digit decimal_digits s.

(** The white space [int] allows around a number: that of [str.isspace]
    but for FS, GS, RS and US. *)
Definition int_blanks : list string :=
  map utf8 (List.filter (fun cp => negb ((28 <=? cp) && (cp <=? 31))) space_code_points).

(** The digits of an integer literal: at least one digit, single
    underscores allowed between digits only.  The result is the value,
    the number of digits and what follows the literal. *)
Fixpoint digits (fuel : nat) (acc : Z) (count : nat) (after_a_digit : bool) (s : string)
  : option (Z * nat * string) :=
  match fuel with
  | O => if after_a_digit then Some (acc, count, s) else None
  | S fuel' =>
      match after_digit s with
      | Some (d, r) => digits fuel' (10 * acc + d) (S count) true r
      | None =>
          match s with
          | String "_" r => if after_a_digit then digits fuel' acc count false r else None
          | _ => if after_a_digit then Some (acc, count, s) else None
          end
      end
  end.

(** [int(s)] for a string, base ten: white space, an optional sign, the
    digits, white space.  A literal of more than 4300 digits is refused
    (the default of [sys.set_int_max_str_digits]).  [None] is
    [ValueError]. *)
Definition int (s : string) : option Z :=
  let s := skip int_blanks (String.length s) s in
  let '(negative, s) := match s with
                        | String "-" r => (true, r)
                        | String "+" r => (false, r)
                        | _ => (false, s)
                        end in
  match digits (String.length s) 0 0 false s with
  | Some (n, count, rest) =>
      if (4300 <? count)%nat then None
      else if is_empty (skip int_blanks (String.length rest) rest)
           then Some (if negative then - n else n)
           else None
  | None => None
  end.

(** [l[:n]]: a negative bound counts from the end. *)
Definition slice_to {A} (l : list A) (n : Z) : list A :=
  if n <? 0 then firstn (Z.to_nat (Z.of_nat (length l) + n)) l
  else firstn (Z.to_nat n) l.

Definition hex_digit (n : nat) : ascii :=
  if (n <? 10)%nat then ascii_of_nat (48 + n) else ascii_of_nat (55 + n).

(** The characters [urllib.parse.quote] never escapes. *)
Definition always_safe (c : ascii) : bool :=
  let n := nat_of_ascii c in
  (((48 <=? n) && (n <=? 57)) || ((65 <=? n) && (n <=? 90))
   || ((97 <=? n) && (n <=? 122))
   || (n =? 95) || (n =? 46) || (n =? 45) || (n =? 126))%nat.

(** [urllib.parse.quote(s, safe=safe)]: every other byte becomes
    a percent sign and two upper-case hexadecimal digits. *)
Fixpoint quote (safe : string) (s : string) : string :=
  match s with
  | EmptyString => EmptyString
  | String c s' =>
      if always_safe c || contains (String c EmptyString) safe
      then String c (quote safe s')
      else let n := nat_of_ascii c in
           String "%" (String (hex_digit (n / 16)) (String (hex_digit (n mod 16))
                                                      (quote safe s')))
  end.

End Py.

(** ** Values, results and the effect monad *)

(** Python values as [json] and the recipes build them.  A dict keeps its
    insertion order, which [json.dumps] follows. *)
Inductive pyval : Type :=
| PNone
| PBool (b : bool)
| PInt (n : Z)
| PStr (s : string)
| PList (l : list pyval)
| PDict (d : list (string * pyval)).

(** An item of a result: [dict[str, Any]]. *)
Definition item : Type := list (string * pyval).

(** [d.get(k)] *)
Fixpoint dict_get {V} (k : string) (d : list (string * V)) : option V :=
  match d with
  | [] => None
  | (k', v) :: d' => if String.eqb k' k then Some v else dict_get k d'
  end.

(** [d[k] = v]: an existing key keeps its place, a new one goes last. *)
Fixpoint dict_set {V} (k : string) (v : V) (d : list (string * V)) : list (string * V) :=
  match d with
  | [] => [(k, v)]
  | (k', v') :: d' =>
      if String.eqb k' k then (k, v) :: d' else (k', v') :: dict_set k v d'
  end.

(** The exceptions a recipe can end with. *)
Inductive exn : Type :=
| RuntimeError (msg : string)
| ValueError
| KeyError (key : string)
| AttributeError
| TypeError
| IndexError
| TimeoutError
| JSONDecodeError
| OtherError (msg : string).

Inductive result (A : Type) : Type :=
| Ok (a : A)
| Raise (e : exn).
Arguments Ok {A} a.
Arguments Raise {A} e.

(** What a recipe asks of the outside world, in the order it asks. *)
Inductive event : Type :=
| AddInitScript (script : string)
| Goto (url : string)
| Sleep (milliseconds : Z)
| Title
| WaitForSelector (selector : string)
| QuerySelector (selector : string)
| QuerySelectorAll (selector : string)
| TextContent
| GetAttribute (name : string)
| Evaluate (expression : string)
| EvaluateHandle (expression : string)
| Click
| KeyboardPress (key : string)
| KeyboardType (text : string)
| ReadAuthFile
| Subprocess (cmd : list string).

(** A computation: the events it issued and how it ended. *)
Definition M (A : Type) : Type := list event * result A.

Definition ret {A} (a : A) : M A := ([], Ok a).

Definition raise {A} (e : exn) : M A := ([], Raise e).

Definition bind {A B} (m : M A) (f : A -> M B) : M B :=
  match m with
  | (log, Ok a) => let (log', r) := f a in (log ++ log', r)
  | (log, Raise e) => (log, Raise e)
  end.

(** One awaited call: the event is logged, the oracle gives the answer. *)
Definition call {A} (ev : event) (answer : result A) : M A := ([ev], answer).

(** A library call that is not logged: it returns or raises. *)
Definition lift {A} (answer : result A) : M A := ([], answer).

(** [try: m except Exception: ...]: the outcome of [m] as a value. *)
Definition try {A} (m : M A) : M (result A) := (fst m, Ok (snd m)).

(** [int(s)], raising [ValueError]. *)
Definition int (s : string) : M Z :=
  match Py.int s with
  | Some n => ret n
  | None => raise ValueError
  end.

Declare Scope monad_scope.
Delimit Scope monad_scope with monad.
Notation "x <- m ;; k" := (bind m (fun x => k))
  (at level 100, m at next level, right associativity) : monad_scope.
Notation "m ;; k" := (bind m (fun _ => k))
  (at level 100, right associativity) : monad_scope.
Open Scope monad_scope.

(** How one turn of a [for] loop ends: go on, or [break]. *)
Inductive flow (S : Type) : Type :=
| Next (s : S)
| Break (s : S).
Arguments Next {S} s.
Arguments Break {S} s.

(** The variables at the end of a turn. *)
Definition flow_state {S} (f : flow S) : S :=
  match f with
  | Next s | Break s => s
  end.

(** [for x in l: body], threading the variables the body assigns. *)
Fixpoint for_loop {A S} (l : list A) (s : S) (body : S -> A -> M (flow S)) : M S :=
  match l with
  | [] => ret s
  | x :: l' =>
      f <- body s x;;
      match f with
      | Next s' => for_loop l' s' body
      | Break s' => ret s'
      end
  end.

(** ** The browser as an oracle *)

Module Element.
(** An element handle: what each call on it answers. *)
Inductive t : Type := Build {
  text_content : result (option string);
  get_attribute : string -> result (option string);
  query_selector : string -> result (option t);
  query_selector_all : string -> result (list t);
  evaluate : string -> result (option string);
  evaluate_handle : string -> result (option t);
  click : result unit
}.
End Element.

Module Page.
(** A page handle on one loaded document. *)
Record t : Type := Build {
  add_init_script : string -> result unit;
  goto : string -> result unit;
  url : string;
  title : result string;
  wait_for_selector : string -> result (option Element.t);
  query_selector : string -> result (option Element.t);
  query_selector_all : string -> result (list Element.t);
  keyboard_press : string -> result unit;
  keyboard_type : string -> result unit
}.
End Page.

(** ** The result model *)

(** [ScrapeResult(items=..., current_page=..., has_next=...)] as the
    recipes call it: a keyword argument that is not passed is [None]. *)
Record ScrapeResult : Type := {
  items : list item;
  current_page : option Z;
  has_next : option bool
}.

(** Modelled from the spec: the class ScrapeResult of web2api.scraper is
    not part of the recipes; the current page defaults to 1 when
    pagination is not applicable. *)
Definition page_number (r : ScrapeResult) : Z :=
  match current_page r with
  | Some p => p
  | None => 1
  end.

(** ** Brave Search: src/recipes/brave-search/scraper.py *)

Module Brave.

Definition supports (endpoint : string) : bool := String.eqb endpoint "search".

Definition init_script : string :=
  "Object.defineProperty(navigator, 'webdriver', {get: () => undefined})".

(** [#results .snippet[data-type=web]], the value in double quotes. *)
Definition results_selector : string :=
  "#results .snippet[data-type=" +:+ Py.dquote +:+ "web" +:+ Py.dquote +:+ "]".

Definition missing_query : exn :=
  RuntimeError "Missing search query — pass q=<query>".

Definition captcha_detected : exn :=
  RuntimeError "Brave Search returned a CAPTCHA — headless browser was detected".

(** The selector loops of [_parse_snippet] for the title and the
    description: the stripped text of the first selector that finds an
    element with text. *)
Definition first_text (snippet : Element.t) (selectors : list string) : M string :=
  for_loop selectors EmptyString (fun text sel =>
    el <- call (QuerySelector sel) (Element.query_selector snippet sel);;
    match el with
    | Some e =>
        t <- call TextContent (Element.text_content e);;
        let text := Py.strip (Py.or_empty t) in
        if Py.is_empty text then ret (Next text) else ret (Break text)
    | None => ret (Next text)
    end).

(** The link loop of [_parse_snippet]: the first href without
    [brave.com] in it. *)
Definition first_external_href (snippet : Element.t) : M string :=
  links <- call (QuerySelectorAll "a[href^='http']")
                (Element.query_selector_all snippet "a[href^='http']");;
  for_loop links EmptyString (fun href link =>
    h <- call (GetAttribute "href") (Element.get_attribute link "href");;
    let h := Py.or_empty h in
    if Py.contains "brave.com" h then ret (Next href) else ret (Break h)).

Definition site_name (snippet : Element.t) : M string :=
  site_el <- call (QuerySelector "[class*='site-name']")
                  (Element.query_selector snippet "[class*='site-name']");;
  match site_el with
  | Some e =>
      t <- call TextContent (Element.text_content e);;
      let site := Py.strip (Py.or_empty t) in
      match Py.split "010" site with
      | p :: _ => ret (Py.strip p)
      | [] => ret site
      end
  | None => ret EmptyString
  end.

Definition title_selectors : list string := ["[class*='title']"; "a h2"; "a h3"].

Definition description_selectors : list string :=
  [".content"; "[class*='snippet-description']"; "p"].

(** The body of the [try] block of [_parse_snippet]. *)
Definition parse_snippet_body (snippet : Element.t) : M (option item) :=
  title <- first_text snippet title_selectors;;
  if Py.is_empty title then ret None else
  href <- first_external_href snippet;;
  if Py.is_empty href then ret None else
  desc <- first_text snippet description_selectors;;
  site <- site_name snippet;;
  let result := [("title", PStr title); ("url", PStr href); ("snippet", PStr desc)] in
  if Py.is_empty site then ret (Some result)
  else ret (Some (dict_set "site" (PStr site) result)).

Definition _parse_snippet (snippet : Element.t) : M (option item) :=
  r <- try (parse_snippet_body snippet);;
  match r with
  | Ok parsed => ret parsed
  | Raise _ => ret None
  end.

(** [for snippet in snippets[:count]] with [if item: items.append(item)];
    an empty dict counts as false. *)
Definition parse_all (snippets : list Element.t) : M (list item) :=
  for_loop snippets [] (fun items snippet =>
    parsed <- _parse_snippet snippet;;
    match parsed with
    | Some ((_ :: _) as it) => ret (Next (items ++ [it]))
    | _ => ret (Next items)
    end).

Definition search_url (query : string) (offset : Z) : string :=
  "https://search.brave.com/search?q=" +:+ Py.quote "/" query
  +:+ "&offset=" +:+ Py.str_of_int offset.

Definition scrape (endpoint : string) (page : Page.t) (params : gmap string string)
  : M ScrapeResult :=
  let query := Py.strip (Py.or_empty (params !! "query")) in
  if Py.is_empty query then raise missing_query else
  c <- int (default "20" (params !! "count"));;
  let count := Z.min c 50 in
  p <- int (default "1" (params !! "page"));;
  let page_num := Z.max p 1 in
  let offset := (page_num - 1) * 20 in
  let url := search_url query offset in
  call (AddInitScript init_script) (Page.add_init_script page init_script);;
  call (Goto url) (Page.goto page url);;
  call (Sleep 3000) (Ok tt);;
  title <- call Title (Page.title page);;
  if Py.contains "captcha" (Py.lower title) then raise captcha_detected else
  waited <- try (call (WaitForSelector results_selector)
                      (Page.wait_for_selector page results_selector));;
  match waited with
  | Raise _ =>
      ret {| items := []; current_page := Some page_num; has_next := Some false |}
  | Ok _ =>
      snippets <- call (QuerySelectorAll results_selector)
                       (Page.query_selector_all page results_selector);;
      found <- parse_all (Py.slice_to snippets count);;
      let more := (10 <=? length snippets)%nat in
      ret {| items := found; current_page := Some page_num; has_next := Some more |}
  end.

End Brave.

(** ** DeepL: src/recipes/deepl/scraper.py *)

Module DeepL.

(** The page while the translation streams in: [page 0] is the document
    after navigation, [page (S i)] the document at poll [i]. *)
Definition LivePage : Type := nat -> Page.t.

Definition _LANG_PAIRS : gmap string (string * string) :=
  <["de-en" := ("de", "en")]> (<["en-de" := ("en", "de")]> ∅).

Definition supports (endpoint : string) : bool :=
  match _LANG_PAIRS !! endpoint with
  | Some _ => true
  | None => false
  end.

Definition source_selector : string :=
  "d-textarea[data-testid=" +:+ Py.dquote +:+ "translator-source-input"
  +:+ Py.dquote +:+ "]".

Definition target_selector : string :=
  "d-textarea[data-testid=" +:+ Py.dquote +:+ "translator-target-input"
  +:+ Py.dquote +:+ "]".

Definition target_p_selector : string :=
  "[data-testid=" +:+ Py.dquote +:+ "translator-target-input" +:+ Py.dquote +:+ "] p".

Definition no_source_input : exn := RuntimeError "Could not find DeepL source input".

Definition no_translation : exn :=
  RuntimeError "Translation did not appear within timeout".

(** [text and text.strip()] as a condition. *)
Definition has_text (text : option string) : bool :=
  negb (Py.is_empty (Py.strip (Py.or_empty text))).

(** The reads of [_read_target] on the target area; [Some] is a
    [return] from inside the [if]. *)
Definition read_target_area (page : Page.t) : M (option string) :=
  target_area <- call (QuerySelector target_selector)
                      (Page.query_selector page target_selector);;
  match target_area with
  | Some area =>
      text <- call (GetAttribute "value") (Element.get_attribute area "value");;
      if has_text text then ret (Some (Py.strip (Py.or_empty text))) else
      text <- call TextContent (Element.text_content area);;
      if has_text text then ret (Some (Py.strip (Py.or_empty text))) else
      ret None
  | None => ret None
  end.

Definition _read_target (page : Page.t) : M string :=
  returned <- read_target_area page;;
  match returned with
  | Some text => ret text
  | None =>
      target_p <- call (QuerySelector target_p_selector)
                       (Page.query_selector page target_p_selector);;
      match target_p with
      | Some p =>
          text <- call TextContent (Element.text_content p);;
          if has_text text then ret (Py.strip (Py.or_empty text))
          else ret EmptyString
      | None => ret EmptyString
      end
  end.

Definition required_stable : Z := 6.

(** The comparisons of one turn of the loop [for _ in range(80)] on the
    value just read; the loop variables are [translated] and
    [stable_count]. *)
Definition compare (query : string) (vars : string * Z) (current : string)
  : flow (string * Z) :=
  let '(translated, stable_count) := vars in
  if Py.is_empty current || String.eqb current (Py.strip query)
  then Next (translated, 0)
  else if String.eqb current translated
  then let stable_count := stable_count + 1 in
       if required_stable <=? stable_count
       then Break (translated, stable_count)
       else Next (translated, stable_count)
  else Next (current, 0).

(** One turn of the loop: sleep, read, compare. *)
Definition poll (query : string) (page : LivePage) (vars : string * Z) (i : nat)
  : M (flow (string * Z)) :=
  call (Sleep 500) (Ok tt);;
  current <- _read_target (page (S i));;
  ret (compare query vars current).

(** The loop with its initial values. *)
Definition poll_loop (query : string) (page : LivePage) : M (string * Z) :=
  for_loop (seq 0 80) (EmptyString, 0) (poll query page).

(** The loop and the check that follows it. *)
Definition wait_for_translation (query : string) (page : LivePage) : M string :=
  vars <- poll_loop query page;;
  let translated := fst vars in
  if Py.is_empty translated then raise no_translation else ret translated.

Definition record (source_text translated_text source_lang target_lang : string)
  : item :=
  [("source_text", PStr source_text);
   ("translated_text", PStr translated_text);
   ("source_lang", PStr source_lang);
   ("target_lang", PStr target_lang)].

Definition scrape (endpoint : string) (page : LivePage) (params : gmap string string)
  : M ScrapeResult :=
  match _LANG_PAIRS !! endpoint with
  | None => raise (KeyError endpoint)
  | Some (source_lang, target_lang) =>
      let query := Py.or_empty (params !! "query") in
      if Py.is_empty (Py.strip query)
      then ret {| items := [record EmptyString EmptyString source_lang target_lang];
                  current_page := None; has_next := None |}
      else
        let url := "https://www.deepl.com/en/translator#" +:+ source_lang +:+ "/"
                   +:+ target_lang +:+ "/" in
        call (Goto url) (Page.goto (page O) url);;
        source_area <- call (WaitForSelector source_selector)
                            (Page.wait_for_selector (page O) source_selector);;
        match source_area with
        | None => raise no_source_input
        | Some area =>
            call Click (Element.click area);;
            call (KeyboardPress "Control+a") (Page.keyboard_press (page O) "Control+a");;
            call (KeyboardPress "Backspace") (Page.keyboard_press (page O) "Backspace");;
            call (KeyboardType query) (Page.keyboard_type (page O) query);;
            translated <- wait_for_translation query page;;
            ret {| items := [record query translated source_lang target_lang];
                   current_page := None; has_next := None |}
        end
  end.

End DeepL.

(** ** [json.dumps] and [re.sub] as the encyclopedia recipe uses them *)

Module Json.

Definition hex4 (n : nat) : string :=
  let low (k : nat) : ascii :=
    if (k <? 10)%nat then ascii_of_nat (48 + k) else ascii_of_nat (87 + k) in
  String "0" (String "0" (String (low (n / 16)%nat)
                                 (String (low (n mod 16)%nat) EmptyString))).

(** The escape of one character with [ensure_ascii=False]. *)
Definition escape_char (c : ascii) : string :=
  let n := nat_of_ascii c in
  if (n =? 34)%nat then "\" +:+ Py.dquote
  else if (n =? 92)%nat then "\\"
  else if (n =? 10)%nat then "\n"
  else if (n =? 13)%nat then "\r"
  else if (n =? 9)%nat then "\t"
  else if (n =? 8)%nat then "\b"
  else if (n =? 12)%nat then "\f"
  else if (n <? 32)%nat then "\u" +:+ hex4 n
  else String c EmptyString.

Fixpoint escape (s : string) : string :=
  match s with
  | EmptyString => EmptyString
  | String c s' => escape_char c +:+ escape s'
  end.

Definition encode_string (s : string) : string :=
  Py.dquote +:+ escape s +:+ Py.dquote.

(** [json.dumps(v, ensure_ascii=False)] with the default separators. *)
Fixpoint dumps (v : pyval) : string :=
  match v with
  | PNone => "null"
  | PBool true => "true"
  | PBool false => "false"
  | PInt n => Py.str_of_int n
  | PStr s => encode_string s
  | PList l => "[" +:+ Py.join ", " (map dumps l) +:+ "]"
  | PDict d =>
      "{" +:+ Py.join ", " (map (fun '(k, x) => encode_string k +:+ ": " +:+ dumps x) d)
      +:+ "}"
  end.

End Json.

Module Re.

(** [re.sub(r"\s+", " ", s)]: every run of white space becomes one
    space; the length of [s] is fuel enough. *)
Fixpoint collapse (fuel : nat) (s : string) : string :=
  match fuel with
  | O => EmptyString
  | S fuel' =>
      match Py.after_space s with
      | Some r => String " " (collapse fuel' (Py.lstrip r))
      | None =>
          match s with
          | String c s' => String c (collapse fuel' s')
          | EmptyString => EmptyString
          end
      end
  end.

Definition collapse_whitespace (s : string) : string := collapse (String.length s) s.

(** [re.sub(suffix + "$", "", s)] for a literal suffix and an [s]
    that does not end in a line feed. *)
Fixpoint remove_suffix (suffix s : string) : string :=
  if String.eqb s suffix then EmptyString
  else match s with
       | EmptyString => EmptyString
       | String c s' => String c (remove_suffix suffix s')
       end.

End Re.

(** ** Wikipedia: src/recipes/wikipedia/scraper.py *)

Module Wikipedia.

Definition supports (endpoint : string) : bool :=
  String.eqb endpoint "search" || String.eqb endpoint "article".

Definition missing_query : exn :=
  RuntimeError "Missing search query — pass q=<query>".

Definition missing_title : exn :=
  RuntimeError "Missing article title — pass q=<title>".

Definition article_not_found (query : string) : exn :=
  RuntimeError ("Wikipedia article not found: " +:+ query).

(** [(await el.text_content() or "").strip()] *)
Definition stripped_text (el : Element.t) : M string :=
  t <- call TextContent (Element.text_content el);;
  ret (Py.strip (Py.or_empty t)).

Definition _extract_summary (page : Page.t) : M string :=
  let sel := "#mw-content-text .mw-parser-output > p" in
  els <- call (QuerySelectorAll sel) (Page.query_selector_all page sel);;
  paragraphs <- for_loop els [] (fun paragraphs el =>
    text <- stripped_text el;;
    if Py.is_empty text || (Py.len text <? 10)%nat
    then ret (Next paragraphs)
    else let paragraphs := paragraphs ++ [text] in
         if (3 <=? length paragraphs)%nat then ret (Break paragraphs)
         else ret (Next paragraphs));;
  ret (Py.join (String "010" (String "010" EmptyString)) paragraphs).

Definition _extract_infobox (page : Page.t) : M (list (string * pyval)) :=
  let sel := ".infobox, .infobox_v2" in
  table <- call (QuerySelector sel) (Page.query_selector page sel);;
  match table with
  | None => ret []
  | Some table =>
      rows <- call (QuerySelectorAll "tr") (Element.query_selector_all table "tr");;
      for_loop rows [] (fun infobox row =>
        header <- call (QuerySelector "th") (Element.query_selector row "th");;
        data <- call (QuerySelector "td") (Element.query_selector row "td");;
        match header, data with
        | Some header, Some data =>
            key <- stripped_text header;;
            val <- stripped_text data;;
            if Py.is_empty key || Py.is_empty val then ret (Next infobox)
            else ret (Next (dict_set key (PStr (Re.collapse_whitespace val)) infobox))
        | _, _ => ret (Next infobox)
        end)
  end.

(** The loop shared by [_extract_toc] and [_extract_categories]: the
    non-empty stripped texts of the elements. *)
Definition texts_of (els : list Element.t) : M (list pyval) :=
  for_loop els [] (fun texts el =>
    text <- stripped_text el;;
    if Py.is_empty text then ret (Next texts)
    else ret (Next (texts ++ [PStr text]))).

Definition _extract_toc (page : Page.t) : M (list pyval) :=
  let sel := "#toc .toctext, .vector-toc-text, .mw-toc-text .toctext" in
  entries <- call (QuerySelectorAll sel) (Page.query_selector_all page sel);;
  texts_of entries.

Definition _extract_categories (page : Page.t) : M (list pyval) :=
  let sel := "#mw-normal-catlinks ul li a" in
  cat_links <- call (QuerySelectorAll sel) (Page.query_selector_all page sel);;
  texts_of cat_links.

Definition next_sibling : string := "el => el.nextElementSibling".
Definition tag_name : string := "el => el.tagName".
Definition text_of : string := "el => el.textContent".

Definition meta_sections : list string :=
  ["references"; "external links"; "notes"; "further reading"].

(** The walk [for _ in range(50)] over the siblings of a heading; the
    loop variables are [sibling] and [content_parts]. *)
Definition walk_siblings (first : option Element.t) : M (list string) :=
  vars <- for_loop (seq 0 50) (first, []) (fun vars _ =>
    match vars with
    | (None, content_parts) => ret (Break (None, content_parts))
    | (Some sibling, content_parts) =>
        tag <- call (Evaluate tag_name) (Element.evaluate sibling tag_name);;
        if bool_decide (tag = Some "H2") || bool_decide (tag = Some "H3")
        then ret (Break (Some sibling, content_parts))
        else
          content_parts <-
            (if bool_decide (tag = Some "P")
             then text <- call (Evaluate text_of) (Element.evaluate sibling text_of);;
                  let text := Py.strip (Py.or_empty text) in
                  if Py.is_empty text then ret content_parts
                  else ret (content_parts ++ [text])
             else ret content_parts);;
          next <- call (EvaluateHandle next_sibling)
                       (Element.evaluate_handle sibling next_sibling);;
          ret (Next (next, content_parts))
    end);;
  ret (snd vars).

Definition _extract_sections (page : Page.t) : M (list pyval) :=
  let sel := "#mw-content-text .mw-parser-output > h2, "
             +:+ "#mw-content-text .mw-parser-output > h3" in
  headings <- call (QuerySelectorAll sel) (Page.query_selector_all page sel);;
  for_loop headings [] (fun sections heading =>
    found <- call (QuerySelector ".mw-headline, h2, h3")
                  (Element.query_selector heading ".mw-headline, h2, h3");;
    let headline := match found with Some h => h | None => heading end in
    title <- stripped_text headline;;
    let title := Py.strip (Re.remove_suffix "[edit]" title) in
    if Py.is_empty title || bool_decide (Py.lower title ∈ meta_sections)
    then ret (Next sections)
    else
      sibling <- call (EvaluateHandle next_sibling)
                      (Element.evaluate_handle heading next_sibling);;
      content_parts <- walk_siblings sibling;;
      tag <- call (Evaluate tag_name) (Element.evaluate heading tag_name);;
      let level := if bool_decide (tag = Some "H2") then "h2" else "h3" in
      ret (Next (sections ++
                 [PDict [("heading", PStr title);
                         ("level", PStr level);
                         ("content",
                          PStr (Py.join (String "010" (String "010" EmptyString))
                                        content_parts))]]))).

Definition is_container (v : pyval) : bool :=
  match v with
  | PList _ | PDict _ => true
  | _ => false
  end.

(** The loop [for key, val in item.items()] that closes
    [_extract_article]. *)
Definition serialize (it : item) : item :=
  fold_left (fun (acc : item) '(key, val) =>
               if is_container val then dict_set key (PStr (Json.dumps val)) acc
               else acc)
            it it.

(** [_extract_article] up to the serialization loop: the item with its
    nested values. *)
Definition extract_article_item (page : Page.t) : M item :=
  let it : item := [] in
  title_el <- call (QuerySelector "#firstHeading") (Page.query_selector page "#firstHeading");;
  it <- match title_el with
        | Some el => title <- stripped_text el;; ret (dict_set "title" (PStr title) it)
        | None => ret it
        end;;
  let it := dict_set "url" (PStr (Page.url page)) it in
  summary <- _extract_summary page;;
  let it := dict_set "summary" (PStr summary) it in
  infobox <- _extract_infobox page;;
  let it := match infobox with
            | [] => it
            | _ => dict_set "infobox" (PDict infobox) it
            end in
  toc <- _extract_toc page;;
  let it := match toc with
            | [] => it
            | _ => dict_set "table_of_contents" (PList toc) it
            end in
  sections <- _extract_sections page;;
  let it := dict_set "sections" (PList sections) it in
  categories <- _extract_categories page;;
  let it := match categories with
            | [] => it
            | _ => dict_set "categories" (PList categories) it
            end in
  let sel := "#p-lang li, .interlanguage-link" in
  langs <- call (QuerySelectorAll sel) (Page.query_selector_all page sel);;
  let lang_count := Z.of_nat (length langs) in
  ret (if lang_count =? 0 then it
       else dict_set "languages_available" (PInt lang_count) it).

Definition _extract_article (page : Page.t) : M ScrapeResult :=
  it <- extract_article_item page;;
  ret {| items := [serialize it]; current_page := Some 1; has_next := Some false |}.

Definition _article_from_redirect (page : Page.t) (original_query : string)
  : M ScrapeResult :=
  result <- _extract_article page;;
  match items result with
  | first :: rest =>
      ret {| items := dict_set "redirected_from" (PStr original_query) first :: rest;
             current_page := current_page result;
             has_next := has_next result |}
  | [] => ret result
  end.

(** One turn of the loop of [_extract_search_results], inside its
    [try]; [None] is [continue]. *)
Definition search_result (result : Element.t) : M (option item) :=
  heading <- call (QuerySelector ".mw-search-result-heading a")
                  (Element.query_selector result ".mw-search-result-heading a");;
  match heading with
  | None => ret None
  | Some heading =>
      title <- stripped_text heading;;
      href <- call (GetAttribute "href") (Element.get_attribute heading "href");;
      let href := Py.or_empty href in
      let url := if Py.startswith href "/" then "https://en.wikipedia.org" +:+ href
                 else href in
      snippet_el <- call (QuerySelector ".searchresult")
                         (Element.query_selector result ".searchresult");;
      snippet <- match snippet_el with
                 | Some el => stripped_text el
                 | None => ret EmptyString
                 end;;
      size_el <- call (QuerySelector ".mw-search-result-data")
                      (Element.query_selector result ".mw-search-result-data");;
      size_info <- match size_el with
                   | Some el => stripped_text el
                   | None => ret EmptyString
                   end;;
      let it := [("title", PStr title); ("url", PStr url); ("snippet", PStr snippet)] in
      if Py.is_empty size_info then ret (Some it)
      else ret (Some (dict_set "size_info" (PStr size_info) it))
  end.

Definition _extract_search_results (page : Page.t) (count : Z) : M (list item) :=
  results <- call (QuerySelectorAll ".mw-search-result")
                  (Page.query_selector_all page ".mw-search-result");;
  for_loop (Py.slice_to results count) [] (fun found result =>
    r <- try (search_result result);;
    match r with
    | Ok (Some it) => ret (Next (found ++ [it]))
    | Ok None => ret (Next found)
    | Raise _ => ret (Next found)
    end).

Definition _search (page : Page.t) (params : gmap string string) : M ScrapeResult :=
  let query := Py.strip (Py.or_empty (params !! "query")) in
  if Py.is_empty query then raise missing_query else
  c <- int (default "20" (params !! "count"));;
  let count := Z.min c 50 in
  p <- int (default "1" (params !! "page"));;
  let page_num := Z.max p 1 in
  let offset := (page_num - 1) * 20 in
  let url := "https://en.wikipedia.org/w/index.php" +:+ "?search=" +:+ Py.quote "/" query
             +:+ "&title=Special:Search&ns0=1&offset=" +:+ Py.str_of_int offset in
  call (Goto url) (Page.goto page url);;
  if Py.contains "/wiki/" (Page.url page)
     && negb (Py.contains "Special:Search" (Page.url page))
  then _article_from_redirect page query
  else
    let sel := ".mw-search-results, .mw-search-nonefound" in
    call (WaitForSelector sel) (Page.wait_for_selector page sel);;
    none_found <- call (QuerySelector ".mw-search-nonefound")
                       (Page.query_selector page ".mw-search-nonefound");;
    match none_found with
    | Some _ =>
        ret {| items := []; current_page := Some page_num; has_next := Some false |}
    | None =>
        found <- _extract_search_results page count;;
        next <- call (QuerySelector ".mw-nextlink")
                     (Page.query_selector page ".mw-nextlink");;
        ret {| items := found; current_page := Some page_num;
               has_next := Some (bool_decide (next <> None)) |}
    end.

Definition _article (page : Page.t) (params : gmap string string) : M ScrapeResult :=
  let query := Py.strip (Py.or_empty (params !! "query")) in
  if Py.is_empty query then raise missing_title else
  let slug := Py.replace_char " " "_" query in
  let url := "https://en.wikipedia.org/wiki/" +:+ Py.quote "/:" slug in
  call (Goto url) (Page.goto page url);;
  no_article <- call (QuerySelector ".noarticletext")
                     (Page.query_selector page ".noarticletext");;
  match no_article with
  | Some _ => raise (article_not_found query)
  | None => _extract_article page
  end.

Definition scrape (endpoint : string) (page : Page.t) (params : gmap string string)
  : M ScrapeResult :=
  if String.eqb endpoint "search" then _search page params
  else _article page params.

End Wikipedia.

(** ** X: src/recipes/x/scraper.py *)

Module X.

(** What the process environment answers: the two variables read at
    import, the lines of [~/.bird_auth] ([None] when there is no such
    file), the bird command (return code, decoded standard output and
    standard error), and the library functions [json.loads] and [str]. *)
Record Env : Type := {
  _AUTH_TOKEN : string;
  _CT0 : string;
  bird_auth : result (option (list string));
  bird : list string -> result (Z * string * string);
  json_loads : string -> result pyval;
  str : pyval -> string
}.

Definition supports (endpoint : string) : bool := String.eqb endpoint "posts".

Definition missing_credentials : exn :=
  RuntimeError ("Missing X/Twitter credentials. "
                +:+ "Set BIRD_AUTH_TOKEN + BIRD_CT0 env vars or create ~/.bird_auth").

Definition missing_username : exn :=
  RuntimeError "Missing username — pass q=<username>".

Definition account_not_found (username : string) : exn :=
  RuntimeError ("Account @" +:+ username +:+ " not found").

Definition bird_failed (error_msg : string) : exn :=
  RuntimeError ("bird CLI failed: " +:+ error_msg).

Definition no_json_output (username : string) : exn :=
  RuntimeError ("No JSON output from bird CLI for @" +:+ username).

(** [line.split("=", 1)[1]] *)
Definition value_of (line : string) : M string :=
  match Py.after_first "=" line with
  | Some v => ret v
  | None => raise IndexError
  end.

Definition _load_auth (env : Env) : M (string * string) :=
  let auth_token := _AUTH_TOKEN env in
  let ct0 := _CT0 env in
  if negb (Py.is_empty auth_token) && negb (Py.is_empty ct0)
  then ret (auth_token, ct0)
  else
    file <- call ReadAuthFile (bird_auth env);;
    tokens <- match file with
              | Some lines =>
                  for_loop lines (auth_token, ct0) (fun tokens line =>
                    let '(auth_token, ct0) := tokens in
                    let line := Py.strip line in
                    if Py.startswith line "AUTH_TOKEN="
                    then v <- value_of line;; ret (Next (v, ct0))
                    else if Py.startswith line "CT0="
                    then v <- value_of line;; ret (Next (auth_token, v))
                    else ret (Next (auth_token, ct0)))
              | None => ret (auth_token, ct0)
              end;;
    let '(auth_token, ct0) := tokens in
    if Py.is_empty auth_token || Py.is_empty ct0 then raise missing_credentials
    else ret (auth_token, ct0).

(** [d.get(k, default)] *)
Definition get (d : list (string * pyval)) (k : string) (default : pyval) : pyval :=
  match dict_get k d with
  | Some v => v
  | None => default
  end.

(** A method call on a value that has to be a dict. *)
Definition as_dict (v : pyval) : M (list (string * pyval)) :=
  match v with
  | PDict d => ret d
  | _ => raise AttributeError
  end.

(** [v.startswith(p)] on a value that has to be a string. *)
Definition value_startswith (v : pyval) (p : string) : M bool :=
  match v with
  | PStr s => ret (Py.startswith s p)
  | _ => raise AttributeError
  end.

(** The body of the loop over the tweets: the item of one tweet. *)
Definition tweet_item (env : Env) (username : string) (tweet : pyval) : M item :=
  tw <- as_dict tweet;;
  author <- as_dict (get tw "author" (PDict []));;
  let author_username := get author "username" (PStr username) in
  let text := get tw "text" (PStr EmptyString) in
  author' <- as_dict (get tw "author" (PDict []));;
  let author_name := get author' "name" (PStr EmptyString) in
  let url := "https://x.com/" +:+ str env author_username +:+ "/status/"
             +:+ str env (get tw "id" (PStr EmptyString)) in
  is_retweet <- value_startswith (get tw "text" (PStr EmptyString)) "RT @";;
  ret [("text", text);
       ("author", author_username);
       ("author_name", author_name);
       ("timestamp", get tw "createdAt" (PStr EmptyString));
       ("url", PStr url);
       ("replies", get tw "replyCount" PNone);
       ("reposts", get tw "retweetCount" PNone);
       ("likes", get tw "likeCount" PNone);
       ("views", get tw "viewCount" PNone);
       ("is_retweet", PBool is_retweet)].

Definition scrape (env : Env) (endpoint : string) (page : Page.t)
           (params : gmap string string) : M ScrapeResult :=
  let username := Py.lstrip_char "@" (Py.strip (Py.or_empty (params !! "query"))) in
  if Py.is_empty username then raise missing_username else
  c <- int (default "10" (params !! "count"));;
  let count := Z.min c 50 in
  auth <- _load_auth env;;
  let '(auth_token, ct0) := auth in
  let cmd := ["bird"; "user-tweets"; username; "-n"; Py.str_of_int count; "--json";
              "--auth-token"; auth_token; "--ct0"; ct0] in
  proc <- call (Subprocess cmd) (bird env cmd);;
  let '(returncode, stdout, stderr) := proc in
  if negb (returncode =? 0)
  then let error_msg := Py.strip stderr in
       if Py.contains "Could not find user" error_msg
          || Py.contains "not found" (Py.lower error_msg)
       then raise (account_not_found username)
       else raise (bird_failed error_msg)
  else
    let raw_output := Py.strip stdout in
    let json_start := Py.find_char "[" raw_output in
    if json_start =? -1 then raise (no_json_output username) else
    tweets_data <- lift (json_loads env (Py.drop (Z.to_nat json_start) raw_output));;
    match tweets_data with
    | PList tweets =>
        found <- for_loop (Py.slice_to tweets count) [] (fun found tweet =>
                   it <- tweet_item env username tweet;;
                   ret (Next (found ++ [it])));;
        ret {| items := found; current_page := Some 1;
               has_next := Some (count <? Z.of_nat (length tweets)) |}
    | _ => raise TypeError
    end.

End X.

(** ** The four recipes side by side *)

Inductive recipe : Type :=
| BraveRecipe
| DeepLRecipe
| WikipediaRecipe
| XRecipe.

Definition supports (r : recipe) (endpoint : string) : bool :=
  match r with
  | BraveRecipe => Brave.supports endpoint
  | DeepLRecipe => DeepL.supports endpoint
  | WikipediaRecipe => Wikipedia.supports endpoint
  | XRecipe => X.supports endpoint
  end.

(** One call of [scrape] on one of the recipes, with the world it runs in. *)
Inductive invocation : Type :=
| OnBrave (endpoint : string) (page : Page.t) (params : gmap string string)
| OnDeepL (endpoint : string) (page : DeepL.LivePage) (params : gmap string string)
| OnWikipedia (endpoint : string) (page : Page.t) (params : gmap string string)
| OnX (env : X.Env) (endpoint : string) (page : Page.t) (params : gmap string string).

Definition run (i : invocation) : M ScrapeResult :=
  match i with
  | OnBrave endpoint page params => Brave.scrape endpoint page params
  | OnDeepL endpoint page params => DeepL.scrape endpoint page params
  | OnWikipedia endpoint page params => Wikipedia.scrape endpoint page params
  | OnX env endpoint page params => X.scrape env endpoint page params
  end.

Definition recipe_of (i : invocation) : recipe :=
  match i with
  | OnBrave _ _ _ => BraveRecipe
  | OnDeepL _ _ _ => DeepLRecipe
  | OnWikipedia _ _ _ => WikipediaRecipe
  | OnX _ _ _ _ => XRecipe
  end.

Definition params_of (i : invocation) : gmap string string :=
  match i with
  | OnBrave _ _ params | OnDeepL _ _ params | OnWikipedia _ _ params
  | OnX _ _ _ params => params
  end.

(** ** Field values *)

(** Text or a number. *)
Definition is_scalar (v : pyval) : bool :=
  match v with
  | PStr _ | PInt _ => true
  | _ => false
  end.

Definition scalar_item (it : item) : Prop :=
  Forall (fun kv => is_scalar (snd kv) = true) it.

(** Scalar flattening in the words of the specification: a nested value
    becomes its JSON text, a scalar passes through. *)
Definition flatten_value (v : pyval) : pyval :=
  match v with
  | PList _ | PDict _ => PStr (Json.dumps v)
  | _ => v
  end.

Definition flatten_item (it : item) : item :=
  map (fun kv => (fst kv, flatten_value (snd kv))) it.

(** A value that is text or a number once flattened: anything but
    [None] and a boolean. *)
Definition encodable (v : pyval) : bool :=
  match v with
  | PNone | PBool _ => false
  | _ => true
  end.

(** An item as [_extract_article] builds it: distinct keys, and no value
    that flattening would leave as [None] or a boolean. *)
Definition flattenable (it : item) : Prop :=
  List.NoDup (map fst it) /\ Forall (fun kv => encodable (snd kv) = true) it.

(** The item of the social-timeline recipe for the tweet [tw]: the text,
    the time stamp and the four counters are the values of the tool, the
    text being a string; the URL is a text and the retweet flag a
    boolean. *)
Definition copied_from (tw : list (string * pyval)) (it : item) : Prop :=
  (exists s, dict_get "text" it = Some (PStr s)
             /\ X.get tw "text" (PStr EmptyString) = PStr s)
  /\ dict_get "timestamp" it = Some (X.get tw "createdAt" (PStr EmptyString))
  /\ dict_get "replies" it = Some (X.get tw "replyCount" PNone)
  /\ dict_get "reposts" it = Some (X.get tw "retweetCount" PNone)
  /\ dict_get "likes" it = Some (X.get tw "likeCount" PNone)
  /\ dict_get "views" it = Some (X.get tw "viewCount" PNone)
  /\ (exists u, dict_get "url" it = Some (PStr u))
  /\ (exists b, dict_get "is_retweet" it = Some (PBool b)).

(** ** Sample documents *)

Module Sample.

(** A settled element: its text, its attributes, and the elements each
    selector finds under it. *)
Definition element (text : option string) (attributes : list (string * string))
           (found : list (string * list Element.t)) : Element.t :=
  {| Element.text_content := Ok text;
     Element.get_attribute := fun name => Ok (dict_get name attributes);
     Element.query_selector := fun sel => Ok (head (default [] (dict_get sel found)));
     Element.query_selector_all := fun sel => Ok (default [] (dict_get sel found));
     Element.evaluate := fun _ => Ok None;
     Element.evaluate_handle := fun _ => Ok None;
     Element.click := Ok tt |}.

(** A settled page: every action succeeds, every wait finds what a
    query would find. *)
Definition page (url title : string) (found : list (string * list Element.t))
  : Page.t :=
  {| Page.add_init_script := fun _ => Ok tt;
     Page.goto := fun _ => Ok tt;
     Page.url := url;
     Page.title := Ok title;
     Page.wait_for_selector := fun sel =>
       match dict_get sel found with
       | Some (el :: _) => Ok (Some el)
       | _ => Raise TimeoutError
       end;
     Page.query_selector := fun sel => Ok (head (default [] (dict_get sel found)));
     Page.query_selector_all := fun sel => Ok (default [] (dict_get sel found));
     Page.keyboard_press := fun _ => Ok tt;
     Page.keyboard_type := fun _ => Ok tt |}.

Definition text (s : string) : Element.t := element (Some s) [] [].

(** The digit four between the separators FS and US. *)
Definition padded_four : string := String "028" (String "4" (String "031" EmptyString)).

(** The no-break space. *)
Definition nbsp : string := Py.utf8 160.

(** White space of several kinds: a space, a no-break space, an em
    space, a tab and an ideographic space. *)
Definition blanks : string :=
  " " +:+ nbsp +:+ Py.utf8 8195 +:+ String "009" EmptyString +:+ Py.utf8 12288.

Definition link (href : string) : Element.t := element None [("href", href)] [].

(** A search snippet with a heading and no link. *)
Definition snippet_without_link : Element.t :=
  element None [] [("a h2", [text "The Rust Programming Language"])].

(** A search snippet with a heading, a link and a description. *)
Definition snippet_with_link : Element.t :=
  element None []
          [("a h2", [text "The Rust Programming Language"]);
           ("a[href^='http']", [link "https://search.brave.com/x";
                                link "https://www.rust-lang.org/"]);
           (".content", [text " A language empowering everyone. "])].

(** The translator with its source input and, in the target area, the
    given value. *)
Definition translator (target : string) : Page.t :=
  page "https://www.deepl.com/en/translator" "DeepL Translate"
       [(DeepL.source_selector, [element None [] []]);
        (DeepL.target_selector, [element None [("value", target)] []])].

(** The translator over time: poll [i] sees the [i]-th of [shown],
    and [rest] once these are used up. *)
Definition streaming (shown : list string) (rest : string) : DeepL.LivePage :=
  fun tick =>
    match tick with
    | O => translator EmptyString
    | S i => translator (nth i shown rest)
    end.

(** [str] on the scalars; the samples format no list or dict. *)
Definition str (v : pyval) : string :=
  match v with
  | PStr s => s
  | PInt n => Py.str_of_int n
  | PNone => "None"
  | PBool true => "True"
  | PBool false => "False"
  | _ => EmptyString
  end.

(** A process with both credentials set, where bird prints [stdout] and
    exits with 0, and [json.loads] of that text is [parsed]. *)
Definition env (stdout : string) (parsed : pyval) : X.Env :=
  {| X._AUTH_TOKEN := "token";
     X._CT0 := "ct0";
     X.bird_auth := Ok None;
     X.bird := fun _ => Ok (0, stdout, EmptyString);
     X.json_loads := fun text =>
       if String.eqb text stdout then Ok parsed else Raise JSONDecodeError;
     X.str := str |}.

Definition blank : Page.t := page "about:blank" EmptyString [].


(** One search result with a site-relative link and a size note. *)
Definition search_hit (title href : string) : Element.t :=
  element None []
          [(".mw-search-result-heading a", [element (Some title) [("href", href)] []]);
           (".searchresult", [text " a systems programming language "]);
           (".mw-search-result-data", [text "12 KB (1,500 words)"])].

(** A search page of the encyclopedia with two results, a next link,
    and between them a result without a heading link. *)
Definition hits_page : Page.t :=
  page "https://en.wikipedia.org/w/index.php?search=rust&title=Special:Search"
       "Search results - Wikipedia"
       [(".mw-search-results, .mw-search-nonefound", [text "results"]);
        (".mw-search-result",
         [search_hit "Rust (programming language)" "/wiki/Rust_(programming_language)";
          element None [] [];
          search_hit "Rust" "https://en.wikipedia.org/wiki/Rust"]);
        (".mw-nextlink", [text "next 20"])].

(** An element of an article body: its tag, its text and the sibling
    that follows it. *)
Definition node (tag text : string) (next : option Element.t) : Element.t :=
  {| Element.text_content := Ok (Some text);
     Element.get_attribute := fun _ => Ok None;
     Element.query_selector := fun _ => Ok None;
     Element.query_selector_all := fun _ => Ok [];
     Element.evaluate := fun expression =>
       if String.eqb expression Wikipedia.tag_name then Ok (Some tag)
       else if String.eqb expression Wikipedia.text_of then Ok (Some text)
       else Ok None;
     Element.evaluate_handle := fun _ => Ok next;
     Element.click := Ok tt |}.

(** A row of an info box. *)
Definition row (key value : string) : Element.t :=
  element None [] [("th", [text key]); ("td", [text value])].

Definition references : Element.t := node "H2" "References[edit]" None.

(** The heading History, two paragraphs with a figure between them,
    then the heading References. *)
Definition history : Element.t :=
  node "H2" "History[edit]"
       (Some (node "P" " Rust began as a personal project in 2006. "
                   (Some (node "FIGURE" "logo"
                               (Some (node "P" "It was announced in 2010."
                                           (Some references))))))).

(** An article with lead paragraphs, an info box and sections. *)
Definition full_article : Page.t :=
  page "https://en.wikipedia.org/wiki/Rust_(programming_language)"
       "Rust (programming language) - Wikipedia"
       [("#firstHeading", [text "Rust (programming language)"]);
        ("#mw-content-text .mw-parser-output > p",
         [text "  ";
          text " Rust is a general-purpose programming language. ";
          text "short";
          text "São Paulo";
          text "It emphasizes performance, type safety and concurrency.";
          text "It enforces memory safety without a garbage collector.";
          text "A fourth paragraph that the summary leaves out."]);
        (".infobox, .infobox_v2",
         [element None []
                  [("tr", [row "Paradigm" ("Multi-paradigm:" +:+ String "010" (nbsp +:+ "  concurrent"));
                           row " " "no key";
                           row "Designer" "Graydon  Hoare"])]]);
        ("#mw-content-text .mw-parser-output > h2, "
         +:+ "#mw-content-text .mw-parser-output > h3",
         [history; node "H3" "Early years" None; references]);
        ("#mw-normal-catlinks ul li a", [text "Programming languages"; text " "])].

(** An address without an article. *)
Definition missing_article_page : Page.t :=
  page "https://en.wikipedia.org/wiki/Qwxz" "Qwxz - Wikipedia"
       [(".noarticletext", [text "Wikipedia does not have an article with this name."])].

(** One tweet as the tool reports it, without reply, repost and view
    counters. *)
Definition tweets : pyval :=
  PList [PDict [("id", PStr "20");
                ("text", PStr "just setting up my twttr");
                ("createdAt", PStr "2006-03-21T20:50:14Z");
                ("author", PDict [("username", PStr "jack"); ("name", PStr "jack")]);
                ("likeCount", PInt 3)]].

(** A process where bird prints the JSON text of [tweets]. *)
Definition timeline : X.Env := env (Json.dumps tweets) tweets.

(** An article with a heading, a table of contents, categories and two
    other languages. *)
Definition article_page : Page.t :=
  page "https://en.wikipedia.org/wiki/Rust_(programming_language)"
       "Rust (programming language) - Wikipedia"
       [("#firstHeading", [text "Rust (programming language)"]);
        ("#toc .toctext, .vector-toc-text, .mw-toc-text .toctext",
         [text "History"; text "Syntax"]);
        ("#mw-normal-catlinks ul li a", [text "Programming languages"]);
        ("#p-lang li, .interlanguage-link", [text "Deutsch"; text "Italiano"])].

(** A page of search results with three snippets, one of them without a
    link. *)
Definition results_page : Page.t :=
  page "https://search.brave.com/search?q=rust&offset=0" "rust - Brave Search"
       [(Brave.results_selector,
         [snippet_with_link; snippet_without_link; snippet_with_link])].

(** A translation that never settles: it changes at every poll. *)
Definition flicker : DeepL.LivePage :=
  fun tick => translator (if Nat.even tick then "Hallo" else "Hallo Welt").

(** What the eighty polls read on [flicker]. *)
Definition flicker_values : list string :=
  map (fun i => if Nat.even (S i) then "Hallo" else "Hallo Welt") (seq 0 80).

(** A process with no credentials in its environment; [file] holds the
    lines of the credentials file ([None]: there is no such file). *)
Definition anonymous (file : option (list string)) : X.Env :=
  {| X._AUTH_TOKEN := EmptyString;
     X._CT0 := EmptyString;
     X.bird_auth := Ok file;
     X.bird := fun _ => Ok (0, "[]", EmptyString);
     X.json_loads := fun _ => Ok (PList []);
     X.str := str |}.

(** A process with both credentials set where bird exits with [code]
    and prints [stderr] on its error output. *)
Definition failing (code : Z) (stderr : string) : X.Env :=
  {| X._AUTH_TOKEN := "token";
     X._CT0 := "ct0";
     X.bird_auth := Ok None;
     X.bird := fun _ => Ok (code, EmptyString, stderr);
     X.json_loads := fun _ => Raise JSONDecodeError;
     X.str := str |}.

(** A process where bird prints a note before the JSON text of [tweets]. *)
Definition chatty : X.Env :=
  {| X._AUTH_TOKEN := "token";
     X._CT0 := "ct0";
     X.bird_auth := Ok None;
     X.bird := fun _ => Ok (0, "note: using cached session " +:+ Json.dumps tweets,
                            EmptyString);
     X.json_loads := fun text =>
       if String.eqb text (Json.dumps tweets) then Ok tweets else Raise JSONDecodeError;
     X.str := str |}.

End Sample.

(** ** Notions the properties are stated with *)

(** The endpoint names of each recipe, as the specification lists them. *)
Definition endpoints (r : recipe) : list string :=
  match r with
  | BraveRecipe => ["search"]
  | DeepLRecipe => ["de-en"; "en-de"]
  | WikipediaRecipe => ["search"; "article"]
  | XRecipe => ["posts"]
  end.

(** A string of white-space characters only (the empty string is
    one); the length of [s] is fuel enough. *)
Fixpoint blank (fuel : nat) (s : string) : bool :=
  match s, fuel with
  | EmptyString, _ => true
  | _, O => false
  | _, S fuel' =>
      match Py.after_space s with
      | Some r => blank fuel' r
      | None => false
      end
  end.

Definition whitespace_only (s : string) : bool := blank (String.length s) s.

Definition is_sleep (e : event) : bool :=
  match e with
  | Sleep _ => true
  | _ => false
  end.

(** The number of polls in a log of the translation recipe: each poll
    starts with its sleep. *)
Definition polls (log : list event) : nat := length (List.filter is_sleep log).

(** The selector finds an element under [el] whose stripped text is [t]. *)
Definition yields (el : Element.t) (sel t : string) : Prop :=
  exists e raw, Element.query_selector el sel = Ok (Some e)
                /\ Element.text_content e = Ok raw
                /\ Py.strip (Py.or_empty raw) = t.

(** The selector finds no element under [el], or one without text. *)
Definition yields_nothing (el : Element.t) (sel : string) : Prop :=
  Element.query_selector el sel = Ok None \/ yields el sel EmptyString.

(** What a list of selectors shows under an element: the text [t] of
    the first of them that yields a text, those before it yielding
    nothing. *)
Definition first_shown (el : Element.t) (selectors : list string) (t : string) : Prop :=
  exists before sel after,
    selectors = before ++ sel :: after
    /\ Forall (yields_nothing el) before
    /\ yields el sel t
    /\ t <> EmptyString.

(** A snippet has the title [t]: the text the title selectors show. *)
Definition has_title (snippet : Element.t) (t : string) : Prop :=
  first_shown snippet Brave.title_selectors t.

(** A link that leads to the search engine itself: its address has
    [brave.com] in it. *)
Definition is_internal (link : Element.t) : Prop :=
  exists h, Element.get_attribute link "href" = Ok (Some h)
            /\ Py.contains "brave.com" h = true.

(** A snippet has the external URL [h]: the address, not empty and
    without [brave.com] in it, of the first of its links that is not
    internal. *)
Definition has_external_url (snippet : Element.t) (h : string) : Prop :=
  exists before link after,
    Element.query_selector_all snippet "a[href^='http']" = Ok (before ++ link :: after)
    /\ Forall is_internal before
    /\ Element.get_attribute link "href" = Ok (Some h)
    /\ Py.contains "brave.com" h = false
    /\ h <> EmptyString.

(** The link loop of [_parse_snippet] on the links it found. *)
Definition href_loop (links : list Element.t) : M string :=
  for_loop links EmptyString (fun href link =>
    h <- call (GetAttribute "href") (Element.get_attribute link "href");;
    let h := Py.or_empty h in
    if Py.contains "brave.com" h then ret (Next href) else ret (Break h)).

(** The description of a snippet can be read: its selectors show a
    text, or all of them yield nothing. *)
Definition description_is_readable (snippet : Element.t) : Prop :=
  (exists d, first_shown snippet Brave.description_selectors d)
  \/ Forall (yields_nothing snippet) Brave.description_selectors.

(** The site name of a snippet can be read: there is no element for it,
    or the text of that element can be read. *)
Definition site_name_is_readable (snippet : Element.t) : Prop :=
  Element.query_selector snippet "[class*='site-name']" = Ok None
  \/ exists e raw, Element.query_selector snippet "[class*='site-name']" = Ok (Some e)
                   /\ Element.text_content e = Ok raw.

(** The description and the site name of a snippet can be read. *)
Definition rest_is_readable (snippet : Element.t) : Prop :=
  description_is_readable snippet /\ site_name_is_readable snippet.

(** [_parse_snippet] returns an item for the snippet. *)
Definition is_kept (snippet : Element.t) : Prop :=
  exists it, snd (Brave._parse_snippet snippet) = Ok (Some it).

(** [_parse_snippet] returns [None] for the snippet. *)
Definition is_discarded (snippet : Element.t) : Prop :=
  snd (Brave._parse_snippet snippet) = Ok None.

(** The value the translation recipe reads at poll [i]. *)
Definition observed (page : DeepL.LivePage) (i : nat) : result string :=
  snd (DeepL._read_target (page (S i))).

(** The polls [first], [first + 1], ... read the given values. *)
Definition observes (page : DeepL.LivePage) (first : nat) (values : list string) : Prop :=
  forall i v, values !! i = Some v -> observed page (first + i) = Ok v.

(** Convergence polling on a given sequence of observed values: the
    loop variables at the end, the number of values used, and whether
    the loop stopped on a stable value. *)
Fixpoint converge (query : string) (values : list string) (vars : string * Z)
  : (string * Z) * nat * bool :=
  match values with
  | [] => (vars, O, false)
  | v :: rest =>
      match DeepL.compare query vars v with
      | Break vars' => (vars', 1%nat, true)
      | Next vars' =>
          let '(final, n, stopped) := converge query rest vars' in (final, S n, stopped)
      end
  end.

(** The observations of the convergence example for the input [q]: two
    echoes of the input, two partial texts, then the final text. *)
Definition echo_partial_final (q : string) (finals : nat) : list string :=
  [q; q; "partial"; "partial"] ++ repeat "final" finals.

(** A value that shows no translation yet: empty, or the input itself. *)
Definition trivial (query : string) (v : string) : bool :=
  Py.is_empty v || String.eqb v (Py.strip query).

(** The last value that is not trivial, or the start value. *)
Definition last_nontrivial (query : string) (values : list string) (start : string)
  : string :=
  fold_left (fun acc v => if trivial query v then acc else v) values start.

(** A parameter that is present and is not an integer literal. *)
Definition not_a_number (params : gmap string string) (key : string) : Prop :=
  exists s, params !! key = Some s /\ Py.int s = None.

(** ** Notions for the further properties *)

(** The number of events of a log that satisfy [p]. *)
Definition count_events (p : event -> bool) (log : list event) : nat :=
  length (List.filter p log).

(** What one snippet adds to the items of the search-engine recipe. *)
Definition kept_item (snippet : Element.t) : list item :=
  match snd (Brave._parse_snippet snippet) with
  | Ok (Some ((_ :: _) as it)) => [it]
  | _ => []
  end.

(** What one search result adds to the items of the encyclopedia search:
    nothing when it has no heading link or when reading it raises. *)
Definition kept_result (result : Element.t) : list item :=
  match snd (Wikipedia.search_result result) with
  | Ok (Some it) => [it]
  | _ => []
  end.


(** Every white-space character of the text is a single space inside
    it: it is the space itself, something stands before it, and what
    follows it is not empty and does not start with white space. *)
Definition single_inner_spaces (v : string) : Prop :=
  forall before from_space after : string,
    v = before +:+ from_space ->
    Py.after_space from_space = Some after ->
    before <> EmptyString
    /\ from_space = String " " after
    /\ after <> EmptyString
    /\ Py.after_space after = None.



(** A text that is stripped and not empty, as a Python value. *)
Definition is_text_entry (v : pyval) : Prop :=
  exists t, v = PStr t /\ t <> EmptyString /\ Py.strip t = t.


(** A line of the credentials file that sets neither credential. *)
Definition sets_no_credential (line : string) : bool :=
  negb (Py.startswith (Py.strip line) "AUTH_TOKEN=")
  && negb (Py.startswith (Py.strip line) "CT0=").

(** A read of the credentials file. *)
Definition is_auth_read (e : event) : bool :=
  match e with
  | ReadAuthFile => true
  | _ => false
  end.

(** A run of the bird tool. *)
Definition is_subprocess (e : event) : bool :=
  match e with
  | Subprocess _ => true
  | _ => false
  end.

(** The command line of the social-timeline recipe. *)
Definition bird_command (username : string) (count : Z) (auth_token ct0 : string)
  : list string :=
  ["bird"; "user-tweets"; username; "-n"; Py.str_of_int count; "--json";
   "--auth-token"; auth_token; "--ct0"; ct0].

(** The user name the social-timeline recipe takes from the parameters. *)
Definition username_of (params : gmap string string) : string :=
  Py.lstrip_char "@" (Py.strip (Py.or_empty (params !! "query"))).

(* ===================================================================== *)
(** * Part II: properties                                                 *)
(* ===================================================================== *)

(** ** Checks of the Python built-ins *)

Example strip_example : Py.strip "  rust lang " = "rust lang".
Proof. reflexivity. Qed.

Example int_example : Py.int " -1_000 " = Some (-1000).
Proof. reflexivity. Qed.

Example int_abc : Py.int "abc" = None.
Proof. reflexivity. Qed.

(** Digits of another script, here the Arabic-Indic three and the
    full-width seven, and white space outside the ASCII range. *)
Example int_unicode : Py.int (Py.utf8 160 +:+ "-٣_７" +:+ Py.utf8 8195) = Some (-37).
Proof. vm_compute. reflexivity. Qed.

(** The separators FS and US are white space for [str.strip], not for
    [int]. *)
Example int_separators :
  Py.strip (String "028" ("4" +:+ String "031" EmptyString)) = "4"
  /\ Py.int (String "028" ("4" +:+ String "031" EmptyString)) = None.
Proof. vm_compute. auto. Qed.

Example int_underscores :
  Py.int "1_0" = Some 10 /\ Py.int "_1" = None /\ Py.int "1_" = None
  /\ Py.int "1__0" = None /\ Py.int "+ 1" = None /\ Py.int "007" = Some 7.
Proof. vm_compute. repeat split. Qed.

(** The limit on the number of digits. *)
Example int_digit_limit :
  Py.int (string_of_list_ascii (repeat "1"%char 4300)) <> None
  /\ Py.int (string_of_list_ascii (repeat "0"%char 4301)) = None.
Proof. vm_compute. split; [discriminate | reflexivity]. Qed.

Example strip_unicode :
  Py.strip (Py.utf8 8232 +:+ " rust" +:+ Py.utf8 160 +:+ "lang" +:+ Py.utf8 12288)
  = "rust" +:+ Py.utf8 160 +:+ "lang".
Proof. vm_compute. reflexivity. Qed.

Example len_example : Py.len "São Paulo" = 9%nat /\ String.length "São Paulo" = 10%nat.
Proof. vm_compute. auto. Qed.

Example collapse_example :
  Re.collapse_whitespace ("a" +:+ Py.utf8 160 +:+ String "010" (" b  c"))
  = "a b c".
Proof. vm_compute. reflexivity. Qed.

Example quote_example : Py.quote "/" "a b/c" = "a%20b/c".
Proof. reflexivity. Qed.

Example slice_negative : Py.slice_to [1; 2; 3] (-1) = [1; 2].
Proof. reflexivity. Qed.

Example str_example : Py.str_of_int 120 = "120".
Proof. reflexivity. Qed.

Example dumps_example :
  Json.dumps (PList [PStr "History"; PInt 3; PDict [("k", PNone)]])
  = "[" +:+ Py.dquote +:+ "History" +:+ Py.dquote +:+ ", 3, {" +:+ Py.dquote +:+ "k"
    +:+ Py.dquote +:+ ": null}]".
Proof. reflexivity. Qed.

(** ** The effect monad *)

Section Monad.
Context {A B : Type}.

Lemma bind_ret_l (a : A) (f : A -> M B) : bind (ret a) f = f a.
Proof. unfold bind, ret. destruct (f a) as [log r]. reflexivity. Qed.

Lemma bind_raise (e : exn) (f : A -> M B) : bind (raise e) f = raise e.
Proof. reflexivity. Qed.

Lemma bind_Ok_inv (m : M A) (f : A -> M B) (log : list event) (b : B) :
  bind m f = (log, Ok b) ->
  exists log1 a log2, m = (log1, Ok a) /\ f a = (log2, Ok b) /\ log = log1 ++ log2.
Proof.
  unfold bind. destruct m as [log1 [a | e]]; [| discriminate].
  destruct (f a) as [log2 r] eqn:Hf. intros [= <- ->].
  exists log1, a, log2. auto.
Qed.

Lemma bind_call_Ok (ev : event) (a : A) (f : A -> M B) :
  bind (call ev (Ok a)) f = (ev :: fst (f a), snd (f a)).
Proof. unfold bind, call. destruct (f a). reflexivity. Qed.

Lemma bind_call_Raise (ev : event) (e : exn) (f : A -> M B) :
  bind (call ev (Raise e)) f = ([ev], Raise e).
Proof. reflexivity. Qed.

End Monad.

Lemma try_Ok {A} (m : M A) : exists r, try m = (fst m, Ok r).
Proof. eexists. reflexivity. Qed.

Lemma int_Some (s : string) (n : Z) : Py.int s = Some n -> int s = ret n.
Proof. unfold int. intros ->. reflexivity. Qed.

Lemma int_None (s : string) : Py.int s = None -> int s = raise ValueError.
Proof. unfold int. intros ->. reflexivity. Qed.

(** ** Strings *)

Lemma is_empty_true (s : string) : Py.is_empty s = true <-> s = EmptyString.
Proof. destruct s; simpl; split; congruence. Qed.

Lemma is_empty_false (s : string) : Py.is_empty s = false <-> s <> EmptyString.
Proof. destruct s; simpl; split; congruence. Qed.

(** ** Characters and white space *)

Lemma append_cons (c : ascii) (a b : string) : String c a +:+ b = String c (a +:+ b).
Proof. reflexivity. Qed.

Lemma append_nil_r (a : string) : a +:+ EmptyString = a.
Proof. induction a as [| c a IH]; [reflexivity | now rewrite append_cons, IH]. Qed.

Lemma append_assoc (a b c : string) : (a +:+ b) +:+ c = a +:+ (b +:+ c).
Proof. induction a as [| x a IH]; [reflexivity | now rewrite !append_cons, IH]. Qed.

Lemma length_append (a b : string) :
  String.length (a +:+ b) = (String.length a + String.length b)%nat.
Proof.
  induction a as [| c a IH]; [reflexivity |].
  rewrite append_cons. cbn [String.length]. now rewrite IH.
Qed.

Lemma after_prefix_Some (w s r : string) :
  Py.after_prefix w s = Some r <-> s = w +:+ r.
Proof.
  revert s. induction w as [| a w IH]; intros s.
  - simpl. split; [intros [= ->] | intros ->]; reflexivity.
  - destruct s as [| b s]; cbn [Py.after_prefix].
    + split; [discriminate | intros H; discriminate H].
    + change (String a w +:+ r) with (String a (w +:+ r)).
      destruct (Ascii.eqb a b) eqn:E.
      * apply Ascii.eqb_eq in E. subst b. rewrite IH.
        split; [intros -> | intros [= ->]]; reflexivity.
      * apply Ascii.eqb_neq in E. split; [discriminate | intros [= -> _]; contradiction].
Qed.

Lemma after_any_Some (ws : list string) (s r : string) :
  Py.after_any ws s = Some r -> exists w, In w ws /\ s = w +:+ r.
Proof.
  induction ws as [| w ws IH]; cbn [Py.after_any]; [discriminate |].
  destruct (Py.after_prefix w s) as [r' |] eqn:E.
  - intros [= ->]. apply after_prefix_Some in E. exists w. split; [now left | exact E].
  - intros H. destruct (IH H) as (w' & Hin & Hs). exists w'. split; [now right | exact Hs].
Qed.

Lemma after_any_In (ws : list string) (w r : string) :
  In w ws -> Py.after_any ws (w +:+ r) <> None.
Proof.
  induction ws as [| w' ws IH]; intros Hin; [destruct Hin |].
  cbn [Py.after_any]. destruct (Py.after_prefix w' (w +:+ r)) eqn:E; [discriminate |].
  destruct Hin as [-> | Hin]; [| now apply IH].
  assert (H : Py.after_prefix w (w +:+ r) = Some r) by now apply after_prefix_Some.
  congruence.
Qed.

Lemma spaces_In (w : string) : existsb (String.eqb w) Py.spaces = true <-> In w Py.spaces.
Proof.
  rewrite existsb_exists. split.
  - intros (x & Hin & Hx). apply String.eqb_eq in Hx. now subst.
  - intros Hin. exists w. split; [exact Hin | apply String.eqb_refl].
Qed.

(** What the white-space characters are made of: none is empty, each is
    removed by [rstrip], the space is the only one that starts with a
    space, and none has a space after its first byte. *)
Lemma spaces_facts (w : string) :
  In w Py.spaces ->
  w <> EmptyString
  /\ Py.rstrip w = EmptyString
  /\ (forall r, w = String " " r -> r = EmptyString)
  /\ (forall c r, w = String c r -> Py.contains " " r = false).
Proof.
  assert (H : forallb (fun w => negb (Py.is_empty w)
                                && Py.is_empty (Py.rstrip w)
                                && match w with
                                   | String " " r => Py.is_empty r
                                   | _ => true
                                   end
                                && match w with
                                   | String _ r => negb (Py.contains " " r)
                                   | EmptyString => true
                                   end) Py.spaces = true)
    by (vm_compute; reflexivity).
  rewrite forallb_forall in H. intros Hin.
  specialize (H w Hin). apply andb_prop in H as [H H4]. apply andb_prop in H as [H H3].
  apply andb_prop in H as [H1 H2].
  split; [| split; [| split]].
  - intros ->. discriminate H1.
  - now destruct (Py.rstrip w).
  - intros r ->. now destruct r.
  - intros c r ->. now apply negb_true_iff in H4.
Qed.

Lemma after_space_eq (s : string) : Py.after_any Py.spaces s = Py.after_space s.
Proof. reflexivity. Qed.

Lemma after_space_Some (s r : string) :
  Py.after_space s = Some r -> exists w, In w Py.spaces /\ s = w +:+ r.
Proof. apply after_any_Some. Qed.

Lemma after_space_shorter (s r : string) :
  Py.after_space s = Some r -> (String.length r < String.length s)%nat.
Proof.
  intros (w & Hin & ->)%after_space_Some. rewrite length_append.
  destruct (spaces_facts w Hin) as (Hne & _). destruct w; [contradiction | simpl; lia].
Qed.

Lemma after_space_empty : Py.after_space EmptyString = None.
Proof.
  destruct (Py.after_space EmptyString) as [r |] eqn:E; [| reflexivity].
  apply after_space_shorter in E. simpl in E. lia.
Qed.

Lemma after_space_space (r : string) : Py.after_space (String " " r) = Some r.
Proof.
  destruct (Py.after_space (String " " r)) as [r' |] eqn:E.
  - apply after_space_Some in E as (w & Hin & Hw).
    destruct w as [| c w]; [now destruct (spaces_facts _ Hin) |].
    injection Hw as <- ->. destruct (spaces_facts _ Hin) as (_ & _ & H & _).
    now rewrite (H w eq_refl).
  - exfalso. apply (after_any_In Py.spaces " " r); [| exact E].
    apply spaces_In. vm_compute. reflexivity.
Qed.

(** Fuel beyond the length of the text changes nothing. *)
Lemma skip_spaces_enough (n : nat) :
  forall s, (String.length s <= n)%nat ->
            Py.skip Py.spaces n s = Py.skip Py.spaces (String.length s) s.
Proof.
  induction n as [n IH] using lt_wf_ind. intros s Hn.
  destruct n as [| n].
  - destruct s; [reflexivity | simpl in Hn; lia].
  - destruct s as [| c s].
    + cbn [Py.skip String.length]. rewrite after_space_eq. now rewrite after_space_empty.
    + cbn [Py.skip String.length]. rewrite after_space_eq.
      destruct (Py.after_space (String c s)) as [r |] eqn:E; [| reflexivity].
      apply after_space_shorter in E. simpl in E, Hn.
      rewrite (IH n) by lia. rewrite (IH (String.length s)) by lia. reflexivity.
Qed.

Lemma lstrip_unfold (s : string) :
  Py.lstrip s = match Py.after_space s with
                | Some r => Py.lstrip r
                | None => s
                end.
Proof.
  unfold Py.lstrip. destruct s as [| c s].
  - now rewrite after_space_empty.
  - cbn [Py.skip String.length]. rewrite after_space_eq.
    destruct (Py.after_space (String c s)) as [r |] eqn:E; [| reflexivity].
    apply after_space_shorter in E. simpl in E. apply skip_spaces_enough. lia.
Qed.

(** Induction along the characters of a text. *)
Lemma string_length_ind (P : string -> Prop) :
  (forall s, (forall r, (String.length r < String.length s)%nat -> P r) -> P s) ->
  forall s, P s.
Proof.
  intros H s. remember (String.length s) as n eqn:Hn. revert s Hn.
  induction n as [n IH] using lt_wf_ind. intros s ->.
  apply H. intros r Hr. now apply (IH (String.length r)).
Qed.

Lemma lstrip_no_space (s : string) : Py.after_space (Py.lstrip s) = None.
Proof.
  induction s as [s IH] using string_length_ind.
  rewrite lstrip_unfold. destruct (Py.after_space s) as [r |] eqn:E; [| exact E].
  apply IH. now apply after_space_shorter.
Qed.

Lemma lstrip_fixed (s : string) : Py.after_space s = None -> Py.lstrip s = s.
Proof. intros H. now rewrite lstrip_unfold, H. Qed.

Lemma lstrip_idempotent (s : string) : Py.lstrip (Py.lstrip s) = Py.lstrip s.
Proof. apply lstrip_fixed, lstrip_no_space. Qed.

Lemma lstrip_suffix (s : string) : exists p, s = p +:+ Py.lstrip s.
Proof.
  induction s as [s IH] using string_length_ind.
  rewrite lstrip_unfold. destruct (Py.after_space s) as [r |] eqn:E.
  - destruct (IH r (after_space_shorter _ _ E)) as [p Hp].
    apply after_space_Some in E as (w & _ & ->).
    exists (w +:+ p). now rewrite append_assoc, <- Hp.
  - now exists EmptyString.
Qed.

Lemma rstrip_cons (c : ascii) (s : string) :
  Py.rstrip (String c s)
  = if existsb (String.eqb (String c (Py.rstrip s))) Py.spaces then EmptyString
    else String c (Py.rstrip s).
Proof. reflexivity. Qed.

Lemma rstrip_idempotent (t : string) : Py.rstrip (Py.rstrip t) = Py.rstrip t.
Proof.
  induction t as [| c t IH]; [reflexivity |].
  rewrite rstrip_cons.
  destruct (existsb _ Py.spaces) eqn:E; [reflexivity |].
  rewrite rstrip_cons, IH, E. reflexivity.
Qed.

(** What ends a text that [rstrip] leaves alone is left alone too. *)
Lemma rstrip_suffix_closed (p t : string) :
  Py.rstrip (p +:+ t) = p +:+ t -> Py.rstrip t = t.
Proof.
  induction p as [| c p IH]; [auto |].
  change (String c p +:+ t) with (String c (p +:+ t)). rewrite rstrip_cons.
  destruct (existsb _ Py.spaces); [discriminate |].
  intros [= H]. auto.
Qed.

Lemma rstrip_app_blank (a t : string) :
  Py.rstrip t = EmptyString -> Py.rstrip (a +:+ t) = Py.rstrip a.
Proof.
  intros Ht. induction a as [| c a IH]; [exact Ht |].
  change (String c a +:+ t) with (String c (a +:+ t)).
  now rewrite !rstrip_cons, IH.
Qed.

(** A text that [rstrip] leaves alone does not end with white space. *)
Lemma rstrip_fixed_no_space (p w : string) :
  Py.rstrip (p +:+ w) = p +:+ w -> ~ In w Py.spaces.
Proof.
  intros H Hin. apply rstrip_suffix_closed in H.
  destruct (spaces_facts w Hin) as (Hne & Hr & _). congruence.
Qed.

Lemma rstrip_fixed (s : string) :
  (forall p w, s = p +:+ w -> ~ In w Py.spaces) -> Py.rstrip s = s.
Proof.
  induction s as [| c s IH]; intros H; [reflexivity |].
  rewrite rstrip_cons, IH.
  - destruct (existsb _ Py.spaces) eqn:E; [| reflexivity].
    apply spaces_In in E. now destruct (H EmptyString (String c s) eq_refl).
  - intros p w ->. apply (H (String c p) w). reflexivity.
Qed.

Lemma blank_enough (n : nat) :
  forall s, (String.length s <= n)%nat -> blank n s = blank (String.length s) s.
Proof.
  induction n as [n IH] using lt_wf_ind. intros s Hn.
  destruct s as [| c s]; [now destruct n |].
  destruct n as [| n]; [simpl in Hn; lia |].
  cbn [blank String.length].
  destruct (Py.after_space (String c s)) as [r |] eqn:E; [| reflexivity].
  apply after_space_shorter in E. simpl in E, Hn.
  rewrite (IH n) by lia. rewrite (IH (String.length s)) by lia. reflexivity.
Qed.

Lemma whitespace_only_unfold (s : string) :
  whitespace_only s = match s with
                      | EmptyString => true
                      | _ => match Py.after_space s with
                             | Some r => whitespace_only r
                             | None => false
                             end
                      end.
Proof.
  unfold whitespace_only. destruct s as [| c s]; [reflexivity |].
  cbn [blank String.length].
  destruct (Py.after_space (String c s)) as [r |] eqn:E; [| reflexivity].
  apply after_space_shorter in E. simpl in E. apply blank_enough. lia.
Qed.

Lemma rstrip_whitespace_only (s : string) :
  whitespace_only s = true -> Py.rstrip s = EmptyString.
Proof.
  induction s as [s IH] using string_length_ind.
  rewrite whitespace_only_unfold. destruct s as [| c s]; [reflexivity |].
  destruct (Py.after_space (String c s)) as [r |] eqn:E; [| discriminate].
  intros Hr. pose proof (after_space_shorter _ _ E) as Hlen.
  apply after_space_Some in E as (w & Hin & ->).
  rewrite rstrip_app_blank by now apply IH.
  now destruct (spaces_facts w Hin) as (_ & Hw & _).
Qed.

Lemma strip_whitespace_only (s : string) :
  whitespace_only s = true -> Py.strip s = EmptyString.
Proof.
  intros H. unfold Py.strip. rewrite rstrip_whitespace_only by exact H. reflexivity.
Qed.

Lemma strip_idempotent (s : string) : Py.strip (Py.strip s) = Py.strip s.
Proof.
  unfold Py.strip.
  assert (H : Py.rstrip (Py.lstrip (Py.rstrip s)) = Py.lstrip (Py.rstrip s)).
  { destruct (lstrip_suffix (Py.rstrip s)) as [p Hp].
    apply (rstrip_suffix_closed p). rewrite <- Hp. apply rstrip_idempotent. }
  rewrite H. apply lstrip_idempotent.
Qed.

(** A stripped text neither starts nor ends with white space. *)
Lemma strip_no_space_start (s : string) : Py.strip s = s -> Py.after_space s = None.
Proof. intros <-. apply lstrip_no_space. Qed.

Lemma strip_rstrip_fixed (s : string) : Py.strip s = s -> Py.rstrip s = s.
Proof.
  intros H. rewrite <- H at 1 2. unfold Py.strip.
  destruct (lstrip_suffix (Py.rstrip s)) as [p Hp].
  apply (rstrip_suffix_closed p). rewrite <- Hp. apply rstrip_idempotent.
Qed.

Lemma strip_fixed (s : string) :
  Py.after_space s = None -> Py.rstrip s = s -> Py.strip s = s.
Proof. intros Hl Hr. unfold Py.strip. rewrite Hr. now apply lstrip_fixed. Qed.

Lemma lower_app (a b : string) : Py.lower (a +:+ b) = Py.lower a +:+ Py.lower b.
Proof. induction a as [| c a IH]; simpl; [reflexivity | now rewrite IH]. Qed.

Lemma prefix_app (n rest : string) : String.prefix n (n +:+ rest) = true.
Proof.
  induction n as [| c n IH]; simpl; [now destruct rest |].
  destruct (ascii_dec c c); [assumption | contradiction].
Qed.

Lemma contains_prefix (needle hay : string) :
  String.prefix needle hay = true -> Py.contains needle hay = true.
Proof. intros H. destruct hay; cbn [Py.contains]; now rewrite H. Qed.

Lemma contains_app (needle before after : string) :
  Py.contains needle (before +:+ needle +:+ after) = true.
Proof.
  induction before as [| c before IH].
  - change (Py.contains needle (needle +:+ after) = true).
    apply contains_prefix, prefix_app.
  - change (Py.contains needle (String c (before +:+ needle +:+ after)) = true).
    cbn [Py.contains].
    destruct (String.prefix needle (String c (before +:+ needle +:+ after)));
      [reflexivity | exact IH].
Qed.


(** ** Endpoint sets *)

Lemma deepl_supports (e : string) :
  DeepL.supports e = true <-> e = "de-en" \/ e = "en-de".
Proof.
  unfold DeepL.supports, DeepL._LANG_PAIRS.
  destruct (decide (e = "de-en")) as [-> | H1]; [rewrite lookup_insert_eq; tauto |].
  rewrite lookup_insert_ne by congruence.
  destruct (decide (e = "en-de")) as [-> | H2]; [rewrite lookup_insert_eq; tauto |].
  rewrite lookup_insert_ne by congruence.
  rewrite lookup_empty. split; [discriminate | tauto].
Qed.

Lemma supports_endpoints (r : recipe) (e : string) :
  supports r e = true <-> e ∈ endpoints r.
Proof.
  destruct r; simpl; rewrite ?elem_of_cons, elem_of_nil.
  - unfold Brave.supports. rewrite String.eqb_eq. tauto.
  - rewrite deepl_supports. tauto.
  - unfold Wikipedia.supports. rewrite orb_true_iff, !String.eqb_eq. tauto.
  - unfold X.supports. rewrite String.eqb_eq. tauto.
Qed.

(** C6, as stated, fails: the endpoint [search] is claimed by the
    search-engine recipe and by the encyclopedia recipe, so the sets of
    supported endpoints are not pairwise disjoint. *)
Lemma search_is_claimed_twice :
  ~ (forall (e : string) (r1 r2 : recipe),
        supports r1 e = true -> supports r2 e = true -> r1 = r2).
Proof.
  intros H. specialize (H "search" BraveRecipe WikipediaRecipe eq_refl eq_refl).
  discriminate H.
Qed.

(** C6, amended: [supports] is a function of the endpoint alone, true
    exactly on the recipe's list of endpoint names, and two different
    recipes support a common endpoint only for [search], which the
    search-engine and the encyclopedia recipe both claim; every other
    endpoint has at most one recipe. *)
Theorem endpoints_disjoint_except_search :
  (forall (r : recipe) (e : string), supports r e = true <-> e ∈ endpoints r)
  /\ (forall (e : string) (r1 r2 : recipe),
         supports r1 e = true -> supports r2 e = true -> r1 <> r2 ->
         e = "search"
         /\ (r1 = BraveRecipe /\ r2 = WikipediaRecipe
             \/ r1 = WikipediaRecipe /\ r2 = BraveRecipe)).
Proof.
  split; [exact supports_endpoints |].
  intros e r1 r2 H1%supports_endpoints H2%supports_endpoints Hne.
  destruct r1, r2; simpl in H1, H2; try congruence;
    rewrite ?elem_of_cons, elem_of_nil in H1; rewrite ?elem_of_cons, elem_of_nil in H2;
    intuition (subst; try discriminate; auto).
Qed.

Lemma endpoints_disjoint_except_search_witness :
  "search" = "search"
  /\ (BraveRecipe = BraveRecipe /\ WikipediaRecipe = WikipediaRecipe
      \/ BraveRecipe = WikipediaRecipe /\ WikipediaRecipe = BraveRecipe).
Proof.
  apply (proj2 endpoints_disjoint_except_search "search" BraveRecipe WikipediaRecipe);
    [reflexivity | reflexivity | discriminate].
Defined.

(** ** Translation of an empty text *)

(** C7: on endpoint [en-de] with [query] mapped to a string that is
    empty or made of white-space characters only (those of Unicode, as
    [str.strip] removes them), [scrape] returns one item whose source
    and translated text are empty, and its log is empty: no navigation
    and no other call on the page. *)
Theorem deepl_empty_query_no_navigation
        (page : DeepL.LivePage) (params : gmap string string) (q : string) :
  params !! "query" = Some q ->
  whitespace_only q = true ->
  exists it : item,
    DeepL.scrape "en-de" page params
    = ([], Ok {| items := [it]; current_page := None; has_next := None |})
    /\ dict_get "source_text" it = Some (PStr EmptyString)
    /\ dict_get "translated_text" it = Some (PStr EmptyString).
Proof.
  intros Hq Hws. exists (DeepL.record EmptyString EmptyString "en" "de").
  split; [| split; reflexivity].
  unfold DeepL.scrape.
  replace (DeepL._LANG_PAIRS !! "en-de") with (Some ("en", "de")) by reflexivity.
  rewrite Hq. cbn [Py.or_empty].
  rewrite (strip_whitespace_only q Hws). reflexivity.
Qed.

Lemma deepl_empty_query_no_navigation_witness :
  exists it : item,
    DeepL.scrape "en-de" (Sample.streaming [] "Hallo") (<["query" := Sample.blanks]> ∅)
    = ([], Ok {| items := [it]; current_page := None; has_next := None |})
    /\ dict_get "source_text" it = Some (PStr EmptyString)
    /\ dict_get "translated_text" it = Some (PStr EmptyString).
Proof.
  apply (deepl_empty_query_no_navigation
           (Sample.streaming [] "Hallo") (<["query" := Sample.blanks]> ∅) Sample.blanks);
    [reflexivity | vm_compute; reflexivity].
Defined.

(** ** The search-engine recipe up to the results container *)

Section BraveRun.
Variables (endpoint : string) (page : Page.t) (params : gmap string string).
Variables (c p : Z) (title : string).

Let query := Py.strip (Py.or_empty (params !! "query")).
Let url := Brave.search_url query ((Z.max p 1 - 1) * 20).

Hypothesis Hquery : query <> EmptyString.
Hypothesis Hcount : Py.int (default "20" (params !! "count")) = Some c.
Hypothesis Hpage : Py.int (default "1" (params !! "page")) = Some p.
Hypothesis Hinit : Page.add_init_script page Brave.init_script = Ok tt.
Hypothesis Hgoto : Page.goto page url = Ok tt.
Hypothesis Htitle : Page.title page = Ok title.



End BraveRun.



(** ** Parameters that are not numbers *)

Lemma default_count_is_a_number (params : gmap string string) (dflt : string) (n : Z) :
  Py.int dflt = Some n ->
  ~ not_a_number params "count" ->
  exists c, Py.int (default dflt (params !! "count")) = Some c.
Proof.
  intros Hd Hok. destruct (params !! "count") as [s |] eqn:Hs; simpl.
  - destruct (Py.int s) as [c |] eqn:Hc; [eauto |].
    exfalso. apply Hok. exists s. auto.
  - eauto.
Qed.

Lemma bad_parameter (params : gmap string string) (key dflt : string) :
  not_a_number params key -> Py.int (default dflt (params !! key)) = None.
Proof. intros (s & -> & Hs). exact Hs. Qed.

Lemma not_a_number_dec (params : gmap string string) (key : string) :
  not_a_number params key \/ ~ not_a_number params key.
Proof.
  unfold not_a_number. destruct (params !! key) as [s |].
  - destruct (Py.int s) as [c |] eqn:Hc.
    + right. intros (s' & [= <-] & H). congruence.
    + left. eauto.
  - right. intros (s' & [=] & _).
Qed.

(** The integer conversions come first in the two search recipes, once
    the query is known not to be empty. *)
Lemma brave_bad_number (endpoint : string) (page : Page.t) (params : gmap string string) :
  Py.strip (Py.or_empty (params !! "query")) <> EmptyString ->
  not_a_number params "count" \/ not_a_number params "page" ->
  Brave.scrape endpoint page params = ([], Raise ValueError).
Proof.
  intros Hq%is_empty_false Hbad. unfold Brave.scrape. rewrite Hq.
  destruct (not_a_number_dec params "count") as [Hc | Hc].
  - rewrite (int_None _ (bad_parameter _ _ "20" Hc)). reflexivity.
  - destruct Hbad as [Hbad | Hbad]; [contradiction |].
    destruct (default_count_is_a_number params "20" 20 eq_refl Hc) as [c Hc'].
    rewrite (int_Some _ _ Hc'), bind_ret_l.
    rewrite (int_None _ (bad_parameter _ _ "1" Hbad)). reflexivity.
Qed.

Lemma wikipedia_search_bad_number (page : Page.t) (params : gmap string string) :
  Py.strip (Py.or_empty (params !! "query")) <> EmptyString ->
  not_a_number params "count" \/ not_a_number params "page" ->
  Wikipedia.scrape "search" page params = ([], Raise ValueError).
Proof.
  intros Hq%is_empty_false Hbad.
  change (Wikipedia._search page params = ([], Raise ValueError)).
  unfold Wikipedia._search. rewrite Hq.
  destruct (not_a_number_dec params "count") as [Hc | Hc].
  - rewrite (int_None _ (bad_parameter _ _ "20" Hc)). reflexivity.
  - destruct Hbad as [Hbad | Hbad]; [contradiction |].
    destruct (default_count_is_a_number params "20" 20 eq_refl Hc) as [c Hc'].
    rewrite (int_Some _ _ Hc'), bind_ret_l.
    rewrite (int_None _ (bad_parameter _ _ "1" Hbad)). reflexivity.
Qed.

Lemma x_bad_count (env : X.Env) (endpoint : string) (page : Page.t)
      (params : gmap string string) :
  Py.lstrip_char "@" (Py.strip (Py.or_empty (params !! "query"))) <> EmptyString ->
  not_a_number params "count" ->
  X.scrape env endpoint page params = ([], Raise ValueError).
Proof.
  intros Hq%is_empty_false Hbad. unfold X.scrape. rewrite Hq.
  rewrite (int_None _ (bad_parameter _ _ "10" Hbad)). reflexivity.
Qed.

(** C10, as stated, fails: the social-timeline recipe never reads [page],
    so a [page] that is not a number does not make it fail. *)
Lemma posts_ignore_page :
  ~ (forall (params : gmap string string) (env : X.Env) (page : Page.t),
        not_a_number params "count" \/ not_a_number params "page" ->
        exists log, X.scrape env "posts" page params = (log, Raise ValueError)).
Proof.
  intros H.
  destruct (H (<["query" := "jack"]> (<["page" := "abc"]> ∅))
              (Sample.env "[]" (PList [])) Sample.blank) as [log Hlog].
  - right. exists "abc". split; reflexivity.
  - vm_compute in Hlog. discriminate Hlog.
Qed.

Lemma x_ignores_page (env : X.Env) (endpoint : string) (page : Page.t)
      (params : gmap string string) (v : string) :
  X.scrape env endpoint page (<["page" := v]> params)
  = X.scrape env endpoint page (delete "page" params).
Proof.
  unfold X.scrape.
  rewrite !lookup_insert_ne by discriminate. rewrite !lookup_delete_ne by discriminate.
  reflexivity.
Qed.

(** C10, amended: with a query that is not empty, the search-engine and
    the encyclopedia-search [scrape] end with an uncaught [ValueError],
    before any call on the page, when [count] or [page] is present and
    [int] refuses it; the social-timeline [scrape] does so when [count]
    is such a string, and it never reads [page]: its outcome with any
    value of [page] is its outcome without that parameter.  With a query
    of white space only, each of the three raises its missing-query
    error instead, whatever [count] and [page] are.  [ValueError] is not
    one of the [RuntimeError]s the recipes raise themselves. *)
Theorem non_numeric_parameter_raises_value_error
        (params : gmap string string) (endpoint : string)
        (page : Page.t) (env : X.Env) :
  (Py.strip (Py.or_empty (params !! "query")) <> EmptyString ->
   not_a_number params "count" \/ not_a_number params "page" ->
   Brave.scrape endpoint page params = ([], Raise ValueError)
   /\ Wikipedia.scrape "search" page params = ([], Raise ValueError))
  /\ (Py.lstrip_char "@" (Py.strip (Py.or_empty (params !! "query"))) <> EmptyString ->
      not_a_number params "count" ->
      X.scrape env endpoint page params = ([], Raise ValueError))
  /\ (forall v : string,
         X.scrape env endpoint page (<["page" := v]> params)
         = X.scrape env endpoint page (delete "page" params))
  /\ (whitespace_only (Py.or_empty (params !! "query")) = true ->
      Brave.scrape endpoint page params = ([], Raise Brave.missing_query)
      /\ Wikipedia.scrape "search" page params = ([], Raise Wikipedia.missing_query)
      /\ X.scrape env endpoint page params = ([], Raise X.missing_username))
  /\ (forall msg : string, ValueError <> RuntimeError msg).
Proof.
  split; [| split; [| split; [| split]]].
  - intros Hq Hbad. split; [now apply brave_bad_number
                           | now apply wikipedia_search_bad_number].
  - now apply x_bad_count.
  - intros v. apply x_ignores_page.
  - intros H%strip_whitespace_only. repeat split.
    + unfold Brave.scrape. now rewrite H.
    + change (Wikipedia._search page params = ([], Raise Wikipedia.missing_query)).
      unfold Wikipedia._search. now rewrite H.
    + unfold X.scrape. now rewrite H.
  - discriminate.
Qed.

Lemma non_numeric_parameter_raises_value_error_witness :
  (Brave.scrape "search" Sample.blank
                (<["query" := "rust"]> (<["page" := Sample.padded_four]> ∅))
   = ([], Raise ValueError)
   /\ Wikipedia.scrape "search" Sample.blank
                       (<["query" := "rust"]> (<["page" := Sample.padded_four]> ∅))
      = ([], Raise ValueError))
  /\ X.scrape (Sample.env "[]" (PList [])) "posts" Sample.blank
              (<["query" := "@jack"]> (<["count" := "abc"]> ∅))
     = ([], Raise ValueError)
  /\ (Brave.scrape "search" Sample.blank
                   (<["query" := Sample.blanks]> (<["count" := "abc"]> ∅))
      = ([], Raise Brave.missing_query)
      /\ Wikipedia.scrape "search" Sample.blank
                          (<["query" := Sample.blanks]> (<["count" := "abc"]> ∅))
         = ([], Raise Wikipedia.missing_query)
      /\ X.scrape (Sample.env "[]" (PList [])) "posts" Sample.blank
                  (<["query" := Sample.blanks]> (<["count" := "abc"]> ∅))
         = ([], Raise X.missing_username)).
Proof.
  split; [| split].
  - apply (proj1 (non_numeric_parameter_raises_value_error
                    (<["query" := "rust"]> (<["page" := Sample.padded_four]> ∅)) "search"
                    Sample.blank (Sample.env "[]" (PList [])))).
    + vm_compute. discriminate.
    + right. exists Sample.padded_four. split; [reflexivity | vm_compute; reflexivity].
  - apply (proj1 (proj2 (non_numeric_parameter_raises_value_error
                           (<["query" := "@jack"]> (<["count" := "abc"]> ∅)) "posts"
                           Sample.blank (Sample.env "[]" (PList []))))).
    + vm_compute. discriminate.
    + exists "abc". split; reflexivity.
  - apply (proj1 (proj2 (proj2 (proj2 (non_numeric_parameter_raises_value_error
                           (<["query" := Sample.blanks]> (<["count" := "abc"]> ∅)) "posts"
                           Sample.blank (Sample.env "[]" (PList []))))))).
    vm_compute. reflexivity.
Defined.

(** A page number in Arabic-Indic digits is a number for [int]: the
    search goes to the third page. *)
Example arabic_indic_page_is_a_number :
  exists log found,
    Brave.scrape "search" Sample.results_page (<["query" := "rust"]> (<["page" := "٣"]> ∅))
    = (log, Ok {| items := found; current_page := Some 3; has_next := Some false |})
    /\ In (Goto "https://search.brave.com/search?q=rust&offset=40") log.
Proof. vm_compute. eexists _, _. split; [reflexivity |]. right. left. reflexivity. Qed.

(** ** Which snippets the search-engine recipe keeps *)

Lemma snd_bind {A B} (m : M A) (f : A -> M B) :
  snd (bind m f) = match snd m with
                   | Ok a => snd (f a)
                   | Raise e => Raise e
                   end.
Proof.
  unfold bind. destruct m as [log [a | e]]; [| reflexivity].
  cbn [fst snd]. destruct (f a). reflexivity.
Qed.

Lemma fst_bind {A B} (m : M A) (f : A -> M B) :
  fst (bind m f) = match snd m with
                   | Ok a => fst m ++ fst (f a)
                   | Raise e => fst m
                   end.
Proof.
  unfold bind. destruct m as [log [a | e]]; [| reflexivity].
  cbn [fst snd]. destruct (f a). reflexivity.
Qed.

(** [_parse_snippet] never raises: an exception in its body is a [None]. *)
Lemma parse_snippet_result (snippet : Element.t) :
  snd (Brave._parse_snippet snippet)
  = Ok (match snd (Brave.parse_snippet_body snippet) with
        | Ok parsed => parsed
        | Raise _ => None
        end).
Proof.
  unfold Brave._parse_snippet. rewrite snd_bind. unfold try. cbn [snd].
  destruct (snd (Brave.parse_snippet_body snippet)); reflexivity.
Qed.

Lemma parse_snippet_body_result (snippet : Element.t) :
  snd (Brave.parse_snippet_body snippet)
  = match snd (Brave.first_text snippet Brave.title_selectors) with
    | Raise e => Raise e
    | Ok title =>
        if Py.is_empty title then Ok None
        else match snd (Brave.first_external_href snippet) with
             | Raise e => Raise e
             | Ok href =>
                 if Py.is_empty href then Ok None
                 else match snd (Brave.first_text snippet Brave.description_selectors) with
                      | Raise e => Raise e
                      | Ok desc =>
                          match snd (Brave.site_name snippet) with
                          | Raise e => Raise e
                          | Ok site =>
                              Ok (Some
                                    (if Py.is_empty site
                                     then [("title", PStr title); ("url", PStr href);
                                           ("snippet", PStr desc)]
                                     else dict_set "site" (PStr site)
                                            [("title", PStr title); ("url", PStr href);
                                             ("snippet", PStr desc)]))
                          end
                      end
             end
    end.
Proof.
  unfold Brave.parse_snippet_body. rewrite snd_bind.
  destruct (snd (Brave.first_text snippet Brave.title_selectors)) as [title |];
    [| reflexivity].
  destruct (Py.is_empty title); [reflexivity |]. rewrite snd_bind.
  destruct (snd (Brave.first_external_href snippet)) as [href |]; [| reflexivity].
  destruct (Py.is_empty href); [reflexivity |]. rewrite snd_bind.
  destruct (snd (Brave.first_text snippet Brave.description_selectors)) as [desc |];
    [| reflexivity].
  rewrite snd_bind.
  destruct (snd (Brave.site_name snippet)) as [site |]; [| reflexivity].
  destruct (Py.is_empty site); reflexivity.
Qed.

(** *** What the selector loops return *)

Lemma yields_functional (el : Element.t) (sel t1 t2 : string) :
  yields el sel t1 -> yields el sel t2 -> t1 = t2.
Proof.
  intros (e1 & raw1 & Hq1 & Ht1 & <-) (e2 & raw2 & Hq2 & Ht2 & <-).
  rewrite Hq1 in Hq2. injection Hq2 as <-. rewrite Ht1 in Ht2. now injection Ht2 as <-.
Qed.

Lemma yields_nothing_text (el : Element.t) (sel t : string) :
  yields_nothing el sel -> yields el sel t -> t = EmptyString.
Proof.
  intros [Hnone | Hempty] Ht.
  - destruct Ht as (e & raw & Hq & _). congruence.
  - exact (yields_functional _ _ _ _ Ht Hempty).
Qed.

Lemma first_shown_cons (el : Element.t) (sel : string) (rest : list string) (t : string) :
  first_shown el (sel :: rest) t
  <-> (yields el sel t /\ t <> EmptyString)
      \/ (yields_nothing el sel /\ first_shown el rest t).
Proof.
  split.
  - intros (before & s & after & Hsels & Hbefore & Hs & Hne).
    destruct before as [| b before]; cbn [app] in Hsels; injection Hsels as <- ->.
    + now left.
    + apply Forall_cons in Hbefore as [Hb Hbefore]. right. split; [exact Hb |].
      exists before, s, after. auto.
  - intros [[Hs Hne] | [Hs (before & s & after & -> & Hbefore & Hy & Hne)]].
    + exists [], sel, rest. repeat split; auto.
    + exists (sel :: before), s, after. repeat split; auto.
Qed.

Lemma first_shown_nil (el : Element.t) (t : string) : ~ first_shown el [] t.
Proof. intros (before & s & after & H & _). now destruct before. Qed.

(** One turn of the loop of [first_text]. *)
Lemma first_text_cons (el : Element.t) (sel : string) (rest : list string) :
  snd (Brave.first_text el (sel :: rest))
  = match Element.query_selector el sel with
    | Raise e => Raise e
    | Ok None => snd (Brave.first_text el rest)
    | Ok (Some found) =>
        match Element.text_content found with
        | Raise e => Raise e
        | Ok raw =>
            if Py.is_empty (Py.strip (Py.or_empty raw))
            then snd (Brave.first_text el rest)
            else Ok (Py.strip (Py.or_empty raw))
        end
    end.
Proof.
  unfold Brave.first_text. cbn [for_loop]. rewrite !snd_bind. cbn [call snd].
  destruct (Element.query_selector el sel) as [[found |] | e]; [| reflexivity | reflexivity].
  rewrite !snd_bind. cbn [call snd].
  destruct (Element.text_content found) as [raw | e]; [| reflexivity].
  cbv zeta. destruct (Py.is_empty (Py.strip (Py.or_empty raw))) eqn:E; [| reflexivity].
  apply is_empty_true in E. rewrite E. reflexivity.
Qed.

(** The loop returns the text the selectors show, or the empty text
    when all of them yield nothing; it raises in every other case. *)
Lemma first_text_spec (el : Element.t) (selectors : list string) (t : string) :
  snd (Brave.first_text el selectors) = Ok t
  <-> first_shown el selectors t
      \/ (Forall (yields_nothing el) selectors /\ t = EmptyString).
Proof.
  induction selectors as [| sel rest IH].
  - split.
    + intros [= <-]. right. split; [constructor | reflexivity].
    + intros [H | [_ ->]]; [now apply first_shown_nil in H | reflexivity].
  - rewrite first_text_cons, first_shown_cons.
    destruct (Element.query_selector el sel) as [[found |] | e] eqn:Hq.
    + destruct (Element.text_content found) as [raw | e] eqn:Ht.
      * assert (Hy : yields el sel (Py.strip (Py.or_empty raw))) by (exists found, raw; auto).
        destruct (Py.is_empty (Py.strip (Py.or_empty raw))) eqn:E.
        -- apply is_empty_true in E. rewrite E in Hy.
           assert (Hn : yields_nothing el sel) by now right.
           rewrite IH. split.
           ++ intros [H | [H ->]]; [left; right; auto | right; split; [now constructor | reflexivity]].
           ++ intros [[[H Hne] | [_ H]] | [H ->]].
              ** now rewrite (yields_functional _ _ _ _ H Hy) in Hne.
              ** now left.
              ** apply Forall_cons in H as [_ H]. now right.
        -- apply is_empty_false in E. split.
           ++ intros [= <-]. left. left. auto.
           ++ intros [[[H _] | [H _]] | [H _]].
              ** now rewrite (yields_functional _ _ _ _ H Hy).
              ** now rewrite (yields_nothing_text _ _ _ H Hy) in E.
              ** apply Forall_cons in H as [H _].
                 now rewrite (yields_nothing_text _ _ _ H Hy) in E.
      * split; [discriminate |].
        assert (Hno : forall t', ~ yields el sel t').
        { intros t' (e' & raw & Hq' & Ht' & _). congruence. }
        intros [[[H _] | [[H | H] _]] | [H _]].
        -- now apply Hno in H.
        -- congruence.
        -- now apply Hno in H.
        -- apply Forall_cons in H as [[H | H] _]; [congruence | now apply Hno in H].
    + assert (Hno : forall t', ~ yields el sel t').
      { intros t' (e' & raw & Hq' & _). congruence. }
      assert (Hn : yields_nothing el sel) by now left.
      rewrite IH. split.
      * intros [H | [H ->]]; [left; right; auto | right; split; [now constructor | reflexivity]].
      * intros [[[H _] | [_ H]] | [H ->]].
        -- now apply Hno in H.
        -- now left.
        -- apply Forall_cons in H as [_ H]. now right.
    + split; [discriminate |].
      assert (Hno : forall t', ~ yields el sel t').
      { intros t' (e' & raw & Hq' & _). congruence. }
      intros [[[H _] | [[H | H] _]] | [H _]].
      * now apply Hno in H.
      * congruence.
      * now apply Hno in H.
      * apply Forall_cons in H as [[H | H] _]; [congruence | now apply Hno in H].
Qed.

Lemma first_shown_not_empty (el : Element.t) (selectors : list string) (t : string) :
  first_shown el selectors t -> t <> EmptyString.
Proof. now intros (_ & _ & _ & _ & _ & _ & H). Qed.

(** The title loop returns a text that is not empty exactly when the
    snippet has that title. *)
Lemma title_spec (snippet : Element.t) (t : string) :
  snd (Brave.first_text snippet Brave.title_selectors) = Ok t /\ t <> EmptyString
  <-> has_title snippet t.
Proof.
  unfold has_title. rewrite first_text_spec. split.
  - intros [[H | [_ ->]] Hne]; [exact H | contradiction].
  - intros H. split; [now left | now apply first_shown_not_empty in H].
Qed.

Lemma href_loop_cons (link : Element.t) (rest : list Element.t) :
  snd (href_loop (link :: rest))
  = match Element.get_attribute link "href" with
    | Raise e => Raise e
    | Ok a => if Py.contains "brave.com" (Py.or_empty a) then snd (href_loop rest)
              else Ok (Py.or_empty a)
    end.
Proof.
  unfold href_loop. cbn [for_loop]. rewrite !snd_bind. cbn [call snd].
  destruct (Element.get_attribute link "href") as [a | e]; [| reflexivity].
  cbv zeta. destruct (Py.contains "brave.com" (Py.or_empty a)); reflexivity.
Qed.

Lemma href_loop_spec (links : list Element.t) (h : string) :
  snd (href_loop links) = Ok h /\ h <> EmptyString
  <-> exists before link after,
        links = before ++ link :: after
        /\ Forall is_internal before
        /\ Element.get_attribute link "href" = Ok (Some h)
        /\ Py.contains "brave.com" h = false
        /\ h <> EmptyString.
Proof.
  induction links as [| link rest IH].
  - split.
    + intros [[= <-] Hne]. contradiction.
    + intros (before & l & after & H & _). now destruct before.
  - rewrite href_loop_cons.
    destruct (Element.get_attribute link "href") as [a | e] eqn:Ha.
    + destruct (Py.contains "brave.com" (Py.or_empty a)) eqn:Hc.
      * assert (Hint : is_internal link).
        { destruct a as [h0 |]; [exists h0; auto | discriminate Hc]. }
        rewrite IH. split.
        -- intros (before & l & after & -> & Hb & Hl & Hn & Hne).
           exists (link :: before), l, after. repeat split; auto.
        -- intros (before & l & after & Hlinks & Hb & Hl & Hn & Hne).
           destruct before as [| b before]; cbn [app] in Hlinks; injection Hlinks as <- ->.
           ++ rewrite Ha in Hl. injection Hl as ->. cbn [Py.or_empty] in Hc. congruence.
           ++ apply Forall_cons in Hb as [_ Hb]. exists before, l, after. auto.
      * split.
        -- intros [[= <-] Hne]. destruct a as [h0 |]; [| contradiction].
           exists [], link, rest. repeat split; auto.
        -- intros (before & l & after & Hlinks & Hb & Hl & Hn & Hne).
           destruct before as [| b before]; cbn [app] in Hlinks; injection Hlinks as <- ->.
           ++ rewrite Ha in Hl. injection Hl as ->. auto.
           ++ apply Forall_cons in Hb as [(h0 & Hh0 & Hc0) _].
              rewrite Ha in Hh0. injection Hh0 as ->. cbn [Py.or_empty] in Hc. congruence.
    + split; [intros [[=] _] |].
      intros (before & l & after & Hlinks & Hb & Hl & _).
      destruct before as [| b before]; cbn [app] in Hlinks; injection Hlinks as <- ->.
      * congruence.
      * apply Forall_cons in Hb as [(h0 & Hh0 & _) _]. congruence.
Qed.

(** The link loop returns an address that is not empty exactly when the
    snippet has that external URL. *)
Lemma url_spec (snippet : Element.t) (h : string) :
  snd (Brave.first_external_href snippet) = Ok h /\ h <> EmptyString
  <-> has_external_url snippet h.
Proof.
  unfold Brave.first_external_href, has_external_url. rewrite snd_bind. cbn [call snd].
  destruct (Element.query_selector_all snippet "a[href^='http']") as [links | e].
  - fold (href_loop links). rewrite href_loop_spec. split.
    + intros (before & l & after & -> & H). exists before, l, after. auto.
    + intros (before & l & after & [= ->] & H). exists before, l, after. auto.
  - split; [intros [[=] _] | intros (before & l & after & [=] & _)].
Qed.

Lemma description_spec (snippet : Element.t) :
  (exists d, snd (Brave.first_text snippet Brave.description_selectors) = Ok d)
  <-> description_is_readable snippet.
Proof.
  unfold description_is_readable. split.
  - intros [d [H | [H _]]%first_text_spec]; eauto.
  - intros [[d H] | H].
    + exists d. apply first_text_spec. now left.
    + exists EmptyString. apply first_text_spec. now right.
Qed.

Lemma site_name_spec (snippet : Element.t) :
  (exists n, snd (Brave.site_name snippet) = Ok n) <-> site_name_is_readable snippet.
Proof.
  unfold Brave.site_name, site_name_is_readable. rewrite snd_bind. cbn [call snd].
  destruct (Element.query_selector snippet "[class*='site-name']") as [[e |] | err].
  - rewrite snd_bind. cbn [call snd].
    destruct (Element.text_content e) as [raw | err] eqn:Ht.
    + split; [intros _; right; exists e, raw; auto |]. intros _. cbv zeta.
      destruct (Py.split "010" (Py.strip (Py.or_empty raw))); eexists; reflexivity.
    + split; [intros [n [=]] |]. intros [[=] | (e' & raw & [= <-] & H)]. congruence.
  - split; [now left | intros _; eexists; reflexivity].
  - split; [intros [n [=]] | intros [[=] | (e' & raw & [=] & _)]].
Qed.

Lemma kept_or_discarded (snippet : Element.t) :
  is_kept snippet \/ is_discarded snippet.
Proof.
  unfold is_kept, is_discarded. rewrite parse_snippet_result.
  destruct (snd (Brave.parse_snippet_body snippet)) as [[it |] |]; eauto.
Qed.

(** C4, as stated, fails: a snippet that has a title and no external
    link has one of the two, and is discarded all the same. *)
Lemma title_alone_is_discarded :
  ~ (forall snippet : Element.t,
        (exists t, has_title snippet t) \/ (exists h, has_external_url snippet h) ->
        is_kept snippet).
Proof.
  intros H. destruct (H Sample.snippet_without_link) as [it Hit].
  - left. exists "The Rust Programming Language". apply title_spec.
    split; [reflexivity | discriminate].
  - vm_compute in Hit. discriminate Hit.
Qed.

(** C4, amended: [_parse_snippet] keeps a snippet exactly when it has a
    title and an external URL (an address without [brave.com] in it) and
    its description and site name can be read; the item it returns then
    holds that title and that URL.  In every other case the snippet is
    discarded, so a snippet that lacks the title or lacks the external
    URL is never kept. *)
Theorem snippet_kept_iff_title_and_url (snippet : Element.t) :
  (is_kept snippet
   <-> (exists t, has_title snippet t) /\ (exists h, has_external_url snippet h)
       /\ rest_is_readable snippet)
  /\ (is_discarded snippet <-> ~ is_kept snippet)
  /\ (forall it, snd (Brave._parse_snippet snippet) = Ok (Some it) ->
                 exists t h, has_title snippet t /\ has_external_url snippet h
                             /\ dict_get "title" it = Some (PStr t)
                             /\ dict_get "url" it = Some (PStr h)).
Proof.
  unfold is_kept, is_discarded, rest_is_readable.
  rewrite <- description_spec, <- site_name_spec.
  assert (Ht : forall t, snd (Brave.first_text snippet Brave.title_selectors) = Ok t ->
                         t <> EmptyString -> has_title snippet t)
    by (intros t H1 H2; now apply title_spec).
  assert (Hu : forall h, snd (Brave.first_external_href snippet) = Ok h ->
                         h <> EmptyString -> has_external_url snippet h)
    by (intros h H1 H2; now apply url_spec).
  assert (Ht' : forall t, has_title snippet t ->
                          snd (Brave.first_text snippet Brave.title_selectors) = Ok t
                          /\ t <> EmptyString)
    by (intros t H; now apply title_spec).
  assert (Hu' : forall h, has_external_url snippet h ->
                          snd (Brave.first_external_href snippet) = Ok h
                          /\ h <> EmptyString)
    by (intros h H; now apply url_spec).
  rewrite parse_snippet_result, parse_snippet_body_result.
  destruct (snd (Brave.first_text snippet Brave.title_selectors)) as [title | e1].
  2: { split; [split | split; [split |]].
       - intros [it [=]].
       - intros [(t & [[=] _]%Ht') _].
       - intros _ [it [=]].
       - reflexivity.
       - intros it [=]. }
  destruct (Py.is_empty title) eqn:Et.
  { apply is_empty_true in Et. subst title. split; [split | split; [split |]].
    - intros [it [=]].
    - intros [(t & [[= <-] Hne]%Ht') _]. contradiction.
    - intros _ [it [=]].
    - reflexivity.
    - intros it [=]. }
  apply is_empty_false in Et.
  destruct (snd (Brave.first_external_href snippet)) as [href | e2].
  2: { split; [split | split; [split |]].
       - intros [it [=]].
       - intros (_ & (h & [[=] _]%Hu') & _).
       - intros _ [it [=]].
       - reflexivity.
       - intros it [=]. }
  destruct (Py.is_empty href) eqn:Eh.
  { apply is_empty_true in Eh. subst href. split; [split | split; [split |]].
    - intros [it [=]].
    - intros (_ & (h & [[= <-] Hne]%Hu') & _). contradiction.
    - intros _ [it [=]].
    - reflexivity.
    - intros it [=]. }
  apply is_empty_false in Eh.
  destruct (snd (Brave.first_text snippet Brave.description_selectors)) as [desc | e3].
  2: { split; [split | split; [split |]].
       - intros [it [=]].
       - intros (_ & _ & (d & [=]) & _).
       - intros _ [it [=]].
       - reflexivity.
       - intros it [=]. }
  destruct (snd (Brave.site_name snippet)) as [site | e4].
  2: { split; [split | split; [split |]].
       - intros [it [=]].
       - intros (_ & _ & _ & (n & [=])).
       - intros _ [it [=]].
       - reflexivity.
       - intros it [=]. }
  split; [split | split; [split |]].
  - intros _. repeat split; eauto.
  - intros _. eauto.
  - intros [=].
  - intros H. exfalso. apply H. eauto.
  - intros it [= <-]. exists title, href.
    split; [now apply Ht |]. split; [now apply Hu |].
    destruct (Py.is_empty site); split; reflexivity.
Qed.

Lemma snippet_kept_iff_title_and_url_witness :
  is_kept Sample.snippet_with_link /\ is_discarded Sample.snippet_without_link.
Proof.
  split.
  - apply (proj2 (proj1 (snippet_kept_iff_title_and_url Sample.snippet_with_link))).
    split; [| split; [| split]].
    + exists "The Rust Programming Language".
      exists ["[class*='title']"], "a h2", ["a h3"].
      split; [reflexivity |]. split; [constructor; [now left | constructor] |].
      split; [| discriminate].
      exists (Sample.text "The Rust Programming Language"),
        (Some "The Rust Programming Language"). repeat split.
    + exists "https://www.rust-lang.org/".
      exists [Sample.link "https://search.brave.com/x"],
        (Sample.link "https://www.rust-lang.org/"), [].
      split; [reflexivity |]. split.
      * constructor; [| constructor]. exists "https://search.brave.com/x". split; reflexivity.
      * repeat split. discriminate.
    + left. exists "A language empowering everyone.".
      exists [], ".content", ["[class*='snippet-description']"; "p"].
      split; [reflexivity |]. split; [constructor |]. split; [| discriminate].
      exists (Sample.text " A language empowering everyone. "),
        (Some " A language empowering everyone. "). repeat split.
    + left. reflexivity.
  - apply (proj2 (proj1 (proj2 (snippet_kept_iff_title_and_url
                                  Sample.snippet_without_link)))).
    intros [it Hit]. vm_compute in Hit. discriminate Hit.
Defined.

(** ** Convergence polling *)

Lemma polls_app (a b : list event) : polls (a ++ b) = (polls a + polls b)%nat.
Proof. unfold polls. now rewrite List.filter_app, length_app. Qed.

Lemma quiet_bind {A B} (m : M A) (f : A -> M B) :
  polls (fst m) = 0%nat -> (forall a, polls (fst (f a)) = 0%nat) ->
  polls (fst (bind m f)) = 0%nat.
Proof.
  intros Hm Hf. rewrite fst_bind. destruct (snd m) as [a | e]; [| exact Hm].
  now rewrite polls_app, Hm, Hf.
Qed.

Lemma read_target_polls (p : Page.t) : polls (fst (DeepL._read_target p)) = 0%nat.
Proof.
  unfold DeepL._read_target, DeepL.read_target_area.
  apply quiet_bind.
  - apply quiet_bind; [reflexivity |]. intros [area |]; [| reflexivity].
    apply quiet_bind; [reflexivity |]. intros t.
    destruct (DeepL.has_text t); [reflexivity |].
    apply quiet_bind; [reflexivity |]. intros t'.
    destruct (DeepL.has_text t'); reflexivity.
  - intros [text |]; [reflexivity |].
    apply quiet_bind; [reflexivity |]. intros [el |]; [| reflexivity].
    apply quiet_bind; [reflexivity |]. intros t.
    destruct (DeepL.has_text t); reflexivity.
Qed.

Lemma poll_observed (query : string) (page : DeepL.LivePage) (vars : string * Z)
      (i : nat) (v : string) :
  observed page i = Ok v ->
  snd (DeepL.poll query page vars i) = Ok (DeepL.compare query vars v)
  /\ polls (fst (DeepL.poll query page vars i)) = 1%nat.
Proof.
  unfold observed, DeepL.poll. intros Hv.
  rewrite !snd_bind, !fst_bind. cbn [call fst snd]. rewrite Hv. cbn [ret fst snd].
  split; [reflexivity |].
  rewrite app_nil_r. change (S (polls (fst (DeepL._read_target (page (S i))))) = 1%nat).
  now rewrite read_target_polls.
Qed.

Lemma observes_tail (page : DeepL.LivePage) (first : nat) (v : string)
      (values : list string) :
  observes page first (v :: values) ->
  observed page first = Ok v /\ observes page (S first) values.
Proof.
  intros H. split.
  - rewrite <- (Nat.add_0_r first). now apply H.
  - intros i w Hw. replace (S first + i)%nat with (first + S i)%nat by lia. now apply H.
Qed.

Lemma poll_loop_prefix (query : string) (page : DeepL.LivePage) (values : list string) :
  forall (first : nat) (vars : string * Z) (rest : list nat)
         (final : string * Z) (n : nat) (stopped : bool),
    observes page first values ->
    converge query values vars = (final, n, stopped) ->
    stopped = true \/ rest = [] ->
    snd (for_loop (seq first (length values) ++ rest) vars (DeepL.poll query page))
    = Ok final
    /\ polls (fst (for_loop (seq first (length values) ++ rest) vars
                            (DeepL.poll query page))) = n.
Proof.
  induction values as [| v values IH]; intros first vars rest final n stopped Hobs Hc Hstop.
  - injection Hc as <- <- <-. destruct Hstop as [[=] | ->]. split; reflexivity.
  - apply observes_tail in Hobs as [Hv Hobs].
    destruct (poll_observed query page vars first v Hv) as [Hsnd Hpolls].
    cbn [length seq app for_loop]. rewrite snd_bind, fst_bind, Hsnd.
    cbn [converge] in Hc.
    destruct (DeepL.compare query vars v) as [vars' | vars'].
    + destruct (converge query values vars') as [[final' n'] stopped'] eqn:Hc'.
      injection Hc as <- <- <-.
      destruct (IH (S first) vars' rest final' n' stopped' Hobs Hc' Hstop) as [IH1 IH2].
      split; [exact IH1 |]. rewrite polls_app, Hpolls, IH2. reflexivity.
    + injection Hc as <- <- <-. split; [reflexivity |].
      cbn [ret fst]. rewrite app_nil_r. exact Hpolls.
Qed.

Lemma compare_trivial (query t v : string) (k : Z) :
  trivial query v = true -> DeepL.compare query (t, k) v = Next (t, 0).
Proof. unfold trivial, DeepL.compare. now intros ->. Qed.

Lemma compare_new (query t v : string) (k : Z) :
  trivial query v = false -> String.eqb v t = false ->
  DeepL.compare query (t, k) v = Next (v, 0).
Proof. unfold trivial, DeepL.compare. now intros -> ->. Qed.

Lemma compare_same_next (query v : string) (k : Z) :
  trivial query v = false -> k + 1 < DeepL.required_stable ->
  DeepL.compare query (v, k) v = Next (v, k + 1).
Proof.
  unfold trivial, DeepL.compare. intros -> Hk. rewrite String.eqb_refl.
  destruct (Z.leb_spec DeepL.required_stable (k + 1)); [lia | reflexivity].
Qed.

Lemma compare_same_break (query v : string) (k : Z) :
  trivial query v = false -> DeepL.required_stable <= k + 1 ->
  DeepL.compare query (v, k) v = Break (v, k + 1).
Proof.
  unfold trivial, DeepL.compare. intros -> Hk. rewrite String.eqb_refl.
  destruct (Z.leb_spec DeepL.required_stable (k + 1)); [reflexivity | lia].
Qed.

Lemma converge_cons (query v : string) (values : list string) (vars : string * Z) :
  converge query (v :: values) vars
  = match DeepL.compare query vars v with
    | Break vars' => (vars', 1%nat, true)
    | Next vars' =>
        let '(final, n, stopped) := converge query values vars' in (final, S n, stopped)
    end.
Proof. reflexivity. Qed.

(** Once the final text is seen, six more reads of it stop the loop. *)
Lemma converge_on_final (query : string) (values : list string) :
  trivial query "final" = false ->
  converge query (repeat "final" 6 ++ values) ("final", 0) = (("final", 6), 6%nat, true).
Proof.
  intros Hf. cbn [repeat app].
  do 5 (rewrite converge_cons, compare_same_next by (try assumption; reflexivity);
        cbn [Z.add Pos.add Pos.succ]).
  rewrite converge_cons, compare_same_break by (try assumption; discriminate).
  reflexivity.
Qed.

(** After six reads of the final text the counter stands at five. *)
Lemma converge_on_six_finals (query : string) :
  trivial query "final" = false ->
  converge query (repeat "final" 5) ("final", 0) = (("final", 5), 5%nat, false).
Proof.
  intros Hf. cbn [repeat].
  do 5 (rewrite converge_cons, compare_same_next by (try assumption; reflexivity);
        cbn [Z.add Pos.add Pos.succ]).
  reflexivity.
Qed.

Lemma converge_six_finals (query : string) :
  Py.strip query <> "final" ->
  converge query (echo_partial_final (Py.strip query) 6) (EmptyString, 0)
  = (("final", 5), 10%nat, false).
Proof.
  intros Hq.
  assert (Hf : trivial query "final" = false).
  { unfold trivial. cbn [Py.is_empty orb]. apply String.eqb_neq. congruence. }
  assert (He : trivial query (Py.strip query) = true).
  { unfold trivial. now rewrite String.eqb_refl, orb_true_r. }
  unfold echo_partial_final.
  change (repeat "final" 6) with ("final" :: repeat "final" 5).
  cbn [app].
  do 2 rewrite converge_cons, (compare_trivial _ _ _ _ He).
  destruct (trivial query "partial") eqn:Hp.
  - do 2 rewrite converge_cons, (compare_trivial _ _ _ _ Hp).
    rewrite converge_cons, (compare_new query EmptyString "final" 0 Hf eq_refl).
    now rewrite (converge_on_six_finals _ Hf).
  - rewrite converge_cons, (compare_new query EmptyString "partial" 0 Hp eq_refl).
    rewrite converge_cons, (compare_same_next query "partial" 0 Hp eq_refl).
    rewrite converge_cons, (compare_new query "partial" "final" (0 + 1) Hf eq_refl).
    now rewrite (converge_on_six_finals _ Hf).
Qed.

Lemma converge_example (query : string) :
  Py.strip query <> "final" ->
  converge query (echo_partial_final (Py.strip query) 7) (EmptyString, 0)
  = (("final", 6), 11%nat, true).
Proof.
  intros Hq.
  assert (Hf : trivial query "final" = false).
  { unfold trivial. cbn [Py.is_empty orb]. apply String.eqb_neq. congruence. }
  assert (He : trivial query (Py.strip query) = true).
  { unfold trivial. now rewrite String.eqb_refl, orb_true_r. }
  unfold echo_partial_final.
  change (repeat "final" 7) with ("final" :: repeat "final" 6 ++ []).
  cbn [app].
  do 2 rewrite converge_cons, (compare_trivial _ _ _ _ He).
  destruct (trivial query "partial") eqn:Hp.
  - do 2 rewrite converge_cons, (compare_trivial _ _ _ _ Hp).
    rewrite converge_cons, (compare_new query EmptyString "final" 0 Hf eq_refl).
    now rewrite (converge_on_final _ _ Hf).
  - rewrite converge_cons, (compare_new query EmptyString "partial" 0 Hp eq_refl).
    rewrite converge_cons, (compare_same_next query "partial" 0 Hp eq_refl).
    rewrite converge_cons, (compare_new query "partial" "final" (0 + 1) Hf eq_refl).
    now rewrite (converge_on_final _ _ Hf).
Qed.

(** C1, amended: on the observations q, q, partial, partial followed by
    the final text, with threshold 6, the loop ignores the two echoes of
    the input and stops with the final text at the seventh consecutive
    read of it, the eleventh poll: the first read records the value and
    six unchanged reads follow.  On the ten values that end with six
    reads of the final text the counter stands at five and the loop has
    not stopped. *)
Theorem final_after_seven_observations (query : string) (page : DeepL.LivePage) :
  Py.strip query <> "final" ->
  observes page 0 (echo_partial_final (Py.strip query) 7) ->
  snd (DeepL.poll_loop query page) = Ok ("final", 6)
  /\ polls (fst (DeepL.poll_loop query page)) = 11%nat
  /\ snd (DeepL.wait_for_translation query page) = Ok "final"
  /\ converge query (echo_partial_final (Py.strip query) 6) (EmptyString, 0)
     = (("final", 5), 10%nat, false).
Proof.
  intros Hq Hobs.
  pose proof (poll_loop_prefix query page _ 0%nat (EmptyString, 0) (seq 11 69)
                _ _ _ Hobs (converge_example query Hq) (or_introl eq_refl)) as [H1 H2].
  change (seq 0 (length (echo_partial_final (Py.strip query) 7)) ++ seq 11 69)
    with (seq 0 80) in H1, H2.
  fold (DeepL.poll_loop query page) in H1, H2.
  split; [exact H1 | split; [exact H2 | split; [| exact (converge_six_finals query Hq)]]].
  unfold DeepL.wait_for_translation. rewrite snd_bind, H1. reflexivity.
Qed.


Lemma translator_reads (target : string) :
  snd (DeepL._read_target (Sample.translator target)) = Ok (Py.strip target).
Proof.
  assert (E : DeepL.has_text (Some target) = false -> Py.strip target = EmptyString).
  { unfold DeepL.has_text. cbn [Py.or_empty]. intros H%negb_false_iff.
    now apply is_empty_true. }
  cbv -[Py.strip DeepL.has_text Py.or_empty].
  destruct (DeepL.has_text (Some target)); cbn [snd Py.or_empty].
  - reflexivity.
  - now rewrite E.
Qed.

Lemma streaming_observes (shown : list string) (rest : string) :
  observes (Sample.streaming shown rest) 0 (map Py.strip shown).
Proof.
  intros i v Hv. unfold observed. cbn [Nat.add Sample.streaming].
  rewrite translator_reads. f_equal.
  rewrite list_lookup_fmap in Hv.
  destruct (shown !! i) as [w |] eqn:Hw; [| discriminate].
  injection Hv as <-. f_equal. now apply nth_lookup_Some with (d := rest) in Hw.
Qed.

(** C1, as stated, fails: after the six reads of the final text the
    counter stands at five, and the loop polls again. *)
Lemma six_observations_do_not_stop :
  ~ (forall (query : string) (page : DeepL.LivePage),
        observes page 0 (echo_partial_final (Py.strip query) 6) ->
        polls (fst (DeepL.poll_loop query page)) = 10%nat
        /\ snd (DeepL.wait_for_translation query page) = Ok "final").
Proof.
  intros H.
  destruct (H "hello" (Sample.streaming (echo_partial_final "hello" 6) "final")
              (streaming_observes (echo_partial_final "hello" 6) "final")) as [Hpolls _].
  vm_compute in Hpolls. discriminate Hpolls.
Qed.

Lemma final_after_seven_observations_witness :
  snd (DeepL.poll_loop "hello" (Sample.streaming (echo_partial_final "hello" 7) "final"))
  = Ok ("final", 6)
  /\ polls (fst (DeepL.poll_loop "hello"
                   (Sample.streaming (echo_partial_final "hello" 7) "final"))) = 11%nat
  /\ snd (DeepL.wait_for_translation "hello"
            (Sample.streaming (echo_partial_final "hello" 7) "final")) = Ok "final"
  /\ converge "hello" (echo_partial_final "hello" 6) (EmptyString, 0)
     = (("final", 5), 10%nat, false).
Proof.
  apply (final_after_seven_observations "hello").
  - vm_compute. discriminate.
  - exact (streaming_observes (echo_partial_final "hello" 7) "final").
Defined.

Lemma last_nontrivial_cons (query v : string) (values : list string) (start : string) :
  last_nontrivial query (v :: values) start
  = last_nontrivial query values (if trivial query v then start else v).
Proof. reflexivity. Qed.

(** A loop that never stops keeps the last value that was not trivial. *)
Lemma converge_unstopped (query : string) (values : list string) :
  forall (vars final : string * Z) (n : nat),
    converge query values vars = (final, n, false) ->
    fst final = last_nontrivial query values (fst vars) /\ n = length values.
Proof.
  induction values as [| v values IH]; intros [t k] final n Hc.
  - injection Hc as <- <-. split; reflexivity.
  - rewrite converge_cons in Hc. rewrite last_nontrivial_cons. cbn [fst length].
    destruct (trivial query v) eqn:Hv.
    + rewrite (compare_trivial _ _ _ _ Hv) in Hc.
      destruct (converge query values (t, 0)) as [[final' n'] stopped'] eqn:Hc'.
      injection Hc as <- <- ->. destruct (IH _ _ _ Hc') as [H1 H2].
      split; [exact H1 | now rewrite H2].
    + destruct (String.eqb v t) eqn:Hvt.
      * apply String.eqb_eq in Hvt. subst t.
        destruct (Z.lt_ge_cases (k + 1) DeepL.required_stable) as [Hk | Hk].
        -- rewrite (compare_same_next _ _ _ Hv Hk) in Hc.
           destruct (converge query values (v, k + 1)) as [[final' n'] stopped'] eqn:Hc'.
           injection Hc as <- <- ->. destruct (IH _ _ _ Hc') as [H1 H2].
           split; [exact H1 | now rewrite H2].
        -- rewrite (compare_same_break _ _ _ Hv Hk) in Hc. discriminate Hc.
      * rewrite (compare_new _ _ _ _ Hv Hvt) in Hc.
        destruct (converge query values (v, 0)) as [[final' n'] stopped'] eqn:Hc'.
        injection Hc as <- <- ->. destruct (IH _ _ _ Hc') as [H1 H2].
        split; [exact H1 | now rewrite H2].
Qed.

Lemma last_nontrivial_all_trivial (query : string) (values : list string) (start : string) :
  forallb (trivial query) values = true -> last_nontrivial query values start = start.
Proof.
  revert start. induction values as [| v values IH]; intros start H; [reflexivity |].
  cbn [forallb] in H. apply andb_prop in H as [Hv H].
  rewrite last_nontrivial_cons, Hv. now apply IH.
Qed.

Lemma nontrivial_not_empty (query v : string) : trivial query v = false -> v <> EmptyString.
Proof.
  unfold trivial. intros H%orb_false_iff. now apply is_empty_false.
Qed.

Lemma last_nontrivial_keeps_text (query : string) (values : list string) (start : string) :
  start <> EmptyString -> last_nontrivial query values start <> EmptyString.
Proof.
  revert start. induction values as [| v values IH]; intros start H; [exact H |].
  rewrite last_nontrivial_cons. apply IH.
  destruct (trivial query v) eqn:Hv; [exact H | now apply nontrivial_not_empty with query].
Qed.

Lemma last_nontrivial_some (query : string) (values : list string) (start : string) :
  forallb (trivial query) values = false ->
  last_nontrivial query values start <> EmptyString.
Proof.
  revert start. induction values as [| v values IH]; intros start H; [discriminate |].
  cbn [forallb] in H. rewrite last_nontrivial_cons.
  destruct (trivial query v) eqn:Hv.
  - apply IH. exact H.
  - apply last_nontrivial_keeps_text. now apply nontrivial_not_empty with query.
Qed.

Lemma wait_for_translation_result (query : string) (page : DeepL.LivePage) :
  snd (DeepL.wait_for_translation query page)
  = match snd (DeepL.poll_loop query page) with
    | Ok vars => if Py.is_empty (fst vars) then Raise DeepL.no_translation
                 else Ok (fst vars)
    | Raise e => Raise e
    end.
Proof.
  unfold DeepL.wait_for_translation. rewrite snd_bind.
  destruct (snd (DeepL.poll_loop query page)) as [vars |]; [| reflexivity].
  destruct (Py.is_empty (fst vars)); reflexivity.
Qed.

Lemma flicker_observes : observes Sample.flicker 0 Sample.flicker_values.
Proof.
  intros i v Hv. unfold observed, Sample.flicker.
  rewrite translator_reads.
  unfold Sample.flicker_values in Hv. rewrite list_lookup_fmap in Hv.
  destruct (seq 0 80 !! i) as [j |] eqn:Hj; [| discriminate].
  apply lookup_seq in Hj as [-> _]. injection Hv as <-.
  assert (Hs : forall b : bool, Py.strip (if b then "Hallo" else "Hallo Welt")
                                = if b then "Hallo" else "Hallo Welt")
    by (intros []; reflexivity).
  rewrite Hs. reflexivity.
Qed.

(** C2, as stated, fails: a translation that changes at every poll
    never stays unchanged, and the loop still returns the last text read
    instead of a timeout error. *)
Lemma unstable_translation_is_returned :
  ~ (forall (query : string) (page : DeepL.LivePage) (values : list string)
            (final : string * Z) (n : nat),
        length values = 80%nat ->
        observes page 0 values ->
        converge query values (EmptyString, 0) = (final, n, false) ->
        snd (DeepL.wait_for_translation query page) = Raise DeepL.no_translation).
Proof.
  intros H.
  specialize (H "hello" Sample.flicker Sample.flicker_values ("Hallo", 0) 80%nat
                eq_refl flicker_observes eq_refl).
  vm_compute in H. discriminate H.
Qed.

(** C2, amended: when no value stays unchanged for the required count
    within the eighty polls, the recipe raises its timeout error exactly
    when every value read was empty or the input itself; otherwise it
    returns the last value read that was neither, which is not empty. *)
Theorem unstable_translation_outcome
        (query : string) (page : DeepL.LivePage) (values : list string)
        (final : string * Z) (n : nat) :
  length values = 80%nat ->
  observes page 0 values ->
  converge query values (EmptyString, 0) = (final, n, false) ->
  (forallb (trivial query) values = true ->
   snd (DeepL.wait_for_translation query page) = Raise DeepL.no_translation)
  /\ (forallb (trivial query) values = false ->
      snd (DeepL.wait_for_translation query page)
      = Ok (last_nontrivial query values EmptyString)
      /\ last_nontrivial query values EmptyString <> EmptyString).
Proof.
  intros Hlen Hobs Hc.
  destruct (poll_loop_prefix query page values 0%nat (EmptyString, 0) []
              final n false Hobs Hc (or_intror eq_refl)) as [Hloop _].
  rewrite app_nil_r, Hlen in Hloop. fold (DeepL.poll_loop query page) in Hloop.
  destruct (converge_unstopped query values _ _ _ Hc) as [Hfinal _].
  cbn [fst] in Hfinal.
  rewrite wait_for_translation_result, Hloop, Hfinal.
  split.
  - intros Hall. now rewrite (last_nontrivial_all_trivial _ _ _ Hall).
  - intros Hsome. pose proof (last_nontrivial_some query values EmptyString Hsome) as Hne.
    split; [| exact Hne].
    apply is_empty_false in Hne. now rewrite Hne.
Qed.

Lemma unstable_translation_outcome_witness :
  snd (DeepL.wait_for_translation "hello" Sample.flicker) = Ok "Hallo"
  /\ last_nontrivial "hello" Sample.flicker_values EmptyString <> EmptyString.
Proof.
  exact (proj2 (unstable_translation_outcome
                  "hello" Sample.flicker Sample.flicker_values ("Hallo", 0) 80%nat
                  eq_refl flicker_observes eq_refl) eq_refl).
Defined.

(** ** Loops that collect items *)

Tactic Notation "bind_inv" hyp(H) "as" ident(a) ident(Ha) :=
  let log1 := fresh "log" in
  let log2 := fresh "log" in
  let Hlog := fresh "Hlog" in
  apply bind_Ok_inv in H as (log1 & a & log2 & Ha & H & Hlog).

Lemma ret_Ok_inv {A} (a b : A) (log : list event) : ret a = (log, Ok b) -> a = b.
Proof. unfold ret. congruence. Qed.

Lemma raise_Ok_inv {A} (e : exn) (b : A) (log : list event) :
  raise e = (log, Ok b) -> False.
Proof. unfold raise. congruence. Qed.

Lemma int_Ok_inv (s : string) (n : Z) (log : list event) :
  int s = (log, Ok n) -> Py.int s = Some n.
Proof. unfold int. destruct (Py.int s); [intros ?%ret_Ok_inv; congruence | discriminate]. Qed.

(** A loop whose turns add at most one element to what they collect
    adds at most as many as there are turns; more generally for any
    property of the variables that every turn preserves. *)
Lemma for_loop_invariant {A S} (P : nat -> S -> Prop) (body : S -> A -> M (flow S)) :
  (forall k s x log f, P k s -> body s x = (log, Ok f) -> P (Datatypes.S k) (flow_state f)) ->
  (forall k s, P k s -> P (Datatypes.S k) s) ->
  forall (l : list A) (k : nat) (s s' : S) (log : list event),
    P k s -> for_loop l s body = (log, Ok s') -> P (k + length l)%nat s'.
Proof.
  intros Hbody Hmono l. induction l as [| x l IH]; intros k s s' log Hs H.
  - apply ret_Ok_inv in H. subst. now rewrite Nat.add_0_r.
  - cbn [for_loop] in H. bind_inv H as a Ha.
    pose proof (Hbody _ _ _ _ _ Hs Ha) as Hf.
    cbn [length]. rewrite Nat.add_succ_r.
    destruct a as [s1 | s1]; cbn [flow_state] in Hf.
    + apply (IH (Datatypes.S k) s1 s' _ Hf H).
    + apply ret_Ok_inv in H. subst s'.
      clear - Hf Hmono. induction (length l) as [| n IHn].
      * now rewrite Nat.add_0_r.
      * rewrite Nat.add_succ_r. now apply Hmono.
Qed.

Lemma slice_to_length {A} (l : list A) (n : Z) :
  0 <= n -> Z.of_nat (length (Py.slice_to l n)) <= n.
Proof.
  intros Hn. unfold Py.slice_to. destruct (Z.ltb_spec n 0); [lia |].
  rewrite length_firstn. lia.
Qed.

Lemma brave_parse_all_length (snippets : list Element.t) (log : list event)
      (found : list item) :
  Brave.parse_all snippets = (log, Ok found) ->
  (length found <= length snippets)%nat.
Proof.
  intros H. unfold Brave.parse_all in H.
  apply (for_loop_invariant (fun k (its : list item) => (length its <= k)%nat))
    with (k := 0%nat) in H; [exact H | | | cbn; lia].
  - intros k s x log' f Hs Hb. bind_inv Hb as a Ha.
    destruct a as [[| kv it] |]; apply ret_Ok_inv in Hb; subst f; cbn [flow_state];
      rewrite ?length_app; cbn [length]; lia.
  - intros; lia.
Qed.

Lemma brave_result_bounds (endpoint : string) (page : Page.t)
      (params : gmap string string) (log : list event) (r : ScrapeResult) :
  Brave.scrape endpoint page params = (log, Ok r) ->
  1 <= page_number r
  /\ exists c, Py.int (default "20" (params !! "count")) = Some c
               /\ (0 <= c -> Z.of_nat (length (items r)) <= c).
Proof.
  intros H. unfold Brave.scrape in H.
  destruct (Py.is_empty _); [now apply raise_Ok_inv in H |].
  bind_inv H as c Hc. apply int_Ok_inv in Hc.
  bind_inv H as p Hp. cbv zeta in H.
  bind_inv H as u1 Hinit. bind_inv H as u2 Hgoto. bind_inv H as u3 Hsleep.
  bind_inv H as title Htitle.
  destruct (Py.contains _ _); [now apply raise_Ok_inv in H |].
  bind_inv H as waited Hwait. destruct waited as [waited | e].
  - bind_inv H as snippets Hsnippets. bind_inv H as found Hfound.
    apply ret_Ok_inv in H. subst r.
    cbn [items page_number current_page]. split; [lia |].
    exists c. split; [exact Hc |]. intros Hpos.
    apply brave_parse_all_length in Hfound.
    pose proof (slice_to_length snippets (Z.min c 50) ltac:(lia)). lia.
  - apply ret_Ok_inv in H. subst r. cbn [items page_number current_page length].
    split; [lia |]. exists c. split; [exact Hc | lia].
Qed.

Lemma ret_Ok_inv_log {A} (a b : A) (log : list event) :
  ret a = (log, Ok b) -> log = [] /\ a = b.
Proof. unfold ret. intros [= <- <-]. auto. Qed.

Lemma extract_article_shape (page : Page.t) (log : list event) (r : ScrapeResult) :
  Wikipedia._extract_article page = (log, Ok r) ->
  exists it, Wikipedia.extract_article_item page = (log, Ok it)
             /\ r = {| items := [Wikipedia.serialize it]; current_page := Some 1;
                       has_next := Some false |}.
Proof.
  intros H. unfold Wikipedia._extract_article in H. bind_inv H as it Hit.
  apply ret_Ok_inv_log in H as [-> <-]. exists it. split; [| reflexivity].
  rewrite Hit. f_equal. subst log. now rewrite app_nil_r.
Qed.

Lemma article_from_redirect_shape (page : Page.t) (query : string)
      (log : list event) (r : ScrapeResult) :
  Wikipedia._article_from_redirect page query = (log, Ok r) ->
  exists it, Wikipedia.extract_article_item page = (log, Ok it)
             /\ r = {| items := [dict_set "redirected_from" (PStr query)
                                          (Wikipedia.serialize it)];
                       current_page := Some 1; has_next := Some false |}.
Proof.
  intros H. unfold Wikipedia._article_from_redirect in H. bind_inv H as r0 Hr0.
  apply extract_article_shape in Hr0 as (it & Hit & ->). cbn [items] in H.
  apply ret_Ok_inv_log in H as [-> <-]. exists it. split; [| reflexivity].
  rewrite Hit. f_equal. subst log. now rewrite app_nil_r.
Qed.

Lemma wikipedia_results_length (page : Page.t) (count : Z) (log : list event)
      (found : list item) :
  Wikipedia._extract_search_results page count = (log, Ok found) ->
  0 <= count -> Z.of_nat (length found) <= count.
Proof.
  intros H Hc. unfold Wikipedia._extract_search_results in H.
  bind_inv H as results Hresults.
  apply (for_loop_invariant (fun k (its : list item) => (length its <= k)%nat))
    with (k := 0%nat) in H.
  - pose proof (slice_to_length results count Hc). cbn [Nat.add] in H. lia.
  - intros k s x log' f Hs Hb. bind_inv Hb as tried Htried.
    destruct tried as [[it |] | e]; apply ret_Ok_inv in Hb; subst f; cbn [flow_state];
      rewrite ?length_app; cbn [length]; lia.
  - intros; lia.
  - cbn; lia.
Qed.

Lemma wikipedia_result_bounds (endpoint : string) (page : Page.t)
      (params : gmap string string) (log : list event) (r : ScrapeResult) :
  Wikipedia.scrape endpoint page params = (log, Ok r) ->
  1 <= page_number r
  /\ (length (items r) = 1%nat
      \/ exists c, Py.int (default "20" (params !! "count")) = Some c
                   /\ (0 <= c -> Z.of_nat (length (items r)) <= c)).
Proof.
  intros H. unfold Wikipedia.scrape in H.
  destruct (String.eqb endpoint "search").
  - unfold Wikipedia._search in H.
    destruct (Py.is_empty _); [now apply raise_Ok_inv in H |].
    bind_inv H as c Hc. apply int_Ok_inv in Hc.
    bind_inv H as p Hp. cbv zeta in H. bind_inv H as u1 Hgoto.
    destruct (_ && _).
    + apply article_from_redirect_shape in H as (it & _ & ->).
      cbn [items page_number current_page length]. split; [lia | now left].
    + bind_inv H as waited Hwait. bind_inv H as none_found Hnone.
      destruct none_found as [el |].
      * apply ret_Ok_inv in H. subst r. cbn [items page_number current_page length].
        split; [lia |]. right. exists c. split; [exact Hc | lia].
      * bind_inv H as found Hfound. bind_inv H as next Hnext.
        apply ret_Ok_inv in H. subst r. cbn [items page_number current_page].
        split; [lia |]. right. exists c. split; [exact Hc |]. intros Hpos.
        apply wikipedia_results_length in Hfound; lia.
  - unfold Wikipedia._article in H.
    destruct (Py.is_empty _); [now apply raise_Ok_inv in H |].
    cbv zeta in H. bind_inv H as u1 Hgoto. bind_inv H as no_article Hno.
    destruct no_article as [el |]; [now apply raise_Ok_inv in H |].
    apply extract_article_shape in H as (it & _ & ->).
    cbn [items page_number current_page length]. split; [lia | now left].
Qed.

Lemma x_result_bounds (env : X.Env) (endpoint : string) (page : Page.t)
      (params : gmap string string) (log : list event) (r : ScrapeResult) :
  X.scrape env endpoint page params = (log, Ok r) ->
  1 <= page_number r
  /\ exists c, Py.int (default "10" (params !! "count")) = Some c
               /\ (0 <= c -> Z.of_nat (length (items r)) <= c).
Proof.
  intros H. unfold X.scrape in H.
  destruct (Py.is_empty _); [now apply raise_Ok_inv in H |].
  bind_inv H as c Hc. apply int_Ok_inv in Hc.
  cbv zeta in H. bind_inv H as auth Hauth. destruct auth as [auth_token ct0].
  bind_inv H as proc Hproc. destruct proc as [[returncode stdout] stderr].
  destruct (negb _).
  { destruct (_ || _); now apply raise_Ok_inv in H. }
  destruct (_ =? -1); [now apply raise_Ok_inv in H |].
  bind_inv H as tweets_data Hdata.
  destruct tweets_data as [| | | | tweets |]; try now apply raise_Ok_inv in H.
  bind_inv H as found Hfound. apply ret_Ok_inv in H. subst r.
  cbn [items page_number current_page]. split; [lia |].
  exists c. split; [exact Hc |]. intros Hpos.
  apply (for_loop_invariant (fun k (its : list item) => (length its <= k)%nat))
    with (k := 0%nat) in Hfound.
  - pose proof (slice_to_length tweets (Z.min c 50) ltac:(lia)).
    cbn [Nat.add] in Hfound. lia.
  - intros k s x log' f Hs Hb. bind_inv Hb as it Hit.
    apply ret_Ok_inv in Hb; subst f; cbn [flow_state]. rewrite length_app. cbn [length]. lia.
  - intros; lia.
  - cbn; lia.
Qed.

Lemma deepl_one_item (endpoint : string) (page : DeepL.LivePage)
      (params : gmap string string) (log : list event) (r : ScrapeResult) :
  DeepL.scrape endpoint page params = (log, Ok r) ->
  length (items r) = 1%nat /\ current_page r = None.
Proof.
  intros H. unfold DeepL.scrape in H.
  destruct (DeepL._LANG_PAIRS !! endpoint) as [[source_lang target_lang] |];
    [| now apply raise_Ok_inv in H].
  cbv zeta in H. destruct (Py.is_empty _).
  - apply ret_Ok_inv in H. subst r. split; reflexivity.
  - bind_inv H as u1 Hgoto. bind_inv H as source_area Harea.
    destruct source_area as [area |]; [| now apply raise_Ok_inv in H].
    bind_inv H as u2 Hclick. bind_inv H as u3 Hpress. bind_inv H as u4 Hback.
    bind_inv H as u5 Htype. bind_inv H as translated Htranslated.
    apply ret_Ok_inv in H. subst r. split; reflexivity.
Qed.

(** C5, as stated, fails: the translation recipe returns its one record
    whatever [count] says, also for a requested count of 0. *)
Lemma one_translation_for_count_zero :
  ~ (forall (inv : invocation) (log : list event) (r : ScrapeResult) (s : string) (c : Z),
        run inv = (log, Ok r) ->
        params_of inv !! "count" = Some s -> Py.int s = Some c ->
        is_Some (params_of inv !! "page") ->
        Z.of_nat (length (items r)) <= c /\ 1 <= page_number r).
Proof.
  intros H.
  pose (inv := OnDeepL "en-de" (Sample.streaming [] EmptyString)
                       (<["query" := EmptyString]>
                          (<["count" := "0"]> (<["page" := "1"]> ∅)))).
  assert (Hrun : run inv
                 = ([], Ok {| items := [DeepL.record EmptyString EmptyString "en" "de"];
                              current_page := None; has_next := None |}))
    by (vm_compute; reflexivity).
  assert (Hcount : params_of inv !! "count" = Some "0") by (vm_compute; reflexivity).
  assert (Hpage : is_Some (params_of inv !! "page")) by (exists "1"; vm_compute; reflexivity).
  destruct (H inv _ _ "0" 0 Hrun Hcount eq_refl Hpage) as [Hlen _].
  cbn in Hlen. lia.
Qed.

(** C5, amended: every successful [scrape] of every recipe has a current
    page of at least 1 (the page of the result model when the recipe
    passes none), and at most as many items as the requested count when
    that count is at least 1.  The translation and the article results
    hold one item whatever the count, and a negative count cuts from
    the end of what was found, so a smaller count bounds nothing. *)
Theorem items_within_requested_count
        (inv : invocation) (log : list event) (r : ScrapeResult) :
  run inv = (log, Ok r) ->
  1 <= page_number r
  /\ (forall (s : string) (c : Z),
         params_of inv !! "count" = Some s -> Py.int s = Some c -> 1 <= c ->
         Z.of_nat (length (items r)) <= c).
Proof.
  intros H. destruct inv as [endpoint page params | endpoint page params
                            | endpoint page params | env endpoint page params];
    cbn [run params_of] in *.
  - apply brave_result_bounds in H as (Hpage & c' & Hc' & Hlen).
    split; [exact Hpage |]. intros s c Hs Hc Hpos.
    rewrite Hs in Hc'. change (Py.int s = Some c') in Hc'. rewrite Hc in Hc'.
    injection Hc' as <-.
    apply Hlen. lia.
  - apply deepl_one_item in H as [Hlen Hpage].
    split; [unfold page_number; rewrite Hpage; lia |].
    intros s c _ _ Hpos. rewrite Hlen. lia.
  - apply wikipedia_result_bounds in H as (Hpage & [Hlen | (c' & Hc' & Hlen)]);
      (split; [exact Hpage |]); intros s c Hs Hc Hpos.
    + rewrite Hlen. lia.
    + rewrite Hs in Hc'. change (Py.int s = Some c') in Hc'. rewrite Hc in Hc'.
    injection Hc' as <-.
      apply Hlen. lia.
  - apply x_result_bounds in H as (Hpage & c' & Hc' & Hlen).
    split; [exact Hpage |]. intros s c Hs Hc Hpos.
    rewrite Hs in Hc'. change (Py.int s = Some c') in Hc'. rewrite Hc in Hc'.
    injection Hc' as <-.
    apply Hlen. lia.
Qed.

Lemma items_within_requested_count_witness :
  exists (log : list event) (r : ScrapeResult),
    run (OnBrave "search" Sample.results_page
                 (<["query" := "rust"]> (<["count" := "2"]> ∅))) = (log, Ok r)
    /\ 1 <= page_number r
    /\ Z.of_nat (length (items r)) <= 2.
Proof.
  destruct (run (OnBrave "search" Sample.results_page
                         (<["query" := "rust"]> (<["count" := "2"]> ∅))))
    as [log [r | e]] eqn:Hrun; [| vm_compute in Hrun; discriminate Hrun].
  exists log, r. split; [reflexivity |].
  destruct (items_within_requested_count _ log r Hrun) as [Hpage Hlen].
  split; [exact Hpage |]. apply (Hlen "2" 2); [reflexivity | reflexivity | lia].
Defined.

Example negative_count_cuts_from_the_end :
  exists log r,
    Brave.scrape "search" Sample.results_page
                 (<["query" := "rust"]> (<["count" := "-1"]> ∅)) = (log, Ok r)
    /\ length (items r) = 1%nat.
Proof. eexists. eexists. split; [vm_compute; reflexivity | reflexivity]. Qed.

(** ** Dictionaries *)

Section Dict.
Context {V : Type}.
Implicit Types (d : list (string * V)) (k : string) (v : V).

Lemma dict_set_app_fresh d1 d2 k v v' :
  ~ In k (map fst d1) ->
  dict_set k v' (d1 ++ (k, v) :: d2) = d1 ++ (k, v') :: d2.
Proof.
  induction d1 as [| [k1 v1] d1 IH]; intros Hk; cbn [app dict_set].
  - now rewrite String.eqb_refl.
  - cbn [map fst In] in Hk.
    destruct (String.eqb_spec k1 k) as [-> | Hne]; [tauto |].
    rewrite IH; [reflexivity | tauto].
Qed.

Lemma dict_set_keys d k v :
  map fst (dict_set k v d) = map fst d \/ map fst (dict_set k v d) = map fst d ++ [k]
                                          /\ ~ In k (map fst d).
Proof.
  induction d as [| [k1 v1] d IH]; cbn [dict_set map fst].
  - right. split; [reflexivity | intros []].
  - destruct (String.eqb_spec k1 k) as [-> | Hne]; [now left |].
    cbn [map fst]. destruct IH as [-> | [-> Hk]]; [now left |].
    right. split; [reflexivity |]. cbn [In]. tauto.
Qed.

Lemma dict_set_NoDup d k v :
  List.NoDup (map fst d) -> List.NoDup (map fst (dict_set k v d)).
Proof.
  intros Hd. destruct (dict_set_keys d k v) as [-> | [-> Hk]]; [exact Hd |].
  apply List.NoDup_app. repeat split.
  - exact Hd.
  - constructor; [intros [] | constructor].
  - intros x Hx [<- | []]. contradiction.
Qed.

Lemma dict_set_Forall (P : string * V -> Prop) d k v :
  Forall P d -> P (k, v) -> Forall P (dict_set k v d).
Proof.
  intros Hd Hv. induction Hd as [| [k1 v1] d H1 Hd IH]; cbn [dict_set].
  - now constructor.
  - destruct (String.eqb k1 k); constructor; auto.
Qed.

End Dict.

(** ** Scalar flattening *)

Lemma flatten_item_keys (it : item) : map fst (flatten_item it) = map fst it.
Proof. unfold flatten_item. rewrite map_map. reflexivity. Qed.

(** The loop that closes [_extract_article] is scalar flattening of
    every field, the keys of a dict being distinct. *)
Lemma serialize_is_flatten (it : item) :
  List.NoDup (map fst it) -> Wikipedia.serialize it = flatten_item it.
Proof.
  intros Hnd. unfold Wikipedia.serialize.
  match goal with |- fold_left ?F _ _ = _ => set (step := F) end.
  enough (Hgen : forall rest pre,
             List.NoDup (map fst (pre ++ rest)) ->
             fold_left step rest (flatten_item pre ++ rest) = flatten_item (pre ++ rest)).
  { exact (Hgen it [] Hnd). }
  induction rest as [| [k v] rest IH]; intros pre Hpre.
  - cbn [fold_left]. now rewrite !app_nil_r.
  - cbn [fold_left].
    assert (Hfresh : ~ In k (map fst (flatten_item pre))).
    { rewrite flatten_item_keys. rewrite map_app in Hpre.
      apply List.NoDup_remove_2 in Hpre. intros Hin. apply Hpre.
      apply in_or_app. now left. }
    assert (Hstep : step (flatten_item pre ++ (k, v) :: rest) (k, v)
                    = flatten_item (pre ++ [(k, v)]) ++ rest).
    { unfold flatten_item at 2. rewrite map_app. cbn [map fst snd].
      rewrite <- app_assoc. cbn [app]. fold (flatten_item pre). unfold step.
      destruct v; cbn [Wikipedia.is_container flatten_value];
        rewrite ?dict_set_app_fresh by exact Hfresh; reflexivity. }
    rewrite Hstep. replace (pre ++ (k, v) :: rest) with ((pre ++ [(k, v)]) ++ rest)
      by (now rewrite <- app_assoc).
    apply IH. now rewrite <- app_assoc.
Qed.

Lemma flatten_value_scalar (v : pyval) :
  encodable v = true -> is_scalar (flatten_value v) = true.
Proof. destruct v; cbn; congruence. Qed.

Lemma flatten_value_of_scalar (v : pyval) :
  Wikipedia.is_container v = false -> flatten_value v = v.
Proof. destruct v; cbn; congruence. Qed.

Lemma flatten_item_scalar (it : item) :
  Forall (fun kv => encodable (snd kv) = true) it -> scalar_item (flatten_item it).
Proof.
  unfold scalar_item, flatten_item. intros H. apply Forall_map.
  eapply Forall_impl; [exact H |]. intros [k v] Hv. now apply flatten_value_scalar.
Qed.

Lemma flattenable_nil : flattenable [].
Proof. split; constructor. Qed.

Lemma flattenable_set (it : item) (k : string) (v : pyval) :
  flattenable it -> encodable v = true -> flattenable (dict_set k v it).
Proof.
  intros [Hk Hv] He. split; [now apply dict_set_NoDup |].
  now apply dict_set_Forall.
Qed.

Ltac flattenable_steps :=
  repeat match goal with
         | |- flattenable (dict_set _ _ _) => apply flattenable_set; [| reflexivity]
         | |- flattenable (match ?x with _ => _ end) => destruct x
         | |- flattenable [] => exact flattenable_nil
         end.

Lemma extract_article_item_flattenable (page : Page.t) (log : list event) (it : item) :
  Wikipedia.extract_article_item page = (log, Ok it) -> flattenable it.
Proof.
  intros H. unfold Wikipedia.extract_article_item in H. cbv zeta in H.
  bind_inv H as title_el Hel. bind_inv H as it1 Hit1.
  assert (H1 : flattenable it1).
  { destruct title_el as [el |].
    - bind_inv Hit1 as title Htitle. apply ret_Ok_inv in Hit1. subst it1.
      flattenable_steps.
    - apply ret_Ok_inv in Hit1. subst it1. exact flattenable_nil. }
  bind_inv H as summary Hsummary. bind_inv H as infobox Hinfobox.
  bind_inv H as toc Htoc. bind_inv H as sections Hsections.
  bind_inv H as categories Hcategories. bind_inv H as langs Hlangs.
  apply ret_Ok_inv in H. subst it.
  flattenable_steps; exact H1.
Qed.

(** The article result holds the flattened item, all of whose fields
    are text or numbers. *)
Lemma extract_article_flattens (page : Page.t) (log : list event) (r : ScrapeResult) :
  Wikipedia._extract_article page = (log, Ok r) ->
  exists it, Wikipedia.extract_article_item page = (log, Ok it)
             /\ items r = [flatten_item it]
             /\ scalar_item (flatten_item it).
Proof.
  intros H. apply extract_article_shape in H as (it & Hit & ->).
  pose proof (extract_article_item_flattenable _ _ _ Hit) as [Hk Hv].
  exists it. cbn [items]. rewrite (serialize_is_flatten it Hk).
  repeat split; [exact Hit | now apply flatten_item_scalar].
Qed.

Lemma try_inv {A} (m : M A) (log : list event) (r : result A) :
  try m = (log, Ok r) -> m = (log, r).
Proof. unfold try. destruct m. cbn. congruence. Qed.

Lemma scalar_item_strings (l : list (string * string)) :
  scalar_item (map (fun kv => (fst kv, PStr (snd kv))) l).
Proof. unfold scalar_item. apply Forall_map. now apply Forall_true. Qed.

Lemma brave_parsed_scalar (snippet : Element.t) (log : list event) (it : item) :
  Brave._parse_snippet snippet = (log, Ok (Some it)) -> scalar_item it.
Proof.
  intros H. apply (f_equal snd) in H. cbn [snd] in H.
  rewrite parse_snippet_result, parse_snippet_body_result in H.
  destruct (snd (Brave.first_text snippet Brave.title_selectors)) as [title |];
    [| discriminate].
  destruct (Py.is_empty title); [discriminate |].
  destruct (snd (Brave.first_external_href snippet)) as [href |]; [| discriminate].
  destruct (Py.is_empty href); [discriminate |].
  destruct (snd (Brave.first_text snippet Brave.description_selectors)) as [desc |];
    [| discriminate].
  destruct (snd (Brave.site_name snippet)) as [site |]; [| discriminate].
  injection H as <-.
  destruct (Py.is_empty site); repeat constructor.
Qed.

Lemma brave_items_scalar (endpoint : string) (page : Page.t)
      (params : gmap string string) (log : list event) (r : ScrapeResult) :
  Brave.scrape endpoint page params = (log, Ok r) -> Forall scalar_item (items r).
Proof.
  intros H. unfold Brave.scrape in H.
  destruct (Py.is_empty _); [now apply raise_Ok_inv in H |].
  bind_inv H as c Hc. bind_inv H as p Hp. cbv zeta in H.
  bind_inv H as u1 Hinit. bind_inv H as u2 Hgoto. bind_inv H as u3 Hsleep.
  bind_inv H as title Htitle.
  destruct (Py.contains _ _); [now apply raise_Ok_inv in H |].
  bind_inv H as waited Hwait. destruct waited as [waited | e].
  - bind_inv H as snippets Hsnippets. bind_inv H as found Hfound.
    apply ret_Ok_inv in H. subst r. cbn [items].
    unfold Brave.parse_all in Hfound.
    apply (for_loop_invariant (fun _ (its : list item) => Forall scalar_item its))
      with (k := 0%nat) in Hfound; [exact Hfound | | auto | constructor].
    intros k s x log' f Hs Hb. bind_inv Hb as parsed Hparsed.
    destruct parsed as [[| kv it] |]; apply ret_Ok_inv in Hb; subst f;
      cbn [flow_state]; try exact Hs.
    apply Forall_app. split; [exact Hs |]. constructor; [| constructor].
    now apply brave_parsed_scalar in Hparsed.
  - apply ret_Ok_inv in H. subst r. constructor.
Qed.

Lemma deepl_items_scalar (endpoint : string) (page : DeepL.LivePage)
      (params : gmap string string) (log : list event) (r : ScrapeResult) :
  DeepL.scrape endpoint page params = (log, Ok r) -> Forall scalar_item (items r).
Proof.
  intros H. unfold DeepL.scrape in H.
  destruct (DeepL._LANG_PAIRS !! endpoint) as [[source_lang target_lang] |];
    [| now apply raise_Ok_inv in H].
  cbv zeta in H. destruct (Py.is_empty _).
  - apply ret_Ok_inv in H. subst r. repeat constructor.
  - bind_inv H as u1 Hgoto. bind_inv H as source_area Harea.
    destruct source_area as [area |]; [| now apply raise_Ok_inv in H].
    bind_inv H as u2 Hclick. bind_inv H as u3 Hpress. bind_inv H as u4 Hback.
    bind_inv H as u5 Htype. bind_inv H as translated Htranslated.
    apply ret_Ok_inv in H. subst r. repeat constructor.
Qed.

Lemma wikipedia_search_result_scalar (result : Element.t) (log : list event) (it : item) :
  Wikipedia.search_result result = (log, Ok (Some it)) -> scalar_item it.
Proof.
  intros H. unfold Wikipedia.search_result in H.
  bind_inv H as heading Hheading. destruct heading as [heading |];
    [| apply ret_Ok_inv in H; discriminate].
  bind_inv H as title Htitle. bind_inv H as href Hhref. cbv zeta in H.
  bind_inv H as snippet_el Hsel. bind_inv H as snippet Hsnippet.
  bind_inv H as size_el Hsize. bind_inv H as size_info Hinfo.
  destruct (Py.is_empty size_info); apply ret_Ok_inv in H; injection H as <-;
    repeat constructor.
Qed.

Lemma wikipedia_items_scalar (endpoint : string) (page : Page.t)
      (params : gmap string string) (log : list event) (r : ScrapeResult) :
  Wikipedia.scrape endpoint page params = (log, Ok r) -> Forall scalar_item (items r).
Proof.
  intros H. unfold Wikipedia.scrape in H.
  destruct (String.eqb endpoint "search").
  - unfold Wikipedia._search in H.
    destruct (Py.is_empty _); [now apply raise_Ok_inv in H |].
    bind_inv H as c Hc. bind_inv H as p Hp. cbv zeta in H. bind_inv H as u1 Hgoto.
    destruct (_ && _).
    + apply article_from_redirect_shape in H as (it & Hit & ->). cbn [items].
      pose proof (extract_article_item_flattenable _ _ _ Hit) as [Hk Hv].
      rewrite (serialize_is_flatten it Hk).
      constructor; [| constructor].
      apply dict_set_Forall; [now apply flatten_item_scalar | reflexivity].
    + bind_inv H as waited Hwait. bind_inv H as none_found Hnone.
      destruct none_found as [el |].
      * apply ret_Ok_inv in H. subst r. constructor.
      * bind_inv H as found Hfound. bind_inv H as next Hnext.
        apply ret_Ok_inv in H. subst r. cbn [items].
        unfold Wikipedia._extract_search_results in Hfound.
        bind_inv Hfound as results Hresults.
        apply (for_loop_invariant (fun _ (its : list item) => Forall scalar_item its))
          with (k := 0%nat) in Hfound; [exact Hfound | | auto | constructor].
        intros k s x log' f Hs Hb. bind_inv Hb as tried Htried.
        apply try_inv in Htried.
        destruct tried as [[it |] | e]; apply ret_Ok_inv in Hb; subst f;
          cbn [flow_state]; try exact Hs.
        apply Forall_app. split; [exact Hs |]. constructor; [| constructor].
        now apply wikipedia_search_result_scalar in Htried.
  - unfold Wikipedia._article in H.
    destruct (Py.is_empty _); [now apply raise_Ok_inv in H |].
    cbv zeta in H. bind_inv H as u1 Hgoto. bind_inv H as no_article Hno.
    destruct no_article as [el |]; [now apply raise_Ok_inv in H |].
    apply extract_article_flattens in H as (it & _ & -> & Hscalar).
    constructor; [exact Hscalar | constructor].
Qed.

Lemma as_dict_inv (v : pyval) (log : list event) (d : list (string * pyval)) :
  X.as_dict v = (log, Ok d) -> v = PDict d.
Proof.
  destruct v; intros H; try (now apply raise_Ok_inv in H).
  apply ret_Ok_inv in H. now subst.
Qed.

Lemma value_startswith_inv (v : pyval) (p : string) (log : list event) (b : bool) :
  X.value_startswith v p = (log, Ok b) -> exists s, v = PStr s.
Proof. destruct v; intros H; try (now apply raise_Ok_inv in H). eauto. Qed.

Lemma tweet_item_copied (env : X.Env) (username : string) (tweet : pyval)
      (log : list event) (it : item) :
  X.tweet_item env username tweet = (log, Ok it) ->
  exists tw, tweet = PDict tw /\ copied_from tw it.
Proof.
  intros H. unfold X.tweet_item in H.
  bind_inv H as tw Htw. apply as_dict_inv in Htw. subst tweet.
  bind_inv H as author Hauthor. cbv zeta in H.
  bind_inv H as author' Hauthor'. bind_inv H as is_retweet Hrt.
  apply value_startswith_inv in Hrt as [s Hs].
  apply ret_Ok_inv in H. subst it. exists tw. split; [reflexivity |].
  unfold copied_from. cbn [dict_get String.eqb Ascii.eqb Bool.eqb].
  repeat split; eauto.
  exists s. now rewrite Hs.
Qed.

(** A loop that appends one item per element: the items it returns
    answer the elements one by one, in order. *)
Lemma for_loop_appends {A B} (f : A -> M B) (l : list A) :
  forall (acc found : list B) (log : list event),
    for_loop l acc (fun found x => it <- f x;; ret (Next (found ++ [it]))) = (log, Ok found) ->
    exists its, found = acc ++ its
                /\ Forall2 (fun x it => exists log', f x = (log', Ok it)) l its.
Proof.
  induction l as [| x l IH]; intros acc found log H.
  - apply ret_Ok_inv in H. subst found. exists []. split; [now rewrite app_nil_r | constructor].
  - cbn [for_loop] in H. bind_inv H as fl Hfl. bind_inv Hfl as it Hit.
    apply ret_Ok_inv in Hfl. subst fl.
    destruct (IH _ _ _ H) as (its & -> & Hits).
    exists (it :: its). split; [now rewrite <- app_assoc |].
    constructor; [eauto | exact Hits].
Qed.

(** The items of the social-timeline recipe answer, one by one and in
    order, the first tweets of the list that [json.loads] made of the
    output of the tool. *)
Lemma x_items_copied (env : X.Env) (endpoint : string) (page : Page.t)
      (params : gmap string string) (log : list event) (r : ScrapeResult) :
  X.scrape env endpoint page params = (log, Ok r) ->
  exists c auth_token ct0 stdout stderr tweets,
    Py.int (default "10" (params !! "count")) = Some c
    /\ X.bird env (bird_command (username_of params) (Z.min c 50) auth_token ct0)
       = Ok (0, stdout, stderr)
    /\ X.json_loads env (Py.drop (Z.to_nat (Py.find_char "[" (Py.strip stdout)))
                                 (Py.strip stdout))
       = Ok (PList tweets)
    /\ Forall2 (fun tweet it => exists tw, tweet = PDict tw /\ copied_from tw it)
               (Py.slice_to tweets (Z.min c 50)) (items r).
Proof.
  intros H. unfold X.scrape in H. fold (username_of params) in H.
  destruct (Py.is_empty _); [now apply raise_Ok_inv in H |].
  bind_inv H as c Hc. apply int_Ok_inv in Hc. cbv zeta in H.
  bind_inv H as auth Hauth. destruct auth as [auth_token ct0].
  fold (bird_command (username_of params) (Z.min c 50) auth_token ct0) in H.
  bind_inv H as proc Hproc. destruct proc as [[returncode stdout] stderr].
  injection Hproc as _ Hproc.
  destruct (returncode =? 0) eqn:Hcode; cbn [negb] in H.
  2: { destruct (_ || _); now apply raise_Ok_inv in H. }
  apply Z.eqb_eq in Hcode. subst returncode.
  destruct (_ =? -1); [now apply raise_Ok_inv in H |].
  bind_inv H as tweets_data Hdata. injection Hdata as _ Hdata.
  destruct tweets_data as [| | | | tweets |]; try now apply raise_Ok_inv in H.
  bind_inv H as found Hfound. apply ret_Ok_inv in H. subst r. cbn [items].
  apply for_loop_appends in Hfound as (its & -> & Hits). cbn [app].
  exists c, auth_token, ct0, stdout, stderr, tweets.
  split; [exact Hc |]. split; [exact Hproc |]. split; [exact Hdata |].
  eapply Forall2_impl; [exact Hits |].
  intros tweet it [log' Hit]. now apply tweet_item_copied in Hit.
Qed.

(** C3, as stated, fails: the social-timeline recipe passes the
    counters of the tool on as they are, so a tweet without a reply
    counter gives an item whose [replies] is [None], neither a text nor
    a number; its [is_retweet] is a boolean. *)
Lemma missing_counter_is_none :
  ~ (forall (inv : invocation) (log : list event) (r : ScrapeResult),
        run inv = (log, Ok r) -> Forall scalar_item (items r)).
Proof.
  intros H.
  destruct (run (OnX Sample.timeline "posts" Sample.blank (<["query" := "@jack"]> ∅)))
    as [log [r | e]] eqn:Hrun; [| vm_compute in Hrun; discriminate Hrun].
  specialize (H _ _ _ Hrun). vm_compute in Hrun. injection Hrun as _ <-.
  cbn [items] in H. apply Forall_cons in H as [H _].
  do 5 (apply Forall_cons in H as [_ H]). apply Forall_cons in H as [H _].
  discriminate H.
Qed.

(** C3, amended: in every successful [scrape] of the search-engine, the
    translation and the encyclopedia recipe, every field value of every
    item is a text or a number; the article result holds the item that
    [_extract_article] built with each nested value replaced by its
    [json.dumps] text and each scalar unchanged.  The items of the
    social-timeline recipe answer, one by one and in order, the first
    [min(count, 50)] tweets of the list that [json.loads] made of the
    output of the tool, from its first bracket on: each tweet is an
    object, and its item holds the text (a string), the time stamp and
    the four counters of that tweet as they are, with a text URL and a
    boolean retweet flag; a counter the tweet does not have is [None] in
    the item. *)
Theorem field_values_by_recipe :
  (forall (inv : invocation) (log : list event) (r : ScrapeResult),
      run inv = (log, Ok r) -> recipe_of inv <> XRecipe ->
      Forall scalar_item (items r))
  /\ (forall (page : Page.t) (log : list event) (r : ScrapeResult),
         Wikipedia._extract_article page = (log, Ok r) ->
         exists it, Wikipedia.extract_article_item page = (log, Ok it)
                    /\ items r = [flatten_item it])
  /\ (forall (env : X.Env) (endpoint : string) (page : Page.t)
             (params : gmap string string) (log : list event) (r : ScrapeResult),
         X.scrape env endpoint page params = (log, Ok r) ->
         exists c auth_token ct0 stdout stderr tweets,
           Py.int (default "10" (params !! "count")) = Some c
           /\ X.bird env (bird_command (username_of params) (Z.min c 50) auth_token ct0)
              = Ok (0, stdout, stderr)
           /\ X.json_loads env (Py.drop (Z.to_nat (Py.find_char "[" (Py.strip stdout)))
                                        (Py.strip stdout))
              = Ok (PList tweets)
           /\ Forall2 (fun tweet it => exists tw, tweet = PDict tw /\ copied_from tw it)
                      (Py.slice_to tweets (Z.min c 50)) (items r))
  /\ (forall (tw : list (string * pyval)) (it : item),
         copied_from tw it ->
         (dict_get "replyCount" tw = None -> dict_get "replies" it = Some PNone)
         /\ (dict_get "retweetCount" tw = None -> dict_get "reposts" it = Some PNone)
         /\ (dict_get "likeCount" tw = None -> dict_get "likes" it = Some PNone)
         /\ (dict_get "viewCount" tw = None -> dict_get "views" it = Some PNone)).
Proof.
  split; [| split; [| split]].
  - intros inv log r H Hne.
    destruct inv as [endpoint page params | endpoint page params
                    | endpoint page params | env endpoint page params];
      cbn [run recipe_of] in *.
    + now apply brave_items_scalar in H.
    + now apply deepl_items_scalar in H.
    + now apply wikipedia_items_scalar in H.
    + contradiction.
  - intros page log r H.
    apply extract_article_flattens in H as (it & Hit & Hitems & _). eauto.
  - intros env endpoint page params log r H. now apply x_items_copied in H.
  - intros tw it (_ & _ & H1 & H2 & H3 & H4 & _). unfold X.get in H1, H2, H3, H4.
    repeat split; intros Hnone; rewrite Hnone in *; assumption.
Qed.

Lemma field_values_by_recipe_witness :
  (exists log r,
      run (OnWikipedia "article" Sample.article_page (<["query" := "Rust"]> ∅))
      = (log, Ok r)
      /\ Forall scalar_item (items r))
  /\ (exists log r it,
         Wikipedia._extract_article Sample.article_page = (log, Ok r)
         /\ Wikipedia.extract_article_item Sample.article_page = (log, Ok it)
         /\ items r = [flatten_item it])
  /\ (exists log r tweets,
         X.scrape Sample.chatty "posts" Sample.blank (<["query" := "@jack"]> ∅)
         = (log, Ok r)
         /\ Sample.tweets = PList tweets
         /\ Forall2 (fun tweet it => exists tw, tweet = PDict tw /\ copied_from tw it)
                    tweets (items r)).
Proof.
  destruct field_values_by_recipe as (Hscalar & Harticle & Htimeline & _).
  repeat split.
  - destruct (run (OnWikipedia "article" Sample.article_page (<["query" := "Rust"]> ∅)))
      as [log [r | e]] eqn:Hrun; [| vm_compute in Hrun; discriminate Hrun].
    exists log, r. split; [reflexivity |].
    apply (Hscalar _ log r Hrun). discriminate.
  - destruct (Wikipedia._extract_article Sample.article_page)
      as [log [r | e]] eqn:Hrun; [| vm_compute in Hrun; discriminate Hrun].
    destruct (Harticle _ log r Hrun) as (it & Hit & Hitems).
    exists log, r, it. auto.
  - destruct (X.scrape Sample.chatty "posts" Sample.blank (<["query" := "@jack"]> ∅))
      as [log [r | e]] eqn:Hrun; [| vm_compute in Hrun; discriminate Hrun].
    destruct (Htimeline _ _ _ _ log r Hrun)
      as (c & auth_token & ct0 & stdout & stderr & tweets & Hc & Hbird & Hjson & Hitems).
    vm_compute in Hc. injection Hc as <-.
    vm_compute in Hbird. injection Hbird as <- _.
    vm_compute in Hjson. injection Hjson as <-.
    exists log, r. eexists. split; [reflexivity |]. split; [reflexivity | exact Hitems].
Defined.

Example article_fields_are_encoded :
  snd (Wikipedia._extract_article Sample.article_page)
  = Ok {| items :=
            [[("title", PStr "Rust (programming language)");
              ("url", PStr "https://en.wikipedia.org/wiki/Rust_(programming_language)");
              ("summary", PStr EmptyString);
              ("table_of_contents",
               PStr (Json.dumps (PList [PStr "History"; PStr "Syntax"])));
              ("sections", PStr "[]");
              ("categories", PStr (Json.dumps (PList [PStr "Programming languages"])));
              ("languages_available", PInt 2)]];
          current_page := Some 1;
          has_next := Some false |}.
Proof. vm_compute. reflexivity. Qed.

(* ===================================================================== *)
(** * Part III: further properties of the recipes                         *)
(* ===================================================================== *)

(** ** Loops and logs *)

Lemma count_events_app (p : event -> bool) (a b : list event) :
  count_events p (a ++ b) = (count_events p a + count_events p b)%nat.
Proof. unfold count_events. now rewrite List.filter_app, length_app. Qed.

Lemma count_events_bind {A B} (p : event -> bool) (m : M A) (f : A -> M B) (n k : nat) :
  (count_events p (fst m) <= n)%nat ->
  (forall a, (count_events p (fst (f a)) <= k)%nat) ->
  (count_events p (fst (bind m f)) <= n + k)%nat.
Proof.
  intros Hm Hf. rewrite fst_bind. destruct (snd m) as [a | e]; [| lia].
  rewrite count_events_app. specialize (Hf a). lia.
Qed.

(** A loop whose turns log at most [n] events of a kind logs at most [n]
    of them per element. *)
Lemma for_loop_count_events {A S} (p : event -> bool) (body : S -> A -> M (flow S))
      (n : nat) :
  (forall s x, (count_events p (fst (body s x)) <= n)%nat) ->
  forall (l : list A) (s : S),
    (count_events p (fst (for_loop l s body)) <= n * length l)%nat.
Proof.
  intros Hbody l. induction l as [| x l IH]; intros s.
  - cbn. lia.
  - cbn [for_loop length]. rewrite fst_bind.
    destruct (snd (body s x)) as [[s1 | s1] | e].
    + rewrite count_events_app. specialize (Hbody s x). specialize (IH s1). lia.
    + rewrite count_events_app. specialize (Hbody s x). cbn. lia.
    + specialize (Hbody s x). lia.
Qed.

(** ** The search-engine recipe *)

Lemma or_empty_blank (o : option string) :
  whitespace_only (Py.or_empty o) = true -> Py.strip (Py.or_empty o) = EmptyString.
Proof. apply strip_whitespace_only. Qed.

(** X1: a query that is absent, empty or made of white-space characters
    only (those of Unicode) is rejected first: the search-engine recipe, the two encyclopedia endpoints and
    the social-timeline recipe raise their missing-query error before
    any call on the page, the credentials or the tool. *)
Theorem blank_query_is_rejected_first
        (params : gmap string string) (endpoint : string) (page : Page.t)
        (env : X.Env) :
  whitespace_only (Py.or_empty (params !! "query")) = true ->
  Brave.scrape endpoint page params = ([], Raise Brave.missing_query)
  /\ Wikipedia.scrape "search" page params = ([], Raise Wikipedia.missing_query)
  /\ Wikipedia.scrape "article" page params = ([], Raise Wikipedia.missing_title)
  /\ X.scrape env endpoint page params = ([], Raise X.missing_username).
Proof.
  intros H%or_empty_blank. repeat split.
  - unfold Brave.scrape. now rewrite H.
  - change (Wikipedia._search page params = ([], Raise Wikipedia.missing_query)).
    unfold Wikipedia._search. now rewrite H.
  - change (Wikipedia._article page params = ([], Raise Wikipedia.missing_title)).
    unfold Wikipedia._article. now rewrite H.
  - unfold X.scrape. now rewrite H.
Qed.

Lemma blank_query_is_rejected_first_witness :
  Brave.scrape "search" Sample.results_page (<["query" := Sample.blanks]> ∅)
  = ([], Raise Brave.missing_query)
  /\ Wikipedia.scrape "search" Sample.results_page (<["query" := Sample.blanks]> ∅)
     = ([], Raise Wikipedia.missing_query)
  /\ Wikipedia.scrape "article" Sample.results_page (<["query" := Sample.blanks]> ∅)
     = ([], Raise Wikipedia.missing_title)
  /\ X.scrape Sample.timeline "search" Sample.results_page (<["query" := Sample.blanks]> ∅)
     = ([], Raise X.missing_username).
Proof.
  apply (blank_query_is_rejected_first (<["query" := Sample.blanks]> ∅) "search"
           Sample.results_page Sample.timeline).
  vm_compute. reflexivity.
Defined.

Lemma for_loop_cons_next {A S} (body : S -> A -> M (flow S)) (x : A) (l : list A)
      (s s' : S) (log : list event) :
  body s x = (log, Ok (Next s')) ->
  for_loop (x :: l) s body
  = (log ++ fst (for_loop l s' body), snd (for_loop l s' body)).
Proof.
  intros H. cbn [for_loop]. rewrite H. unfold bind.
  destruct (for_loop l s' body). reflexivity.
Qed.

Lemma for_loop_cons_break {A S} (body : S -> A -> M (flow S)) (x : A) (l : list A)
      (s s' : S) (log : list event) :
  body s x = (log, Ok (Break s')) -> for_loop (x :: l) s body = (log, Ok s').
Proof.
  intros H. cbn [for_loop]. rewrite H. unfold bind, ret. now rewrite app_nil_r.
Qed.

Lemma for_loop_cons_raise {A S} (body : S -> A -> M (flow S)) (x : A) (l : list A)
      (s : S) (log : list event) (e : exn) :
  body s x = (log, Raise e) -> for_loop (x :: l) s body = (log, Raise e).
Proof. intros H. cbn [for_loop]. now rewrite H. Qed.

Lemma first_text_skips (snippet : Element.t) (sel : string) :
  yields_nothing snippet sel ->
  exists log, forall rest,
      Brave.first_text snippet (sel :: rest)
      = (log ++ fst (Brave.first_text snippet rest),
         snd (Brave.first_text snippet rest)).
Proof.
  unfold Brave.first_text. intros [Hnone | (e & raw & Hq & Ht & Hs)].
  - exists [QuerySelector sel]. intros rest. apply for_loop_cons_next.
    rewrite Hnone. reflexivity.
  - exists [QuerySelector sel; TextContent]. intros rest. apply for_loop_cons_next.
    rewrite Hq. unfold call at 1. cbn [bind]. rewrite Ht. unfold call. cbn [bind].
    rewrite Hs. reflexivity.
Qed.

Lemma first_text_takes (snippet : Element.t) (sel t : string) (rest : list string) :
  yields snippet sel t -> t <> EmptyString ->
  Brave.first_text snippet (sel :: rest) = ([QuerySelector sel; TextContent], Ok t).
Proof.
  intros (e & raw & Hq & Ht & Hs) Hne%is_empty_false.
  unfold Brave.first_text. apply for_loop_cons_break.
  rewrite Hq. unfold call at 1. cbn [bind]. rewrite Ht. unfold call. cbn [bind].
  rewrite Hs, Hne. reflexivity.
Qed.

(** X2: selector fallback.  When the selectors before [sel] find no
    element or no text and [sel] finds the text [t], the loop returns
    [t], and the selectors after [sel] are never queried: the calls are
    those made for the list that ends at [sel]. *)
Theorem first_text_stops_at_first_match
        (snippet : Element.t) (before after : list string) (sel t : string) :
  Forall (yields_nothing snippet) before ->
  yields snippet sel t ->
  t <> EmptyString ->
  snd (Brave.first_text snippet (before ++ sel :: after)) = Ok t
  /\ fst (Brave.first_text snippet (before ++ sel :: after))
     = fst (Brave.first_text snippet (before ++ [sel])).
Proof.
  intros Hbefore Hsel Ht. induction Hbefore as [| s before Hs _ IH].
  - cbn [app]. rewrite !(first_text_takes _ _ _ _ Hsel Ht). split; reflexivity.
  - cbn [app]. destruct IH as [IH1 IH2].
    destruct (first_text_skips snippet s Hs) as [log Hlog].
    rewrite !Hlog. cbn [fst snd]. split; [exact IH1 | now rewrite IH2].
Qed.

Lemma first_text_stops_at_first_match_witness :
  snd (Brave.first_text Sample.snippet_with_link Brave.title_selectors)
  = Ok "The Rust Programming Language"
  /\ fst (Brave.first_text Sample.snippet_with_link Brave.title_selectors)
     = fst (Brave.first_text Sample.snippet_with_link ["[class*='title']"; "a h2"]).
Proof.
  apply (first_text_stops_at_first_match
           Sample.snippet_with_link ["[class*='title']"] ["a h3"] "a h2"
           "The Rust Programming Language").
  - constructor; [| constructor]. left. reflexivity.
  - exists (Sample.text "The Rust Programming Language"),
      (Some "The Rust Programming Language"). repeat split.
  - discriminate.
Defined.

Lemma first_text_is_stripped (snippet : Element.t) (selectors : list string)
      (log : list event) (t : string) :
  Brave.first_text snippet selectors = (log, Ok t) -> Py.strip t = t.
Proof.
  intros H. unfold Brave.first_text in H.
  apply (for_loop_invariant (fun _ (text : string) => Py.strip text = text))
    with (k := 0%nat) in H; [exact H | | auto | reflexivity].
  intros k s x log' f Hs Hb. bind_inv Hb as el Hel.
  destruct el as [e |].
  - bind_inv Hb as raw Hraw.
    destruct (Py.is_empty _); apply ret_Ok_inv in Hb; subst f; cbn [flow_state];
      apply strip_idempotent.
  - apply ret_Ok_inv in Hb. now subst f.
Qed.

Lemma first_external_href_is_external (snippet : Element.t) (log : list event)
      (h : string) :
  Brave.first_external_href snippet = (log, Ok h) ->
  h = EmptyString \/ Py.contains "brave.com" h = false.
Proof.
  intros H. unfold Brave.first_external_href in H. bind_inv H as links Hlinks.
  apply (for_loop_invariant
           (fun _ (href : string) =>
              href = EmptyString \/ Py.contains "brave.com" href = false))
    with (k := 0%nat) in H; [exact H | | auto | now left].
  intros k s x log' f Hs Hb. bind_inv Hb as raw Hraw. cbv zeta in Hb.
  destruct (Py.contains "brave.com" (Py.or_empty raw)) eqn:Hc;
    apply ret_Ok_inv in Hb; subst f; cbn [flow_state]; auto.
Qed.

Lemma snd_pair_inv {A} (m : M A) (log : list event) (r : result A) :
  m = (log, r) -> snd m = r.
Proof. now intros ->. Qed.

(** X3: an item the search-engine recipe keeps has a stripped title
    that is not empty, a URL that is not empty and has no [brave.com] in
    it, and a stripped description; the optional [site] field, when
    present, is a text that is not empty. *)
Theorem kept_snippet_fields (snippet : Element.t) (log : list event) (it : item) :
  Brave._parse_snippet snippet = (log, Ok (Some it)) ->
  exists title href desc,
    dict_get "title" it = Some (PStr title)
    /\ title <> EmptyString /\ Py.strip title = title
    /\ dict_get "url" it = Some (PStr href)
    /\ href <> EmptyString /\ Py.contains "brave.com" href = false
    /\ dict_get "snippet" it = Some (PStr desc) /\ Py.strip desc = desc
    /\ (forall v, dict_get "site" it = Some v ->
                  exists site, v = PStr site /\ site <> EmptyString).
Proof.
  intros H. apply snd_pair_inv in H.
  rewrite parse_snippet_result, parse_snippet_body_result in H.
  destruct (Brave.first_text snippet Brave.title_selectors) as [l1 [title |]] eqn:Ht;
    cbn [snd] in H; [| discriminate].
  destruct (Py.is_empty title) eqn:Et; [discriminate |].
  destruct (Brave.first_external_href snippet) as [l2 [href |]] eqn:Hh;
    cbn [snd] in H; [| discriminate].
  destruct (Py.is_empty href) eqn:Eh; [discriminate |].
  destruct (Brave.first_text snippet Brave.description_selectors) as [l3 [desc |]] eqn:Hd;
    cbn [snd] in H; [| discriminate].
  destruct (snd (Brave.site_name snippet)) as [site |]; [| discriminate].
  apply is_empty_false in Et, Eh.
  apply first_text_is_stripped in Ht, Hd.
  apply first_external_href_is_external in Hh as [-> | Hh]; [contradiction |].
  exists title, href, desc.
  destruct (Py.is_empty site) eqn:Es; injection H as <-;
    cbn [dict_set dict_get String.eqb Ascii.eqb Bool.eqb];
    repeat split; auto.
  - intros v [=].
  - intros v [= <-]. exists site. split; [reflexivity | now apply is_empty_false].
Qed.

Lemma kept_snippet_fields_witness :
  exists title href desc,
    dict_get "title" (hd [] (kept_item Sample.snippet_with_link)) = Some (PStr title)
    /\ title <> EmptyString /\ Py.strip title = title
    /\ dict_get "url" (hd [] (kept_item Sample.snippet_with_link)) = Some (PStr href)
    /\ href <> EmptyString /\ Py.contains "brave.com" href = false
    /\ dict_get "snippet" (hd [] (kept_item Sample.snippet_with_link)) = Some (PStr desc)
    /\ Py.strip desc = desc
    /\ (forall v, dict_get "site" (hd [] (kept_item Sample.snippet_with_link)) = Some v ->
                  exists site, v = PStr site /\ site <> EmptyString).
Proof.
  destruct (Brave._parse_snippet Sample.snippet_with_link) as [log r] eqn:Hrun.
  assert (Hr : r = Ok (Some (hd [] (kept_item Sample.snippet_with_link)))).
  { apply snd_pair_inv in Hrun. rewrite <- Hrun. vm_compute. reflexivity. }
  subst r. exact (kept_snippet_fields _ log _ Hrun).
Defined.

Lemma parse_all_from (snippets : list Element.t) :
  forall acc : list item,
    snd (for_loop snippets acc
           (fun items snippet =>
              parsed <- Brave._parse_snippet snippet;;
              match parsed with
              | Some ((_ :: _) as it) => ret (Next (items ++ [it]))
              | _ => ret (Next items)
              end))
    = Ok (acc ++ flat_map kept_item snippets).
Proof.
  induction snippets as [| x snippets IH]; intros acc.
  - cbn. now rewrite app_nil_r.
  - cbn [for_loop flat_map]. rewrite snd_bind, snd_bind.
    unfold kept_item at 1.
    destruct (snd (Brave._parse_snippet x)) as [[[| kv it] |] | e] eqn:Hx.
    + cbn [ret snd]. rewrite IH. reflexivity.
    + cbn [ret snd]. rewrite IH. now rewrite <- app_assoc.
    + cbn [ret snd]. rewrite IH. reflexivity.
    + rewrite parse_snippet_result in Hx. discriminate Hx.
Qed.

(** X4: an exception while one snippet is parsed never aborts the batch:
    whatever the snippets answer, the loop over them returns, and its
    items are those of the kept snippets in the order of the page. *)
Theorem parse_all_keeps_order (snippets : list Element.t) :
  snd (Brave.parse_all snippets) = Ok (flat_map kept_item snippets).
Proof. unfold Brave.parse_all. now rewrite parse_all_from. Qed.

Lemma flat_map_kept_length (snippets : list Element.t) :
  (length (flat_map kept_item snippets) <= length snippets)%nat.
Proof.
  induction snippets as [| x l IH]; [reflexivity |].
  cbn [flat_map length]. rewrite length_app. unfold kept_item at 1.
  destruct (snd (Brave._parse_snippet x)) as [[[| kv it] |] | e]; cbn [length]; lia.
Qed.

(** The two outcomes of a search that returns. *)
Lemma brave_success_cases (endpoint : string) (page : Page.t)
      (params : gmap string string) (log : list event) (r : ScrapeResult) :
  Brave.scrape endpoint page params = (log, Ok r) ->
  exists c p,
    Py.int (default "20" (params !! "count")) = Some c
    /\ Py.int (default "1" (params !! "page")) = Some p
    /\ current_page r = Some (Z.max p 1)
    /\ ((exists e, Page.wait_for_selector page Brave.results_selector = Raise e
                   /\ items r = [] /\ has_next r = Some false)
        \/ (exists w snippets,
               Page.wait_for_selector page Brave.results_selector = Ok w
               /\ Page.query_selector_all page Brave.results_selector = Ok snippets
               /\ items r = flat_map kept_item (Py.slice_to snippets (Z.min c 50))
               /\ has_next r = Some (10 <=? length snippets)%nat)).
Proof.
  intros H. unfold Brave.scrape in H.
  destruct (Py.is_empty _); [now apply raise_Ok_inv in H |].
  bind_inv H as c Hc. apply int_Ok_inv in Hc.
  bind_inv H as p Hp. apply int_Ok_inv in Hp. cbv zeta in H.
  bind_inv H as u1 Hinit. bind_inv H as u2 Hgoto. bind_inv H as u3 Hsleep.
  bind_inv H as title Htitle.
  destruct (Py.contains _ _); [now apply raise_Ok_inv in H |].
  bind_inv H as waited Hwait. apply try_inv in Hwait. injection Hwait as _ Hwait.
  exists c, p. split; [exact Hc |]. split; [exact Hp |].
  destruct waited as [w | e].
  - bind_inv H as snippets Hsnippets. injection Hsnippets as _ Hsnippets.
    bind_inv H as found Hfound. apply snd_pair_inv in Hfound.
    unfold Brave.parse_all in Hfound. rewrite parse_all_from in Hfound.
    injection Hfound as <-.
    apply ret_Ok_inv in H. subst r. cbn [items current_page has_next].
    split; [reflexivity |]. right. exists w, snippets. auto.
  - apply ret_Ok_inv in H. subst r. cbn [items current_page has_next].
    split; [reflexivity |]. left. exists e. auto.
Qed.

(** X5: a successful search is one of two things.  Either the wait for
    the results raised and the result is empty with [has_next] false; or
    the items are those of the kept snippets among the first
    [min(count, 50)] raw snippets, in page order, and [has_next] says
    whether the page had at least ten raw snippets, whatever the count.
    The current page is the requested page, raised to 1. *)
Theorem brave_success_shape (endpoint : string) (page : Page.t)
        (params : gmap string string) (log : list event) (r : ScrapeResult) :
  Brave.scrape endpoint page params = (log, Ok r) ->
  exists c p,
    Py.int (default "20" (params !! "count")) = Some c
    /\ Py.int (default "1" (params !! "page")) = Some p
    /\ current_page r = Some (Z.max p 1)
    /\ ((exists e, Page.wait_for_selector page Brave.results_selector = Raise e
                   /\ items r = [] /\ has_next r = Some false)
        \/ (exists w snippets,
               Page.wait_for_selector page Brave.results_selector = Ok w
               /\ Page.query_selector_all page Brave.results_selector = Ok snippets
               /\ items r = flat_map kept_item (Py.slice_to snippets (Z.min c 50))
               /\ has_next r = Some (10 <=? length snippets)%nat)).
Proof. exact (brave_success_cases endpoint page params log r). Qed.

Lemma brave_success_shape_witness :
  exists log r,
    Brave.scrape "search" Sample.results_page
                 (<["query" := "rust"]> (<["count" := "2"]> ∅)) = (log, Ok r)
    /\ current_page r = Some 1
    /\ items r = kept_item Sample.snippet_with_link
    /\ has_next r = Some false.
Proof.
  destruct (Brave.scrape "search" Sample.results_page
                         (<["query" := "rust"]> (<["count" := "2"]> ∅)))
    as [log [r | e]] eqn:Hrun; [| vm_compute in Hrun; discriminate Hrun].
  exists log, r. split; [reflexivity |].
  destruct (brave_success_shape _ _ _ _ _ Hrun)
    as (c & p & Hc & Hp & Hpage & [(e & He & _) | (w & snippets & _ & Hs & Hi & Hn)]).
  - vm_compute in He. discriminate He.
  - vm_compute in Hc, Hp. injection Hc as <-. injection Hp as <-.
    vm_compute in Hs. injection Hs as <-.
    split; [exact Hpage |]. split; [rewrite Hi | rewrite Hn]; vm_compute; reflexivity.
Defined.

Lemma count_is_not_negative (params : gmap string string) (dflt : string) (n c : Z) :
  Py.int dflt = Some n -> 0 <= n ->
  (forall s c', params !! "count" = Some s -> Py.int s = Some c' -> 0 <= c') ->
  Py.int (default dflt (params !! "count")) = Some c -> 0 <= c.
Proof.
  intros Hd Hn Hall Hc. destruct (params !! "count") as [s |] eqn:Hs.
  - exact (Hall s c eq_refl Hc).
  - change (Py.int dflt = Some c) in Hc. congruence.
Qed.

Lemma wikipedia_listing_clamped (page : Page.t) (params : gmap string string)
      (log : list event) (r : ScrapeResult) :
  Wikipedia._search page params = (log, Ok r) ->
  exists c, Py.int (default "20" (params !! "count")) = Some c
            /\ (0 <= c -> Z.of_nat (length (items r)) <= Z.max 1 (Z.min c 50)).
Proof.
  intros H. unfold Wikipedia._search in H.
  destruct (Py.is_empty _); [now apply raise_Ok_inv in H |].
  bind_inv H as c Hc. apply int_Ok_inv in Hc. exists c. split; [exact Hc |].
  intros Hpos.
  bind_inv H as p Hp. cbv zeta in H. bind_inv H as u1 Hgoto.
  destruct (_ && _).
  - apply article_from_redirect_shape in H as (it & _ & ->). cbn [items length]. lia.
  - bind_inv H as waited Hwait. bind_inv H as none_found Hnone.
    destruct none_found as [el |].
    + apply ret_Ok_inv in H. subst r. cbn [items length]. lia.
    + bind_inv H as found Hfound. bind_inv H as next Hnext.
      apply ret_Ok_inv in H. subst r. cbn [items].
      apply wikipedia_results_length in Hfound; lia.
Qed.

Lemma x_listing_clamped (env : X.Env) (endpoint : string) (page : Page.t)
      (params : gmap string string) (log : list event) (r : ScrapeResult) :
  X.scrape env endpoint page params = (log, Ok r) ->
  exists c, Py.int (default "10" (params !! "count")) = Some c
            /\ (0 <= c -> Z.of_nat (length (items r)) <= Z.min c 50).
Proof.
  intros H. unfold X.scrape in H.
  destruct (Py.is_empty _); [now apply raise_Ok_inv in H |].
  bind_inv H as c Hc. apply int_Ok_inv in Hc. exists c. split; [exact Hc |].
  intros Hpos.
  cbv zeta in H. bind_inv H as auth Hauth. destruct auth as [auth_token ct0].
  bind_inv H as proc Hproc. destruct proc as [[returncode stdout] stderr].
  destruct (negb _).
  { destruct (_ || _); now apply raise_Ok_inv in H. }
  destruct (_ =? -1); [now apply raise_Ok_inv in H |].
  bind_inv H as tweets_data Hdata.
  destruct tweets_data as [| | | | tweets |]; try now apply raise_Ok_inv in H.
  bind_inv H as found Hfound. apply ret_Ok_inv in H. subst r. cbn [items].
  apply (for_loop_invariant (fun k (its : list item) => (length its <= k)%nat))
    with (k := 0%nat) in Hfound.
  - pose proof (slice_to_length tweets (Z.min c 50) ltac:(lia)).
    cbn [Nat.add] in Hfound. lia.
  - intros k s x log' f Hs Hb. bind_inv Hb as it Hit.
    apply ret_Ok_inv in Hb; subst f; cbn [flow_state]. rewrite length_app. cbn [length]. lia.
  - intros; lia.
  - cbn; lia.
Qed.

(** X6: the count is clamped to 50.  When the requested count is not
    negative (or absent), no successful [scrape] of any recipe returns
    more than 50 items, however large the count and however many
    results the page or the tool holds. *)
Theorem at_most_fifty_items (inv : invocation) (log : list event) (r : ScrapeResult) :
  run inv = (log, Ok r) ->
  (forall s c, params_of inv !! "count" = Some s -> Py.int s = Some c -> 0 <= c) ->
  (length (items r) <= 50)%nat.
Proof.
  intros H Hcount.
  destruct inv as [endpoint page params | endpoint page params
                  | endpoint page params | env endpoint page params];
    cbn [run params_of] in *.
  - apply brave_success_cases in H
      as (c & p & Hc & _ & _ & [(e & _ & -> & _) | (w & snippets & _ & _ & -> & _)]);
      [cbn; lia |].
    pose proof (count_is_not_negative params "20" 20 c eq_refl ltac:(lia) Hcount Hc).
    pose proof (flat_map_kept_length (Py.slice_to snippets (Z.min c 50))).
    pose proof (slice_to_length snippets (Z.min c 50) ltac:(lia)). lia.
  - apply deepl_one_item in H as [-> _]. lia.
  - unfold Wikipedia.scrape in H. destruct (String.eqb endpoint "search").
    + apply wikipedia_listing_clamped in H as (c & Hc & Hlen).
      pose proof (count_is_not_negative params "20" 20 c eq_refl ltac:(lia) Hcount Hc).
      specialize (Hlen ltac:(lia)). lia.
    + assert (Hone : length (items r) = 1%nat); [| lia].
      unfold Wikipedia._article in H.
      destruct (Py.is_empty _); [now apply raise_Ok_inv in H |].
      cbv zeta in H. bind_inv H as u1 Hgoto. bind_inv H as no_article Hno.
      destruct no_article as [el |]; [now apply raise_Ok_inv in H |].
      now apply extract_article_shape in H as (it & _ & ->).
  - apply x_listing_clamped in H as (c & Hc & Hlen).
    pose proof (count_is_not_negative params "10" 10 c eq_refl ltac:(lia) Hcount Hc).
    specialize (Hlen ltac:(lia)). lia.
Qed.

Lemma at_most_fifty_items_witness :
  exists log r,
    run (OnBrave "search" Sample.results_page
                 (<["query" := "rust"]> (<["count" := "1000"]> ∅))) = (log, Ok r)
    /\ (length (items r) <= 50)%nat.
Proof.
  destruct (run (OnBrave "search" Sample.results_page
                         (<["query" := "rust"]> (<["count" := "1000"]> ∅))))
    as [log [r | e]] eqn:Hrun; [| vm_compute in Hrun; discriminate Hrun].
  exists log, r. split; [reflexivity |].
  apply (at_most_fifty_items _ log r Hrun).
  intros s c Hs Hc. vm_compute in Hs. injection Hs as <-.
  vm_compute in Hc. injection Hc as <-. lia.
Defined.

(** ** The translation recipe *)

Lemma call_log_not_empty {A B} (ev : event) (answer : result A) (f : A -> M B) :
  fst (bind (call ev answer) f) <> [].
Proof.
  unfold call, bind. destruct answer as [a | e]; [| discriminate].
  destruct (f a). discriminate.
Qed.

(** X7: the translation recipe raises [KeyError], before any call on
    the page, exactly on the endpoints [supports] rejects. *)
Theorem deepl_key_error_iff_unsupported
        (endpoint : string) (page : DeepL.LivePage) (params : gmap string string) :
  DeepL.supports endpoint = false
  <-> DeepL.scrape endpoint page params = ([], Raise (KeyError endpoint)).
Proof.
  unfold DeepL.supports, DeepL.scrape.
  destruct (DeepL._LANG_PAIRS !! endpoint) as [[source_lang target_lang] |].
  - split; [discriminate |]. cbv zeta.
    destruct (Py.is_empty _); [discriminate |].
    intros H. apply (f_equal fst) in H. now apply call_log_not_empty in H.
  - split; reflexivity.
Qed.

Lemma strip_fixed_not_blank (r : string) :
  Py.strip r = r -> r = EmptyString \/ whitespace_only r = false.
Proof.
  intros H. destruct (whitespace_only r) eqn:E; [| now right].
  left. rewrite <- H. now apply strip_whitespace_only.
Qed.

(** A text that [_read_target] returns is a fixed point of [strip]. *)
Lemma read_target_stripped (page : Page.t) (log : list event) (r : string) :
  DeepL._read_target page = (log, Ok r) -> Py.strip r = r.
Proof.
  intros H. unfold DeepL._read_target in H. bind_inv H as returned Hret.
  destruct returned as [text |].
  - apply ret_Ok_inv in H. subst r.
    unfold DeepL.read_target_area in Hret. bind_inv Hret as area Harea.
    destruct area as [area |]; [| apply ret_Ok_inv in Hret; discriminate].
    bind_inv Hret as v Hv. destruct (DeepL.has_text v).
    + apply ret_Ok_inv in Hret. injection Hret as <-. apply strip_idempotent.
    + bind_inv Hret as c Hc. destruct (DeepL.has_text c);
        apply ret_Ok_inv in Hret; [| discriminate].
      injection Hret as <-. apply strip_idempotent.
  - bind_inv H as target_p Hp. destruct target_p as [p |].
    + bind_inv H as t Ht. destruct (DeepL.has_text t); apply ret_Ok_inv in H; subst r;
        [apply strip_idempotent | reflexivity].
    + apply ret_Ok_inv in H. now subst r.
Qed.

(** X8: whatever the page answers, a text that [_read_target] returns
    is stripped: it is empty, or it has no white space at either end and
    is not white space only. *)
Theorem read_target_is_stripped (page : Page.t) (log : list event) (r : string) :
  DeepL._read_target page = (log, Ok r) ->
  Py.strip r = r /\ (r = EmptyString \/ whitespace_only r = false).
Proof.
  intros H. apply read_target_stripped in H.
  split; [exact H | now apply strip_fixed_not_blank].
Qed.

Lemma read_target_is_stripped_witness :
  Py.strip "Hallo Welt" = "Hallo Welt"
  /\ ("Hallo Welt" = EmptyString \/ whitespace_only "Hallo Welt" = false).
Proof.
  destruct (DeepL._read_target (Sample.translator "  Hallo Welt ")) as [log r] eqn:Hrun.
  assert (Hr : r = Ok "Hallo Welt").
  { apply snd_pair_inv in Hrun. rewrite <- Hrun. vm_compute. reflexivity. }
  subst r. exact (read_target_is_stripped _ log _ Hrun).
Defined.

Lemma poll_inv (query : string) (page : DeepL.LivePage) (vars : string * Z) (i : nat)
      (log : list event) (f : flow (string * Z)) :
  DeepL.poll query page vars i = (log, Ok f) ->
  exists current, f = DeepL.compare query vars current
                  /\ Py.strip current = current
                  /\ polls log = 1%nat.
Proof.
  intros H. unfold DeepL.poll in H.
  bind_inv H as u Hsleep. bind_inv H as current Hread.
  apply ret_Ok_inv_log in H as [-> <-]. exists current.
  split; [reflexivity |]. split; [now apply read_target_stripped in Hread |].
  injection Hsleep as <-. subst log log1.
  pose proof (read_target_polls (page (S i))) as Hq. rewrite Hread in Hq. cbn [fst] in Hq.
  rewrite app_nil_r. cbn [app].
  change (S (polls log2) = 1%nat). now rewrite Hq.
Qed.

(** What the comparisons can do to the loop variables. *)
Lemma compare_cases (query t current : string) (sc : Z) :
  DeepL.compare query (t, sc) current = Next (t, 0)
  \/ (DeepL.compare query (t, sc) current = Next (t, sc + 1)
      /\ sc + 1 < DeepL.required_stable /\ trivial query current = false /\ current = t)
  \/ (DeepL.compare query (t, sc) current = Break (t, sc + 1)
      /\ DeepL.required_stable <= sc + 1 /\ trivial query current = false /\ current = t)
  \/ (DeepL.compare query (t, sc) current = Next (current, 0)
      /\ trivial query current = false /\ current <> t).
Proof.
  destruct (trivial query current) eqn:Ht.
  - left. now apply compare_trivial.
  - right. destruct (String.eqb_spec current t) as [-> | Hne].
    + destruct (Z.lt_ge_cases (sc + 1) DeepL.required_stable) as [Hk | Hk].
      * left. split; [now apply compare_same_next | auto].
      * right. left. split; [now apply compare_same_break | auto].
    + right. right. split; [| auto]. apply compare_new; [exact Ht |].
      now apply String.eqb_neq.
Qed.

Lemma trivial_false_inv (query current : string) :
  trivial query current = false ->
  current <> EmptyString /\ current <> Py.strip query.
Proof.
  unfold trivial. intros [H1 H2]%orb_false_iff. split.
  - now apply is_empty_false.
  - now apply String.eqb_neq.
Qed.

(** A translation the loop holds is never the input and never blank. *)
Lemma poll_loop_translated (query : string) (page : DeepL.LivePage)
      (log : list event) (t : string) (sc : Z) :
  DeepL.poll_loop query page = (log, Ok (t, sc)) ->
  t = EmptyString \/ (t <> Py.strip query /\ Py.strip t = t).
Proof.
  intros H. unfold DeepL.poll_loop in H.
  apply (for_loop_invariant
           (fun _ (vars : string * Z) =>
              fst vars = EmptyString
              \/ (fst vars <> Py.strip query /\ Py.strip (fst vars) = fst vars)))
    with (k := 0%nat) in H; [exact H | | auto | now left].
  intros k [t0 sc0] i log' f Hs Hb. cbn [fst] in Hs.
  apply poll_inv in Hb as (current & -> & Hstripped & _).
  destruct (compare_cases query t0 current sc0)
    as [-> | [(-> & _) | [(-> & _) | (-> & Ht & _)]]]; cbn [flow_state fst]; auto.
  right. apply trivial_false_inv in Ht as [_ Hne]. auto.
Qed.

(** X9: a translation that [scrape] returns for a query with text is
    never empty and never the (stripped) input itself, and it is
    stripped; the source text is the query as it was given, and the two
    language fields are those of the endpoint. *)
Theorem deepl_translation_fields
        (endpoint : string) (page : DeepL.LivePage) (params : gmap string string)
        (log : list event) (r : ScrapeResult) :
  DeepL.scrape endpoint page params = (log, Ok r) ->
  Py.strip (Py.or_empty (params !! "query")) <> EmptyString ->
  exists t source_lang target_lang,
    DeepL._LANG_PAIRS !! endpoint = Some (source_lang, target_lang)
    /\ items r = [DeepL.record (Py.or_empty (params !! "query")) t source_lang target_lang]
    /\ t <> EmptyString
    /\ t <> Py.strip (Py.or_empty (params !! "query"))
    /\ Py.strip t = t.
Proof.
  intros H Hq%is_empty_false. unfold DeepL.scrape in H.
  destruct (DeepL._LANG_PAIRS !! endpoint) as [[source_lang target_lang] |];
    [| now apply raise_Ok_inv in H].
  cbv zeta in H. rewrite Hq in H.
  bind_inv H as u1 Hgoto. bind_inv H as source_area Harea.
  destruct source_area as [area |]; [| now apply raise_Ok_inv in H].
  bind_inv H as u2 Hclick. bind_inv H as u3 Hpress. bind_inv H as u4 Hback.
  bind_inv H as u5 Htype. bind_inv H as t Ht.
  apply ret_Ok_inv in H. subst r. exists t, source_lang, target_lang.
  split; [reflexivity |]. split; [reflexivity |].
  unfold DeepL.wait_for_translation in Ht. bind_inv Ht as vars Hvars.
  destruct vars as [t0 sc]. cbn [fst] in Ht.
  destruct (Py.is_empty t0) eqn:E; [now apply raise_Ok_inv in Ht |].
  apply ret_Ok_inv in Ht. subst t0. apply is_empty_false in E.
  apply poll_loop_translated in Hvars as [-> | [H1 H2]]; [contradiction | auto].
Qed.

Lemma deepl_translation_fields_witness :
  exists log r t source_lang target_lang,
    DeepL.scrape "en-de" (Sample.streaming [] "Hallo") (<["query" := "hello"]> ∅)
    = (log, Ok r)
    /\ DeepL._LANG_PAIRS !! "en-de" = Some (source_lang, target_lang)
    /\ items r = [DeepL.record "hello" t source_lang target_lang]
    /\ t <> EmptyString /\ t <> "hello" /\ Py.strip t = t.
Proof.
  destruct (DeepL.scrape "en-de" (Sample.streaming [] "Hallo") (<["query" := "hello"]> ∅))
    as [log [r | e]] eqn:Hrun; [| vm_compute in Hrun; discriminate Hrun].
  assert (Hq : Py.strip (Py.or_empty ((<["query" := "hello"]> ∅ : gmap string string)
                                        !! "query")) <> EmptyString)
    by (vm_compute; discriminate).
  destruct (deepl_translation_fields _ _ _ log r Hrun Hq)
    as (t & sl & tl & H1 & H2 & H3 & H4 & H5).
  exists log, r, t, sl, tl.
  split; [reflexivity |]. split; [exact H1 |]. split; [exact H2 |].
  split; [exact H3 |]. split; [exact H4 | exact H5].
Defined.

Lemma polls_is_count (log : list event) : polls log = count_events is_sleep log.
Proof. reflexivity. Qed.

Lemma poll_sleeps_once (query : string) (page : DeepL.LivePage) (vars : string * Z)
      (i : nat) :
  (count_events is_sleep (fst (DeepL.poll query page vars i)) <= 1)%nat.
Proof.
  unfold DeepL.poll.
  apply (count_events_bind is_sleep _ _ 1 0); [reflexivity |]. intros _.
  apply (count_events_bind is_sleep _ _ 0 0).
  - rewrite <- polls_is_count, read_target_polls. lia.
  - intros current. reflexivity.
Qed.

(** From a counter at [sc], a loop that ends without an exception either
    used all its turns or polled until the counter reached the
    threshold. *)
Lemma poll_loop_lower (query : string) (page : DeepL.LivePage) (l : list nat) :
  forall (t : string) (sc : Z) (log : list event) (final : string * Z),
    0 <= sc ->
    for_loop l (t, sc) (DeepL.poll query page) = (log, Ok final) ->
    polls log = length l \/ DeepL.required_stable - sc <= Z.of_nat (polls log).
Proof.
  induction l as [| i l IH]; intros t sc log final Hsc H.
  - apply ret_Ok_inv_log in H as [-> _]. now left.
  - cbn [for_loop] in H. bind_inv H as f Hf.
    apply poll_inv in Hf as (current & -> & _ & Hone).
    subst log. rewrite polls_app, Hone. cbn [length].
    destruct (compare_cases query t current sc)
      as [Hc | [(Hc & Hk & _) | [(Hc & Hk & _) | (Hc & _)]]]; rewrite Hc in H.
    + apply IH in H as [-> | H]; [now left | right; unfold DeepL.required_stable in *; lia
                                 | lia].
    + apply IH in H as [-> | H]; [now left | right; lia | lia].
    + apply ret_Ok_inv_log in H as [-> _]. right. cbn. lia.
    + apply IH in H as [-> | H]; [now left | right; unfold DeepL.required_stable in *; lia
                                 | lia].
Qed.

Lemma poll_loop_lower_start (query : string) (page : DeepL.LivePage) (l : list nat) :
  forall (log : list event) (final : string * Z),
    for_loop l (EmptyString, 0) (DeepL.poll query page) = (log, Ok final) ->
    polls log = length l \/ (7 <= polls log)%nat.
Proof.
  induction l as [| i l IH]; intros log final H.
  - apply ret_Ok_inv_log in H as [-> _]. now left.
  - cbn [for_loop] in H. bind_inv H as f Hf.
    apply poll_inv in Hf as (current & -> & _ & Hone).
    subst log. rewrite polls_app, Hone. cbn [length].
    destruct (compare_cases query EmptyString current 0)
      as [Hc | [(Hc & _ & Ht & ->) | [(Hc & _ & Ht & ->) | (Hc & _)]]].
    + rewrite Hc in H. apply IH in H as [-> | H]; [now left | right; lia].
    + now apply trivial_false_inv in Ht as [Ht _].
    + now apply trivial_false_inv in Ht as [Ht _].
    + rewrite Hc in H. apply poll_loop_lower in H as [-> | H]; [now left | | lia].
      right. unfold DeepL.required_stable in H. lia.
Qed.

(** X10: the wait for a translation polls at most 80 times, whatever
    the page does, and a wait that returns a translation has polled at
    least 7 times: one read to see the text and six to see it unchanged. *)
Theorem translation_takes_seven_to_eighty_polls
        (query : string) (page : DeepL.LivePage) :
  (polls (fst (DeepL.wait_for_translation query page)) <= 80)%nat
  /\ (forall (log : list event) (t : string),
         DeepL.wait_for_translation query page = (log, Ok t) ->
         (7 <= polls log)%nat).
Proof.
  split.
  - unfold DeepL.wait_for_translation. rewrite polls_is_count.
    apply (count_events_bind is_sleep _ _ 80 0).
    + unfold DeepL.poll_loop.
      apply (for_loop_count_events is_sleep _ 1 (poll_sleeps_once query page)
                                   (seq 0 80) (EmptyString, 0)).
    + intros vars. destruct (Py.is_empty (fst vars)); reflexivity.
  - intros log t H. unfold DeepL.wait_for_translation in H.
    bind_inv H as vars Hvars. unfold DeepL.poll_loop in Hvars.
    apply poll_loop_lower_start in Hvars.
    assert (Hlog2 : polls log1 = 0%nat).
    { destruct (Py.is_empty (fst vars)); [now apply raise_Ok_inv in H |].
      now apply ret_Ok_inv_log in H as [-> _]. }
    subst log. rewrite polls_app, Hlog2.
    destruct Hvars as [-> | Hvars]; [cbn; lia | lia].
Qed.

Lemma translation_takes_seven_to_eighty_polls_witness :
  exists log t,
    DeepL.wait_for_translation "hello" (Sample.streaming [] "Hallo") = (log, Ok t)
    /\ (7 <= polls log)%nat.
Proof.
  destruct (DeepL.wait_for_translation "hello" (Sample.streaming [] "Hallo"))
    as [log [t | e]] eqn:Hrun; [| vm_compute in Hrun; discriminate Hrun].
  exists log, t. split; [reflexivity |].
  exact (proj2 (translation_takes_seven_to_eighty_polls
                  "hello" (Sample.streaming [] "Hallo")) log t Hrun).
Defined.

(** ** The encyclopedia recipe *)



Section WikipediaSearch.
Variables (page : Page.t) (params : gmap string string) (c p : Z).

Let query := Py.strip (Py.or_empty (params !! "query")).

Hypothesis Hquery : query <> EmptyString.
Hypothesis Hcount : Py.int (default "20" (params !! "count")) = Some c.
Hypothesis Hpage : Py.int (default "1" (params !! "page")) = Some p.
Hypothesis Hgoto : forall url, Page.goto page url = Ok tt.




End WikipediaSearch.




Section WikipediaArticle.
Variables (page : Page.t) (params : gmap string string).

Let query := Py.strip (Py.or_empty (params !! "query")).

Hypothesis Hquery : query <> EmptyString.
Hypothesis Hgoto : forall url, Page.goto page url = Ok tt.

(** X14: when the missing-article marker is on the page, the article
    endpoint raises an error that names the stripped query, and the test
    for the marker is its last call on the page: nothing is extracted. *)
Theorem wikipedia_missing_article_is_an_error (marker : Element.t) :
  Page.query_selector page ".noarticletext" = Ok (Some marker) ->
  exists url, Wikipedia.scrape "article" page params
              = ([Goto url; QuerySelector ".noarticletext"],
                 Raise (RuntimeError ("Wikipedia article not found: " +:+ query))).
Proof.
  intros Hmarker. eexists.
  change (Wikipedia.scrape "article" page params) with (Wikipedia._article page params).
  unfold Wikipedia._article. apply is_empty_false in Hquery. fold query. rewrite Hquery.
  cbv zeta. rewrite Hgoto, Hmarker. reflexivity.
Qed.

End WikipediaArticle.

Lemma wikipedia_missing_article_is_an_error_witness :
  exists url, Wikipedia.scrape "article" Sample.missing_article_page
                               (<["query" := "Qwxz"]> ∅)
              = ([Goto url; QuerySelector ".noarticletext"],
                 Raise (RuntimeError "Wikipedia article not found: Qwxz")).
Proof.
  assert (Hq : Py.strip (Py.or_empty ((<["query" := "Qwxz"]> ∅ : gmap string string)
                                        !! "query")) <> EmptyString)
    by (vm_compute; discriminate).
  exact (wikipedia_missing_article_is_an_error
           Sample.missing_article_page (<["query" := "Qwxz"]> ∅) Hq (fun _ => eq_refl)
           (Sample.text "Wikipedia does not have an article with this name.") eq_refl).
Defined.

Lemma search_results_from (results : list Element.t) :
  forall acc : list item,
    snd (for_loop results acc
           (fun found result =>
              r <- try (Wikipedia.search_result result);;
              match r with
              | Ok (Some it) => ret (Next (found ++ [it]))
              | Ok None => ret (Next found)
              | Raise _ => ret (Next found)
              end))
    = Ok (acc ++ flat_map kept_result results).
Proof.
  induction results as [| x results IH]; intros acc.
  - cbn. now rewrite app_nil_r.
  - cbn [for_loop flat_map]. rewrite snd_bind, snd_bind. unfold try. cbn [snd].
    unfold kept_result at 1.
    destruct (snd (Wikipedia.search_result x)) as [[it |] | e];
      cbn [ret snd]; rewrite IH; rewrite <- ?app_assoc; reflexivity.
Qed.

(** X15: once the list of raw results is read, the loop over them
    always returns: a result without a heading link, or one whose
    reading raises, is skipped, and the items are those of the other
    results among the first [count], in page order. *)
Theorem search_results_keep_order (page : Page.t) (count : Z) (results : list Element.t) :
  Page.query_selector_all page ".mw-search-result" = Ok results ->
  snd (Wikipedia._extract_search_results page count)
  = Ok (flat_map kept_result (Py.slice_to results count)).
Proof.
  intros H. unfold Wikipedia._extract_search_results.
  rewrite snd_bind, H. cbn [call snd]. now rewrite search_results_from.
Qed.

Lemma search_results_keep_order_witness :
  snd (Wikipedia._extract_search_results Sample.hits_page 2)
  = Ok (kept_result (Sample.search_hit "Rust (programming language)"
                                       "/wiki/Rust_(programming_language)")).
Proof.
  exact (search_results_keep_order Sample.hits_page 2 _ eq_refl).
Defined.

(** X16: the URL of an item of the encyclopedia search is made from
    the address of the heading link of the result: a site-relative
    address (one that starts with a slash) is put behind the address of
    the site, any other address is kept as it is, and no address at all
    gives the empty text; so the URL never starts with a slash.  The
    title and the snippet are stripped. *)
Theorem search_result_url_is_not_relative
        (result : Element.t) (log : list event) (it : item) :
  Wikipedia.search_result result = (log, Ok (Some it)) ->
  exists heading href title url snippet,
    Element.query_selector result ".mw-search-result-heading a" = Ok (Some heading)
    /\ Element.get_attribute heading "href" = Ok href
    /\ dict_get "title" it = Some (PStr title) /\ Py.strip title = title
    /\ dict_get "url" it = Some (PStr url)
    /\ (forall path, href = Some (String "/" path) ->
                     url = "https://en.wikipedia.org/" +:+ path)
    /\ (forall address, href = Some address -> Py.startswith address "/" = false ->
                        url = address)
    /\ (href = None -> url = EmptyString)
    /\ Py.startswith url "/" = false
    /\ dict_get "snippet" it = Some (PStr snippet) /\ Py.strip snippet = snippet.
Proof.
  intros H. unfold Wikipedia.search_result in H.
  bind_inv H as heading Hheading. destruct heading as [heading |];
    [| apply ret_Ok_inv in H; discriminate].
  injection Hheading as _ Hheading.
  bind_inv H as title Htitle. bind_inv H as href Hhref. injection Hhref as _ Hhref.
  cbv zeta in H.
  bind_inv H as snippet_el Hsel. bind_inv H as snippet Hsnippet.
  bind_inv H as size_el Hsize. bind_inv H as size_info Hinfo.
  assert (Ht : Py.strip title = title).
  { unfold Wikipedia.stripped_text in Htitle. bind_inv Htitle as raw Hraw.
    apply ret_Ok_inv in Htitle. subst title. apply strip_idempotent. }
  assert (Hs : Py.strip snippet = snippet).
  { destruct snippet_el as [el |].
    - unfold Wikipedia.stripped_text in Hsnippet. bind_inv Hsnippet as raw Hraw.
      apply ret_Ok_inv in Hsnippet. subst snippet. apply strip_idempotent.
    - apply ret_Ok_inv in Hsnippet. now subst snippet. }
  pose (url := if Py.startswith (Py.or_empty href) "/"
               then "https://en.wikipedia.org" +:+ Py.or_empty href
               else Py.or_empty href).
  assert (Hu : Py.startswith url "/" = false).
  { unfold url. destruct (Py.startswith (Py.or_empty href) "/") eqn:E;
      [reflexivity | exact E]. }
  assert (Hrel : forall path, href = Some (String "/" path) ->
                              url = "https://en.wikipedia.org/" +:+ path).
  { intros path ->. unfold url. cbn [Py.or_empty].
    replace (Py.startswith (String "/" path) "/") with true; [reflexivity |].
    unfold Py.startswith. cbn [String.prefix].
    destruct (ascii_dec "/" "/"); [now destruct path | contradiction]. }
  assert (Habs : forall address, href = Some address ->
                                 Py.startswith address "/" = false -> url = address).
  { intros address -> E. unfold url. cbn [Py.or_empty]. now rewrite E. }
  assert (Hnone : href = None -> url = EmptyString) by (intros ->; reflexivity).
  exists heading, href, title, url, snippet.
  destruct (Py.is_empty size_info); apply ret_Ok_inv in H; injection H as <-;
    cbn [dict_set dict_get String.eqb Ascii.eqb Bool.eqb];
    repeat split; auto.
Qed.

Lemma search_result_url_is_not_relative_witness :
  exists log it heading title snippet,
    Wikipedia.search_result (Sample.search_hit "Rust" "/wiki/Rust") = (log, Ok (Some it))
    /\ Element.query_selector (Sample.search_hit "Rust" "/wiki/Rust")
                              ".mw-search-result-heading a" = Ok (Some heading)
    /\ Element.get_attribute heading "href" = Ok (Some "/wiki/Rust")
    /\ dict_get "title" it = Some (PStr title) /\ Py.strip title = title
    /\ dict_get "url" it = Some (PStr "https://en.wikipedia.org/wiki/Rust")
    /\ dict_get "snippet" it = Some (PStr snippet) /\ Py.strip snippet = snippet.
Proof.
  destruct (Wikipedia.search_result (Sample.search_hit "Rust" "/wiki/Rust"))
    as [log [[it |] | e]] eqn:Hrun;
    [| vm_compute in Hrun; discriminate Hrun | vm_compute in Hrun; discriminate Hrun].
  destruct (search_result_url_is_not_relative _ log it Hrun)
    as (heading & href & title & url & snippet & Hq & Hh & Ht1 & Ht2 & Hu & Hrel & _ & _
        & _ & Hs1 & Hs2).
  vm_compute in Hq. injection Hq as <-. vm_compute in Hh. injection Hh as <-.
  rewrite (Hrel "wiki/Rust" eq_refl) in Hu.
  exists log, it. eexists. exists title, snippet.
  split; [reflexivity |]. split; [reflexivity |]. split; [reflexivity |]. auto.
Defined.

(** ** The parts of an article *)

(** A loop whose turns keep [I] while it goes on and reach [Q] when it
    breaks ends in [Q]. *)
Lemma for_loop_until {A S} (I Q : S -> Prop) (body : S -> A -> M (flow S)) :
  (forall s x log f, I s -> body s x = (log, Ok f) ->
                     match f with Next s' => I s' | Break s' => Q s' end) ->
  (forall s, I s -> Q s) ->
  forall (l : list A) (s s' : S) (log : list event),
    I s -> for_loop l s body = (log, Ok s') -> Q s'.
Proof.
  intros Hbody Hend l. induction l as [| x l IH]; intros s s' log Hs H.
  - apply ret_Ok_inv in H. subst. auto.
  - cbn [for_loop] in H. bind_inv H as f Hf.
    pose proof (Hbody _ _ _ _ Hs Hf) as Hnext. destruct f as [s1 | s1].
    + exact (IH _ _ _ Hnext H).
    + apply ret_Ok_inv in H. now subst.
Qed.

Lemma stripped_text_is_stripped (el : Element.t) (log : list event) (t : string) :
  Wikipedia.stripped_text el = (log, Ok t) -> Py.strip t = t.
Proof.
  intros H. unfold Wikipedia.stripped_text in H. bind_inv H as raw Hraw.
  apply ret_Ok_inv in H. subst t. apply strip_idempotent.
Qed.

(** X17: the summary of an article is made of at most three paragraphs,
    joined by a blank line; each of them is stripped and at least ten
    characters long. *)
Theorem summary_has_at_most_three_paragraphs
        (page : Page.t) (log : list event) (summary : string) :
  Wikipedia._extract_summary page = (log, Ok summary) ->
  exists paragraphs,
    summary = Py.join (String "010" (String "010" EmptyString)) paragraphs
    /\ (length paragraphs <= 3)%nat
    /\ Forall (fun p => (10 <= Py.len p)%nat /\ Py.strip p = p) paragraphs.
Proof.
  intros H. unfold Wikipedia._extract_summary in H. cbv zeta in H.
  bind_inv H as els Hels. bind_inv H as paragraphs Hps.
  apply ret_Ok_inv in H. exists paragraphs. split; [now subst |].
  pose (good := Forall (fun p => (10 <= Py.len p)%nat /\ Py.strip p = p)).
  apply (for_loop_until
           (fun ps : list string => (length ps < 3)%nat /\ good ps)
           (fun ps : list string => (length ps <= 3)%nat /\ good ps))
    in Hps; [exact Hps | | intros s [H1 H2]; split; [lia | exact H2]
             | split; [cbn; lia | constructor]].
  intros ps el log' f [Hlen Hgood] Hb. bind_inv Hb as text Htext.
  apply stripped_text_is_stripped in Htext.
  destruct (Py.is_empty text || (Py.len text <? 10)%nat) eqn:E.
  - apply ret_Ok_inv in Hb. subst f. auto.
  - apply orb_false_iff in E as [_ E%Nat.ltb_ge]. cbv zeta in Hb.
    assert (Hnew : good (ps ++ [text])).
    { apply Forall_app. split; [exact Hgood |]. constructor; [auto | constructor]. }
    destruct (3 <=? length (ps ++ [text]))%nat eqn:E3;
      apply ret_Ok_inv in Hb; subst f; (split; [| exact Hnew]).
    + rewrite length_app. cbn [length]. lia.
    + apply Nat.leb_gt in E3. exact E3.
Qed.

Lemma lstrip_length (s : string) : (String.length (Py.lstrip s) <= String.length s)%nat.
Proof.
  destruct (lstrip_suffix s) as [p Hp]. rewrite Hp at 2. rewrite length_append. lia.
Qed.

Lemma collapse_enough (n : nat) :
  forall s, (String.length s <= n)%nat ->
            Re.collapse n s = Re.collapse (String.length s) s.
Proof.
  induction n as [n IH] using lt_wf_ind. intros s Hn.
  destruct s as [| c s].
  - destruct n; [reflexivity |]. cbn [Re.collapse]. now rewrite after_space_empty.
  - destruct n as [| n]; [simpl in Hn; lia |].
    cbn [Re.collapse String.length]. simpl in Hn.
    destruct (Py.after_space (String c s)) as [r |] eqn:E.
    + apply after_space_shorter in E. simpl in E.
      pose proof (lstrip_length r).
      rewrite (IH n) by lia. rewrite (IH (String.length s)) by lia. reflexivity.
    + rewrite (IH n) by lia. reflexivity.
Qed.

Lemma collapse_unfold (s : string) :
  Re.collapse_whitespace s
  = match Py.after_space s with
    | Some r => String " " (Re.collapse_whitespace (Py.lstrip r))
    | None => match s with
              | String c s' => String c (Re.collapse_whitespace s')
              | EmptyString => EmptyString
              end
    end.
Proof.
  unfold Re.collapse_whitespace. destruct s as [| c s].
  - now rewrite after_space_empty.
  - cbn [Re.collapse String.length].
    destruct (Py.after_space (String c s)) as [r |] eqn:E; [| reflexivity].
    apply after_space_shorter in E. simpl in E. pose proof (lstrip_length r).
    rewrite collapse_enough by lia. reflexivity.
Qed.

Lemma collapse_not_empty (s : string) :
  s <> EmptyString -> Re.collapse_whitespace s <> EmptyString.
Proof.
  intros Hne. rewrite collapse_unfold.
  destruct (Py.after_space s); [discriminate |]. destruct s; [contradiction | discriminate].
Qed.

Lemma contains_space_cons (b : ascii) (w : string) :
  Py.contains " " (String b w) = false -> b <> " "%char /\ Py.contains " " w = false.
Proof.
  cbn [Py.contains String.prefix]. destruct (ascii_dec " " b) as [<- | Hb].
  - now destruct w.
  - intros H. split; [congruence | exact H].
Qed.

(** Bytes of the collapsed text that are no space are bytes of the
    text. *)
Lemma collapse_copy (w : string) :
  forall s a, Py.contains " " w = false ->
              Re.collapse_whitespace s = w +:+ a ->
              exists a', s = w +:+ a'.
Proof.
  induction w as [| b w IH]; intros s a Hw Hs; [now exists s |].
  apply contains_space_cons in Hw as [Hb Hw].
  rewrite collapse_unfold, append_cons in Hs.
  destruct (Py.after_space s) as [r |]; [injection Hs as <- _; contradiction |].
  destruct s as [| c s]; [discriminate |].
  injection Hs as -> Hs. destruct (IH s a Hw Hs) as [a' ->]. now exists a'.
Qed.

(** A byte that starts no white space in the text starts none in the
    collapsed text. *)
Lemma collapse_no_new_space (c : ascii) (s : string) :
  Py.after_space (String c s) = None ->
  Py.after_space (String c (Re.collapse_whitespace s)) = None.
Proof.
  intros H. destruct (Py.after_space (String c (Re.collapse_whitespace s))) as [a |] eqn:E;
    [| reflexivity].
  apply after_space_Some in E as (w & Hin & Hw).
  destruct (spaces_facts w Hin) as (Hne & _ & _ & Htail).
  destruct w as [| c' w]; [contradiction |].
  rewrite append_cons in Hw. injection Hw as <- Hw.
  destruct (collapse_copy w s a (Htail c w eq_refl) Hw) as [a' ->].
  exfalso. apply (after_any_In Py.spaces (String c w) a' Hin). exact H.
Qed.

Lemma lstrip_blank_rstrip (r : string) :
  Py.lstrip r = EmptyString -> Py.rstrip r = EmptyString.
Proof.
  induction r as [r IH] using string_length_ind.
  rewrite lstrip_unfold. destruct (Py.after_space r) as [r' |] eqn:E.
  - intros H. pose proof (after_space_shorter _ _ E) as Hlen.
    apply after_space_Some in E as (w & Hin & ->).
    rewrite rstrip_app_blank by now apply IH.
    now destruct (spaces_facts w Hin) as (_ & Hw & _).
  - now intros ->.
Qed.

(** Where white space stands in the collapsed form of a text that does
    not end with white space. *)
Lemma collapse_spaces (s : string) :
  Py.rstrip s = s ->
  forall before from_space after,
    Re.collapse_whitespace s = before +:+ from_space ->
    Py.after_space from_space = Some after ->
    from_space = String " " after
    /\ after <> EmptyString
    /\ Py.after_space after = None
    /\ (before = EmptyString -> Py.after_space s <> None).
Proof.
  induction s as [s IH] using string_length_ind.
  intros Hr before from_space after Hdec Hsp. rewrite collapse_unfold in Hdec.
  destruct (Py.after_space s) as [r |] eqn:E.
  - pose proof (after_space_shorter _ _ E) as Hlen. pose proof (lstrip_length r) as Hlen'.
    assert (Ht : Py.rstrip (Py.lstrip r) = Py.lstrip r).
    { apply after_space_Some in E as (w & _ & Hs).
      destruct (lstrip_suffix r) as [p Hp].
      apply (rstrip_suffix_closed (w +:+ p)). rewrite append_assoc, <- Hp, <- Hs. exact Hr. }
    assert (Hne : Py.lstrip r <> EmptyString).
    { intros Hb. apply lstrip_blank_rstrip in Hb.
      pose proof E as E'. apply after_space_Some in E' as (w & Hin & Hs).
      destruct (spaces_facts w Hin) as (Hwne & Hw & _).
      rewrite Hs, (rstrip_app_blank w r Hb), Hw in Hr.
      destruct w; [contradiction | rewrite append_cons in Hr; discriminate Hr]. }
    destruct before as [| b before].
    + change (EmptyString +:+ from_space) with from_space in Hdec. subst from_space.
      rewrite after_space_space in Hsp. injection Hsp as <-.
      split; [reflexivity |]. split; [now apply collapse_not_empty |].
      split; [| discriminate].
      destruct (Py.after_space (Re.collapse_whitespace (Py.lstrip r))) as [a |] eqn:Ea;
        [| reflexivity].
      destruct (IH (Py.lstrip r) ltac:(lia) Ht EmptyString _ a eq_refl Ea)
        as (_ & _ & _ & H).
      exfalso. apply H; [reflexivity | apply lstrip_no_space].
    + rewrite append_cons in Hdec. injection Hdec as _ Hdec.
      destruct (IH (Py.lstrip r) ltac:(lia) Ht before from_space after Hdec Hsp)
        as (H1 & H2 & H3 & _).
      repeat split; auto; discriminate.
  - destruct s as [| c s].
    + destruct before; [| discriminate Hdec].
      change (EmptyString +:+ from_space) with from_space in Hdec. subst from_space.
      rewrite after_space_empty in Hsp. discriminate Hsp.
    + assert (Ht : Py.rstrip s = s)
        by (apply (rstrip_suffix_closed (String c EmptyString)); exact Hr).
      destruct before as [| b before].
      * change (EmptyString +:+ from_space) with from_space in Hdec. subst from_space.
        rewrite (collapse_no_new_space c s E) in Hsp. discriminate Hsp.
      * rewrite append_cons in Hdec. injection Hdec as _ Hdec.
        destruct (IH s ltac:(simpl; lia) Ht before from_space after Hdec Hsp)
          as (H1 & H2 & H3 & _).
        repeat split; auto; discriminate.
Qed.

(** A text whose white space is single inner spaces is stripped. *)
Lemma inner_spaces_stripped (v : string) : single_inner_spaces v -> Py.strip v = v.
Proof.
  intros Hin. apply strip_fixed.
  - destruct (Py.after_space v) as [a |] eqn:E; [| reflexivity].
    destruct (Hin EmptyString v a eq_refl E) as (H & _). contradiction.
  - apply rstrip_fixed. intros p w -> Hw.
    pose proof (after_any_In Py.spaces w EmptyString Hw) as Hsome.
    rewrite append_nil_r, after_space_eq in Hsome.
    destruct (Py.after_space w) as [a |] eqn:E; [| contradiction].
    destruct (Hin p w a eq_refl E) as (_ & -> & Ha & _).
    destruct (spaces_facts _ Hw) as (_ & _ & H & _). now apply Ha, H.
Qed.

(** The collapsed form of a stripped text. *)
Lemma collapse_of_stripped (s : string) :
  Py.strip s = s -> s <> EmptyString ->
  Re.collapse_whitespace s <> EmptyString
  /\ Py.strip (Re.collapse_whitespace s) = Re.collapse_whitespace s
  /\ single_inner_spaces (Re.collapse_whitespace s).
Proof.
  intros Hs Hne.
  assert (Hin : single_inner_spaces (Re.collapse_whitespace s)).
  { intros before from_space after Hdec Hsp.
    destruct (collapse_spaces s (strip_rstrip_fixed s Hs) before from_space after Hdec Hsp)
      as (H1 & H2 & H3 & H4).
    repeat split; auto. intros ->. now apply H4, strip_no_space_start. }
  split; [now apply collapse_not_empty |]. split; [now apply inner_spaces_stripped | exact Hin].
Qed.

(** X18: the keys of an extracted info box are distinct, stripped and
    not empty, and every value is a text that is not empty and stripped,
    in which white space occurs only as single inner spaces: every
    white-space character of it is a space with text before it and text
    that is not white space right after it. *)
Theorem infobox_values_are_single_spaced
        (page : Page.t) (log : list event) (infobox : list (string * pyval)) :
  Wikipedia._extract_infobox page = (log, Ok infobox) ->
  List.NoDup (map fst infobox)
  /\ Forall (fun kv => fst kv <> EmptyString /\ Py.strip (fst kv) = fst kv
                       /\ exists v, snd kv = PStr v /\ v <> EmptyString
                                    /\ Py.strip v = v
                                    /\ single_inner_spaces v) infobox.
Proof.
  intros H. unfold Wikipedia._extract_infobox in H. cbv zeta in H.
  bind_inv H as table Htable. destruct table as [table |].
  2: { apply ret_Ok_inv in H. subst infobox. split; constructor. }
  bind_inv H as rows Hrows.
  apply (for_loop_invariant
           (fun _ (box : list (string * pyval)) =>
              List.NoDup (map fst box)
              /\ Forall (fun kv => fst kv <> EmptyString /\ Py.strip (fst kv) = fst kv
                                   /\ exists v, snd kv = PStr v /\ v <> EmptyString
                                                /\ Py.strip v = v
                                                /\ single_inner_spaces v) box))
    with (k := 0%nat) in H; [exact H | | auto | split; constructor].
  intros k box row log' f [Hk Hv] Hb.
  bind_inv Hb as header Hheader. bind_inv Hb as data Hdata.
  destruct header as [header |], data as [data |];
    try (apply ret_Ok_inv in Hb; subst f; now split).
  bind_inv Hb as key Hkey. bind_inv Hb as val Hval.
  apply stripped_text_is_stripped in Hkey, Hval.
  destruct (Py.is_empty key) eqn:Ek; [apply ret_Ok_inv in Hb; subst f; now split |].
  destruct (Py.is_empty val) eqn:Ev; cbn [orb] in Hb;
    apply ret_Ok_inv in Hb; subst f; cbn [flow_state]; [now split |].
  apply is_empty_false in Ek, Ev. split; [now apply dict_set_NoDup |].
  apply dict_set_Forall; [exact Hv |]. cbn [fst snd].
  split; [exact Ek |]. split; [exact Hkey |].
  exists (Re.collapse_whitespace val). split; [reflexivity |].
  now apply collapse_of_stripped.
Qed.

Lemma texts_of_entries (els : list Element.t) (log : list event) (texts : list pyval) :
  Wikipedia.texts_of els = (log, Ok texts) ->
  Forall is_text_entry texts /\ (length texts <= length els)%nat.
Proof.
  intros H. unfold Wikipedia.texts_of in H.
  apply (for_loop_invariant
           (fun k (ts : list pyval) => Forall is_text_entry ts /\ (length ts <= k)%nat))
    with (k := 0%nat) in H; [exact H | | | split; [constructor | cbn; lia]].
  - intros k ts el log' f [Hts Hlen] Hb. bind_inv Hb as text Htext.
    apply stripped_text_is_stripped in Htext.
    destruct (Py.is_empty text) eqn:E; apply ret_Ok_inv in Hb; subst f; cbn [flow_state].
    + split; [exact Hts | lia].
    + split; [| rewrite length_app; cbn [length]; lia].
      apply Forall_app. split; [exact Hts |]. constructor; [| constructor].
      exists text. split; [reflexivity |]. split; [now apply is_empty_false | exact Htext].
  - intros k ts [H1 H2]. split; [exact H1 | lia].
Qed.

(** X19: the table of contents and the categories of an article are
    lists of texts that are stripped and not empty: an entry without
    text is left out. *)
Theorem toc_and_categories_are_texts (page : Page.t) :
  (forall log toc, Wikipedia._extract_toc page = (log, Ok toc) ->
                   Forall is_text_entry toc)
  /\ (forall log categories,
         Wikipedia._extract_categories page = (log, Ok categories) ->
         Forall is_text_entry categories).
Proof.
  split; intros log texts H;
    [unfold Wikipedia._extract_toc in H | unfold Wikipedia._extract_categories in H];
    cbv zeta in H; bind_inv H as els Hels; now apply texts_of_entries in H as [H _].
Qed.


Lemma summary_has_at_most_three_paragraphs_witness :
  exists log summary paragraphs,
    Wikipedia._extract_summary Sample.full_article = (log, Ok summary)
    /\ summary = Py.join (String "010" (String "010" EmptyString)) paragraphs
    /\ (length paragraphs <= 3)%nat
    /\ Forall (fun p => (10 <= Py.len p)%nat /\ Py.strip p = p) paragraphs.
Proof.
  destruct (Wikipedia._extract_summary Sample.full_article)
    as [log [summary | e]] eqn:Hrun; [| vm_compute in Hrun; discriminate Hrun].
  destruct (summary_has_at_most_three_paragraphs _ log summary Hrun) as (ps & H).
  exists log, summary, ps. split; [reflexivity | exact H].
Defined.

Lemma infobox_values_are_single_spaced_witness :
  exists log infobox,
    Wikipedia._extract_infobox Sample.full_article = (log, Ok infobox)
    /\ dict_get "Paradigm" infobox = Some (PStr "Multi-paradigm: concurrent")
    /\ List.NoDup (map fst infobox)
    /\ Forall (fun kv => fst kv <> EmptyString /\ Py.strip (fst kv) = fst kv
                         /\ exists v, snd kv = PStr v /\ v <> EmptyString
                                      /\ Py.strip v = v
                                      /\ single_inner_spaces v) infobox.
Proof.
  destruct (Wikipedia._extract_infobox Sample.full_article)
    as [log [infobox | e]] eqn:Hrun; [| vm_compute in Hrun; discriminate Hrun].
  exists log, infobox. split; [reflexivity |]. split.
  - apply snd_pair_inv in Hrun. vm_compute in Hrun. injection Hrun as <-. reflexivity.
  - exact (infobox_values_are_single_spaced _ log infobox Hrun).
Defined.

Lemma toc_and_categories_are_texts_witness :
  (exists log toc, Wikipedia._extract_toc Sample.article_page = (log, Ok toc)
                   /\ Forall is_text_entry toc)
  /\ (exists log categories,
         Wikipedia._extract_categories Sample.full_article = (log, Ok categories)
         /\ Forall is_text_entry categories).
Proof.
  split.
  - destruct (Wikipedia._extract_toc Sample.article_page)
      as [log [toc | e]] eqn:Hrun; [| vm_compute in Hrun; discriminate Hrun].
    exists log, toc. split; [reflexivity |].
    exact (proj1 (toc_and_categories_are_texts Sample.article_page) log toc Hrun).
  - destruct (Wikipedia._extract_categories Sample.full_article)
      as [log [cats | e]] eqn:Hrun; [| vm_compute in Hrun; discriminate Hrun].
    exists log, cats. split; [reflexivity |].
    exact (proj2 (toc_and_categories_are_texts Sample.full_article) log cats Hrun).
Defined.




(** ** The social-timeline recipe *)

Lemma silent_bind {A B} (m : M A) (f : A -> M B) :
  fst m = [] -> (forall a, fst (f a) = []) -> fst (bind m f) = [].
Proof.
  intros Hm Hf. rewrite fst_bind. destruct (snd m) as [a | e]; [| exact Hm].
  now rewrite Hm, Hf.
Qed.

Lemma for_loop_silent {A S} (body : S -> A -> M (flow S)) :
  (forall s x, fst (body s x) = []) ->
  forall (l : list A) (s : S), fst (for_loop l s body) = [].
Proof.
  intros Hbody l. induction l as [| x l IH]; intros s; [reflexivity |].
  cbn [for_loop]. apply silent_bind; [apply Hbody |].
  intros [s1 | s1]; [apply IH | reflexivity].
Qed.

Lemma as_dict_silent (v : pyval) : fst (X.as_dict v) = [].
Proof. destruct v; reflexivity. Qed.

Lemma tweet_item_silent (env : X.Env) (username : string) (tweet : pyval) :
  fst (X.tweet_item env username tweet) = [].
Proof.
  unfold X.tweet_item.
  apply silent_bind; [apply as_dict_silent |]. intros tw.
  apply silent_bind; [apply as_dict_silent |]. intros author. cbv zeta.
  apply silent_bind; [apply as_dict_silent |]. intros author'.
  apply silent_bind; [| intros b; reflexivity].
  destruct (X.get tw "text" (PStr EmptyString)); reflexivity.
Qed.

Lemma value_of_silent (line : string) : fst (X.value_of line) = [].
Proof. unfold X.value_of. destruct (Py.after_first "=" line); reflexivity. Qed.

(** [_load_auth] reads the file at most once and calls nothing else. *)
Lemma load_auth_log (env : X.Env) :
  fst (X._load_auth env) = [] \/ fst (X._load_auth env) = [ReadAuthFile].
Proof.
  unfold X._load_auth. cbv zeta.
  destruct (negb (Py.is_empty (X._AUTH_TOKEN env)) && negb (Py.is_empty (X._CT0 env)));
    [now left |].
  right. rewrite fst_bind. unfold call at 1 2. cbn [fst snd].
  destruct (X.bird_auth env) as [file |]; [| reflexivity].
  replace [ReadAuthFile] with ([ReadAuthFile] ++ []) at 2 by reflexivity. f_equal.
  apply silent_bind.
  - destruct file as [lines |]; [| reflexivity].
    apply for_loop_silent. intros [a t] line. cbv zeta.
    destruct (Py.startswith _ _).
    + apply silent_bind; [apply value_of_silent | reflexivity].
    + destruct (Py.startswith _ _); [| reflexivity].
      apply silent_bind; [apply value_of_silent | reflexivity].
  - intros [a t]. destruct (_ || _); reflexivity.
Qed.

(** Credentials that [_load_auth] returns are never empty. *)
Lemma load_auth_tokens (env : X.Env) (log : list event) (auth_token ct0 : string) :
  X._load_auth env = (log, Ok (auth_token, ct0)) ->
  auth_token <> EmptyString /\ ct0 <> EmptyString.
Proof.
  unfold X._load_auth. cbv zeta.
  destruct (negb (Py.is_empty (X._AUTH_TOKEN env)) && negb (Py.is_empty (X._CT0 env)))
    eqn:E.
  - intros [_ [= <- <-]]%ret_Ok_inv_log. apply andb_prop in E as [E1 E2].
    apply negb_true_iff in E1, E2. split; now apply is_empty_false.
  - intros H. bind_inv H as file Hfile. bind_inv H as tokens Htokens.
    destruct tokens as [a t].
    destruct (Py.is_empty a || Py.is_empty t) eqn:E2; [now apply raise_Ok_inv in H |].
    apply ret_Ok_inv in H. injection H as <- <-.
    apply orb_false_iff in E2 as [E1 E2]. split; now apply is_empty_false.
Qed.

Lemma count_subprocess_load_auth (env : X.Env) :
  count_events is_subprocess (fst (X._load_auth env)) = 0%nat
  /\ forall cmd, ~ In (Subprocess cmd) (fst (X._load_auth env)).
Proof.
  destruct (load_auth_log env) as [-> | ->]; split; try reflexivity.
  - intros cmd [].
  - intros cmd [[=] | []].
Qed.

(** The log of a [scrape] that got its parameters and its credentials:
    what [_load_auth] logged, then the one run of the tool. *)
Lemma x_scrape_log (env : X.Env) (endpoint : string) (page : Page.t)
      (params : gmap string string) (c : Z) (alog : list event)
      (auth_token ct0 : string) :
  username_of params <> EmptyString ->
  Py.int (default "10" (params !! "count")) = Some c ->
  X._load_auth env = (alog, Ok (auth_token, ct0)) ->
  fst (X.scrape env endpoint page params)
  = alog ++ [Subprocess (bird_command (username_of params) (Z.min c 50) auth_token ct0)].
Proof.
  intros Hu Hc Hauth. unfold X.scrape. fold (username_of params).
  destruct (Py.is_empty (username_of params)) eqn:Eu.
  { apply is_empty_true in Eu. contradiction. }
  unfold int. rewrite Hc, bind_ret_l. cbv zeta.
  rewrite fst_bind, Hauth. cbn [fst snd]. f_equal.
  fold (bird_command (username_of params) (Z.min c 50) auth_token ct0).
  rewrite fst_bind. unfold call. cbn [fst snd].
  destruct (X.bird env _) as [[[returncode stdout] stderr] | e]; [| reflexivity].
  match goal with
  | |- _ ++ fst ?m = _ => replace (fst m) with (@nil event); [reflexivity | symmetry]
  end.
  destruct (negb _); [destruct (_ || _); reflexivity |].
  destruct (_ =? -1); [reflexivity |].
  apply silent_bind; [reflexivity |]. intros tweets_data.
  destruct tweets_data; try reflexivity.
  apply silent_bind; [| reflexivity].
  apply for_loop_silent. intros found tweet.
  apply silent_bind; [apply tweet_item_silent | reflexivity].
Qed.

(** X22: the tool is run at most once in a [scrape], and only with a
    user name and two credentials that are not empty and with the count
    clamped to 50; the credentials file is read at most once, and
    [scrape] makes no other call: every event of its log is that read or
    that run. *)
Theorem bird_runs_once_with_credentials
        (env : X.Env) (endpoint : string) (page : Page.t) (params : gmap string string) :
  (count_events is_subprocess (fst (X.scrape env endpoint page params)) <= 1)%nat
  /\ (forall cmd, In (Subprocess cmd) (fst (X.scrape env endpoint page params)) ->
        exists c auth_token ct0,
          Py.int (default "10" (params !! "count")) = Some c
          /\ cmd = bird_command (username_of params) (Z.min c 50) auth_token ct0
          /\ username_of params <> EmptyString
          /\ auth_token <> EmptyString /\ ct0 <> EmptyString)
  /\ (count_events is_auth_read (fst (X.scrape env endpoint page params)) <= 1)%nat
  /\ Forall (fun e => e = ReadAuthFile \/ exists cmd, e = Subprocess cmd)
            (fst (X.scrape env endpoint page params)).
Proof.
  destruct (Py.is_empty (username_of params)) eqn:Eu.
  { unfold X.scrape. fold (username_of params). rewrite Eu.
    split; [cbn; lia |]. split; [intros cmd [] |]. split; [cbn; lia | constructor]. }
  destruct (Py.int (default "10" (params !! "count"))) as [c |] eqn:Ec.
  2: { unfold X.scrape, int. fold (username_of params). rewrite Eu, Ec.
       split; [cbn; lia |]. split; [intros cmd [] |]. split; [cbn; lia | constructor]. }
  apply is_empty_false in Eu.
  destruct (count_subprocess_load_auth env) as [Hzero Hnone].
  assert (Hreads : (count_events is_auth_read (fst (X._load_auth env)) <= 1)%nat
                   /\ Forall (fun e => e = ReadAuthFile \/ exists cmd, e = Subprocess cmd)
                             (fst (X._load_auth env))).
  { destruct (load_auth_log env) as [-> | ->];
      (split; [cbn; lia | repeat constructor]). }
  destruct Hreads as [Hone Hall].
  destruct (X._load_auth env) as [alog [[auth_token ct0] | e]] eqn:Hauth; cbn [fst] in *.
  - rewrite (x_scrape_log env endpoint page params c alog auth_token ct0 Eu Ec Hauth).
    apply load_auth_tokens in Hauth as [Ha Ht].
    rewrite !count_events_app, Hzero. split; [cbn; lia |]. split; [| split].
    + intros cmd [Hin | [[= <-] | []]]%in_app_or; [now apply Hnone in Hin |].
      exists c, auth_token, ct0. auto.
    + cbn. lia.
    + apply Forall_app. split; [exact Hall |]. constructor; [eauto | constructor].
  - assert (Hlog : fst (X.scrape env endpoint page params) = alog).
    { unfold X.scrape. fold (username_of params).
      destruct (Py.is_empty (username_of params)) eqn:Eu'.
      { apply is_empty_true in Eu'. contradiction. }
      unfold int. rewrite Ec, bind_ret_l. cbv zeta.
      rewrite fst_bind, Hauth. reflexivity. }
    rewrite Hlog, Hzero. split; [lia |]. split; [| split; assumption].
    intros cmd Hin. now apply Hnone in Hin.
Qed.

Lemma bird_runs_once_with_credentials_witness :
  exists c auth_token ct0,
    Py.int (default "10" ((<["query" := "@jack"]> ∅ : gmap string string) !! "count"))
    = Some c
    /\ bird_command "jack" 10 "token" "ct0"
       = bird_command (username_of (<["query" := "@jack"]> ∅)) (Z.min c 50) auth_token ct0
    /\ username_of (<["query" := "@jack"]> ∅) <> EmptyString
    /\ auth_token <> EmptyString /\ ct0 <> EmptyString.
Proof.
  apply (proj1 (proj2 (bird_runs_once_with_credentials
                         Sample.timeline "posts" Sample.blank (<["query" := "@jack"]> ∅)))).
  vm_compute. left. reflexivity.
Defined.

(** With the credentials in the file, the file is read once and the
    tool is run with what it holds. *)
Example credentials_from_the_file :
  fst (X.scrape (Sample.anonymous (Some ["# bird"; "AUTH_TOKEN=a"; " CT0=b=c "])) "posts"
                Sample.blank (<["query" := "jack"]> ∅))
  = [ReadAuthFile; Subprocess (bird_command "jack" 10 "a" "b=c")].
Proof. vm_compute. reflexivity. Qed.

Lemma for_loop_no_credential (a t : string) (lines : list string) :
  forallb sets_no_credential lines = true ->
  for_loop lines (a, t) (fun tokens line =>
    let '(auth_token, ct0) := tokens in
    let line := Py.strip line in
    if Py.startswith line "AUTH_TOKEN="
    then v <- X.value_of line;; ret (Next (v, ct0))
    else if Py.startswith line "CT0="
    then v <- X.value_of line;; ret (Next (auth_token, v))
    else ret (Next (auth_token, ct0)))
  = ret (a, t).
Proof.
  induction lines as [| line lines IH]; intros H; [reflexivity |].
  cbn [forallb] in H. apply andb_prop in H as [Hline Hrest].
  unfold sets_no_credential in Hline. apply andb_prop in Hline as [H1 H2].
  apply negb_true_iff in H1, H2.
  cbn [for_loop]. cbv zeta. rewrite H1, H2, bind_ret_l. now apply IH.
Qed.

(** X23: with a credential missing from the environment and none set by
    the credentials file (there is no file, or none of its lines starts
    with AUTH_TOKEN= or CT0=), [scrape] raises the missing-credentials
    error after reading that file, and the tool is not run. *)
Theorem missing_credentials_stop_before_the_tool
        (env : X.Env) (endpoint : string) (page : Page.t) (params : gmap string string)
        (c : Z) (file : option (list string)) :
  username_of params <> EmptyString ->
  Py.int (default "10" (params !! "count")) = Some c ->
  X._AUTH_TOKEN env = EmptyString \/ X._CT0 env = EmptyString ->
  X.bird_auth env = Ok file ->
  (forall lines, file = Some lines -> forallb sets_no_credential lines = true) ->
  X.scrape env endpoint page params = ([ReadAuthFile], Raise X.missing_credentials).
Proof.
  intros Hu Hc Hmissing Hfile Hlines.
  assert (Hauth : X._load_auth env = ([ReadAuthFile], Raise X.missing_credentials)).
  { unfold X._load_auth. cbv zeta.
    assert (Hcond : negb (Py.is_empty (X._AUTH_TOKEN env))
                    && negb (Py.is_empty (X._CT0 env)) = false).
    { destruct Hmissing as [-> | ->]; [reflexivity | apply andb_false_r]. }
    assert (Hend : Py.is_empty (X._AUTH_TOKEN env) || Py.is_empty (X._CT0 env) = true).
    { destruct Hmissing as [-> | ->]; [reflexivity | apply orb_true_r]. }
    rewrite Hcond, Hfile, bind_call_Ok.
    destruct file as [lines |].
    - rewrite (for_loop_no_credential _ _ lines (Hlines lines eq_refl)).
      rewrite bind_ret_l, Hend. reflexivity.
    - rewrite bind_ret_l, Hend. reflexivity. }
  unfold X.scrape. fold (username_of params).
  apply is_empty_false in Hu. rewrite Hu. unfold int. rewrite Hc, bind_ret_l.
  cbv zeta. rewrite Hauth. reflexivity.
Qed.

Lemma missing_credentials_stop_before_the_tool_witness :
  X.scrape (Sample.anonymous (Some ["# no credentials yet"; "USER=jack"])) "posts"
           Sample.blank (<["query" := "jack"]> ∅)
  = ([ReadAuthFile], Raise X.missing_credentials).
Proof.
  assert (Hu : username_of (<["query" := "jack"]> ∅) <> EmptyString)
    by (vm_compute; discriminate).
  assert (Hc : Py.int (default "10" ((<["query" := "jack"]> ∅ : gmap string string)
                                       !! "count")) = Some 10)
    by (vm_compute; reflexivity).
  refine (missing_credentials_stop_before_the_tool
            (Sample.anonymous (Some ["# no credentials yet"; "USER=jack"])) "posts"
            Sample.blank (<["query" := "jack"]> ∅) 10
            (Some ["# no credentials yet"; "USER=jack"]) Hu Hc
            (or_introl eq_refl) eq_refl _).
  intros lines [= <-]. vm_compute. reflexivity.
Defined.

Lemma contains_any_case (needle text before word after : string) :
  text = before +:+ word +:+ after -> Py.lower word = needle ->
  Py.contains needle (Py.lower text) = true.
Proof.
  intros -> Hw. rewrite !lower_app, Hw. apply contains_app.
Qed.

(** X24: when the tool exits with a code other than 0 and its error
    output, stripped, holds the words not found in any letter case,
    [scrape] raises the account-not-found error that names the user;
    the standard output is not parsed. *)
Theorem not_found_in_any_case_is_account_not_found
        (env : X.Env) (endpoint : string) (page : Page.t) (params : gmap string string)
        (c : Z) (alog : list event) (auth_token ct0 : string)
        (returncode : Z) (stdout stderr before word after : string) :
  username_of params <> EmptyString ->
  Py.int (default "10" (params !! "count")) = Some c ->
  X._load_auth env = (alog, Ok (auth_token, ct0)) ->
  X.bird env (bird_command (username_of params) (Z.min c 50) auth_token ct0)
  = Ok (returncode, stdout, stderr) ->
  returncode <> 0 ->
  Py.strip stderr = before +:+ word +:+ after ->
  Py.lower word = "not found" ->
  X.scrape env endpoint page params
  = (alog ++ [Subprocess (bird_command (username_of params) (Z.min c 50) auth_token ct0)],
     Raise (X.account_not_found (username_of params))).
Proof.
  intros Hu Hc Hauth Hbird Hcode Hshape Hword.
  pose proof (x_scrape_log env endpoint page params c alog auth_token ct0 Hu Hc Hauth)
    as Hlog.
  rewrite (surjective_pairing (X.scrape env endpoint page params)), Hlog. f_equal.
  unfold X.scrape. fold (username_of params).
  apply is_empty_false in Hu. rewrite Hu. unfold int. rewrite Hc, bind_ret_l.
  cbv zeta. rewrite Hauth. unfold bind at 1.
  fold (bird_command (username_of params) (Z.min c 50) auth_token ct0).
  rewrite Hbird, bind_call_Ok. cbn [snd].
  apply Z.eqb_neq in Hcode. rewrite Hcode. cbn [negb].
  rewrite (contains_any_case "not found" _ _ _ _ Hshape Hword), orb_true_r.
  reflexivity.
Qed.

Lemma not_found_in_any_case_is_account_not_found_witness :
  X.scrape (Sample.failing 1 "Error: User Not Found ") "posts" Sample.blank
           (<["query" := "@nobody"]> ∅)
  = ([Subprocess (bird_command "nobody" 10 "token" "ct0")],
     Raise (X.account_not_found "nobody")).
Proof.
  assert (Hu : username_of (<["query" := "@nobody"]> ∅) <> EmptyString)
    by (vm_compute; discriminate).
  assert (Hc : Py.int (default "10" ((<["query" := "@nobody"]> ∅ : gmap string string)
                                       !! "count")) = Some 10)
    by (vm_compute; reflexivity).
  assert (Hcode : (1 : Z) <> 0) by discriminate.
  exact (not_found_in_any_case_is_account_not_found
           (Sample.failing 1 "Error: User Not Found ") "posts" Sample.blank
           (<["query" := "@nobody"]> ∅) 10 [] "token" "ct0" 1 EmptyString
           "Error: User Not Found " "Error: User " "Not Found" EmptyString
           Hu Hc eq_refl eq_refl Hcode eq_refl eq_refl).
Defined.

Lemma find_char_lower (ch : ascii) (s : string) : -1 <= Py.find_char ch s.
Proof.
  induction s as [| c s IH]; cbn [Py.find_char]; [lia |].
  destruct (Ascii.eqb c ch); [lia |].
  destruct (Py.find_char ch s) as [| p | p]; try lia.
  destruct p; lia.
Qed.

Lemma find_char_app (ch : ascii) (preamble rest : string) :
  Py.find_char ch preamble = -1 ->
  Py.find_char ch (preamble +:+ String ch rest) = Z.of_nat (String.length preamble)
  /\ Py.drop (String.length preamble) (preamble +:+ String ch rest) = String ch rest.
Proof.
  induction preamble as [| c preamble IH]; intros H.
  - change (EmptyString +:+ String ch rest) with (String ch rest).
    cbn [Py.find_char String.length Py.drop]. now rewrite Ascii.eqb_refl.
  - cbn [Py.find_char] in H.
    change (String c preamble +:+ String ch rest)
      with (String c (preamble +:+ String ch rest)).
    cbn [Py.find_char String.length Py.drop].
    destruct (Ascii.eqb c ch); [discriminate H |].
    pose proof (find_char_lower ch preamble) as Hlow.
    assert (E : Py.find_char ch preamble = -1).
    { destruct (Py.find_char ch preamble) as [| p | p]; lia. }
    destruct (IH E) as [-> ->]. split; [| reflexivity].
    destruct (Z.of_nat (String.length preamble)) eqn:En; lia.
Qed.

Lemma for_loop_collect (env : X.Env) (username : string) (tweets : list pyval)
      (its : list item) :
  Forall2 (fun tweet it => snd (X.tweet_item env username tweet) = Ok it) tweets its ->
  forall found,
    for_loop tweets found (fun found tweet =>
      it <- X.tweet_item env username tweet;;
      ret (Next (found ++ [it])))
    = ([], Ok (found ++ its)).
Proof.
  induction 1 as [| tweet it tweets its Hit _ IH]; intros found.
  - cbn [for_loop]. now rewrite app_nil_r.
  - cbn [for_loop].
    rewrite (surjective_pairing (X.tweet_item env username tweet)),
      tweet_item_silent, Hit.
    change (([] : list event, Ok it)) with (ret it). rewrite !bind_ret_l.
    rewrite IH. now rewrite <- app_assoc.
Qed.

(** X25: when the tool exits with 0, what it printed before the first
    opening bracket is skipped: the text from that bracket on is parsed,
    the items are those of the first tweets up to the clamped count, in
    order, the page is 1, and more is announced exactly when the tool
    printed more tweets than that count. *)
Theorem timeline_after_the_preamble
        (env : X.Env) (endpoint : string) (page : Page.t) (params : gmap string string)
        (c : Z) (alog : list event) (auth_token ct0 : string)
        (stdout stderr preamble rest : string) (tweets : list pyval) (its : list item) :
  username_of params <> EmptyString ->
  Py.int (default "10" (params !! "count")) = Some c ->
  X._load_auth env = (alog, Ok (auth_token, ct0)) ->
  X.bird env (bird_command (username_of params) (Z.min c 50) auth_token ct0)
  = Ok (0, stdout, stderr) ->
  Py.strip stdout = preamble +:+ String "[" rest ->
  Py.find_char "[" preamble = -1 ->
  X.json_loads env (String "[" rest) = Ok (PList tweets) ->
  Forall2 (fun tweet it => snd (X.tweet_item env (username_of params) tweet) = Ok it)
          (Py.slice_to tweets (Z.min c 50)) its ->
  X.scrape env endpoint page params
  = (alog ++ [Subprocess (bird_command (username_of params) (Z.min c 50) auth_token ct0)],
     Ok {| items := its; current_page := Some 1;
           has_next := Some (Z.min c 50 <? Z.of_nat (length tweets)) |}).
Proof.
  intros Hu Hc Hauth Hbird Hshape Hpre Hjson Hitems.
  pose proof (x_scrape_log env endpoint page params c alog auth_token ct0 Hu Hc Hauth)
    as Hlog.
  rewrite (surjective_pairing (X.scrape env endpoint page params)), Hlog. f_equal.
  unfold X.scrape. fold (username_of params).
  apply is_empty_false in Hu. rewrite Hu. unfold int. rewrite Hc, bind_ret_l.
  cbv zeta. rewrite Hauth. unfold bind at 1.
  fold (bird_command (username_of params) (Z.min c 50) auth_token ct0).
  rewrite Hbird, bind_call_Ok. cbn [snd].
  cbn [Z.eqb negb]. rewrite Hshape.
  destruct (find_char_app "[" preamble rest Hpre) as [-> Hdrop].
  destruct (Z.of_nat (String.length preamble) =? -1) eqn:E;
    [apply Z.eqb_eq in E; lia |].
  rewrite Nat2Z.id, Hdrop, Hjson. unfold lift, bind at 1.
  rewrite (for_loop_collect env (username_of params) _ its Hitems []).
  reflexivity.
Qed.

Lemma timeline_after_the_preamble_witness :
  X.scrape Sample.chatty "posts" Sample.blank (<["query" := "@jack"]> ∅)
  = X.scrape Sample.timeline "posts" Sample.blank (<["query" := "@jack"]> ∅).
Proof.
  assert (Hu : username_of (<["query" := "@jack"]> ∅) <> EmptyString)
    by (vm_compute; discriminate).
  assert (Hc : Py.int (default "10" ((<["query" := "@jack"]> ∅ : gmap string string)
                                       !! "count")) = Some 10)
    by (vm_compute; reflexivity).
  pose (tws := match Sample.tweets with PList l => l | _ => [] end).
  pose (its := match snd (X.scrape Sample.timeline "posts" Sample.blank
                                   (<["query" := "@jack"]> ∅)) with
               | Ok r => items r
               | Raise _ => []
               end).
  assert (Hitems : Forall2 (fun tweet it =>
                      snd (X.tweet_item Sample.chatty
                             (username_of (<["query" := "@jack"]> ∅)) tweet) = Ok it)
                           (Py.slice_to tws (Z.min 10 50)) its)
    by (vm_compute; repeat constructor).
  rewrite (timeline_after_the_preamble
             Sample.chatty "posts" Sample.blank (<["query" := "@jack"]> ∅) 10 []
             "token" "ct0" ("note: using cached session " +:+ Json.dumps Sample.tweets)
             EmptyString "note: using cached session "
             (Py.drop 1 (Json.dumps Sample.tweets)) tws its
             Hu Hc eq_refl eq_refl eq_refl eq_refl eq_refl Hitems).
  vm_compute. reflexivity.
Defined.

(** X26: the item of a tweet is built exactly when the tweet is an
    object whose author, if it has one, is an object and whose text, if
    it has one, is a string; in every other case the loop stops with an
    attribute error. *)
Theorem tweet_item_needs_objects_and_text
        (env : X.Env) (username : string) (tweet : pyval) :
  ((exists it, snd (X.tweet_item env username tweet) = Ok it)
   <-> exists tw author text,
         tweet = PDict tw
         /\ X.get tw "author" (PDict []) = PDict author
         /\ X.get tw "text" (PStr EmptyString) = PStr text)
  /\ (forall e, snd (X.tweet_item env username tweet) = Raise e -> e = AttributeError).
Proof.
  assert (Hgood : forall tw author text,
             X.get tw "author" (PDict []) = PDict author ->
             X.get tw "text" (PStr EmptyString) = PStr text ->
             exists it, X.tweet_item env username (PDict tw) = ([], Ok it)).
  { intros tw author text Ha Ht. unfold X.tweet_item.
    change (X.as_dict (PDict tw)) with (ret tw). rewrite bind_ret_l, Ha.
    change (X.as_dict (PDict author)) with (ret author). rewrite !bind_ret_l.
    cbv zeta. rewrite Ht.
    change (X.value_startswith (PStr text) "RT @")
      with (ret (Py.startswith text "RT @")).
    rewrite bind_ret_l. eexists. reflexivity. }
  assert (Hbad : (exists tw author text,
                     tweet = PDict tw
                     /\ X.get tw "author" (PDict []) = PDict author
                     /\ X.get tw "text" (PStr EmptyString) = PStr text)
                 \/ snd (X.tweet_item env username tweet) = Raise AttributeError).
  { destruct tweet as [| b | n | s | l | tw]; try (right; reflexivity).
    destruct (X.get tw "author" (PDict [])) as [| b | n | s | l | author] eqn:Ea;
      try (right; unfold X.tweet_item;
           change (X.as_dict (PDict tw)) with (ret tw); rewrite bind_ret_l, Ea;
           reflexivity).
    destruct (X.get tw "text" (PStr EmptyString)) as [| b | n | text | l | d] eqn:Et;
      try (right; unfold X.tweet_item;
           change (X.as_dict (PDict tw)) with (ret tw); rewrite bind_ret_l, Ea;
           change (X.as_dict (PDict author)) with (ret author); rewrite !bind_ret_l;
           cbv zeta; rewrite Et; reflexivity).
    left. exists tw, author, text. auto. }
  split; [split |].
  - intros [it Hit]. destruct Hbad as [H | H]; [exact H | congruence].
  - intros (tw & author & text & -> & Ha & Ht).
    destruct (Hgood tw author text Ha Ht) as [it Hit]. exists it. now rewrite Hit.
  - intros e He. destruct Hbad as [(tw & author & text & -> & Ha & Ht) | H].
    + destruct (Hgood tw author text Ha Ht) as [it Hit]. rewrite Hit in He.
      discriminate He.
    + congruence.
Qed.


